(** * The local-library catalog controllers

    A shallow embedding of the four entity controllers of the catalog
    (Author, Book, Genre, BookInstance) together with the parts of the
    document store, of the validation chains and of the response object
    that the controllers call.

    Conventions of the model.
    - A string is the UTF-8 encoding of a JavaScript string: the text of
      a form field as the body parser decoded it, and the titles and
      messages of the controllers as the source writes them.  White space
      and the length of a text are read character by character in that
      encoding.
    - An identifier ([oid]) is an ObjectId in its canonical text, 24
      hexadecimal digits in lower case.  The identifier of the URL and
      the hidden field of a delete form are taken in that form.  A field
      of a form that names a reference is a text, which Mongoose casts: a
      text that is no ObjectId leaves the path unset.
    - A collection is the list of its documents in the store's natural
      order.
    - The response object records every call made on it, in order.  The
      first call is what the client receives; a later call cannot alter
      it (Node rejects it with ERR_HTTP_HEADERS_SENT).  How a later call
      ends is not modelled: it is recorded like the first. *)

From Stdlib Require Import String Ascii List Bool Arith ZArith Lia.
From Stdlib Require Import Sorted Permutation.
Import ListNotations.
Open Scope string_scope.
Open Scope list_scope.
Open Scope nat_scope.

Definition oid := string.
Definition date := Z.

(** A field of a document or of a request body that JavaScript may leave
    [undefined], set to [null], or set to a value. *)
Inductive optional (A : Type) : Type :=
| Undefined
| Null
| Val (a : A).
Arguments Undefined {A}.
Arguments Null {A}.
Arguments Val {A} a.

(** ** Strings as validator.js sees them *)
Module JS.

(** The UTF-8 encoding of a code point below U+10000. *)
Definition utf8 (code_point : N) : string :=
  if (code_point <? 128)%N then String (ascii_of_N code_point) EmptyString
  else if (code_point <? 2048)%N then
    String (ascii_of_N (192 + code_point / 64))
      (String (ascii_of_N (128 + code_point mod 64)) EmptyString)
  else
    String (ascii_of_N (224 + code_point / 4096))
      (String (ascii_of_N (128 + (code_point / 64) mod 64))
         (String (ascii_of_N (128 + code_point mod 64)) EmptyString)).

(** The characters of the class [\s] of a regular expression, by code
    point: the white space and the line terminators of ECMAScript (tab to
    carriage return, the space, U+00A0, U+1680, U+2000 to U+200A, U+2028,
    U+2029, U+202F, U+205F, U+3000 and U+FEFF). *)
Definition white_space : list string :=
  Eval vm_compute in
    List.map utf8
      [9; 10; 11; 12; 13; 32; 160; 5760;
       8192; 8193; 8194; 8195; 8196; 8197; 8198; 8199; 8200; 8201; 8202;
       8232; 8233; 8239; 8287; 12288; 65279]%N.

(** [w] is the beginning of [s]. *)
Fixpoint starts_with (w s : string) : bool :=
  match w, s with
  | EmptyString, _ => true
  | String a w', String b s' => Ascii.eqb a b && starts_with w' s'
  | String _ _, EmptyString => false
  end.

(** The number of bytes of the white-space character a text begins with,
    and 0 when it begins with none. *)
Definition space_width (s : string) : nat :=
  match List.find (fun w => starts_with w s) white_space with
  | Some w => String.length w
  | None => 0
  end.

(** [ltrim]: [str.replace(/^\s+/g, '')]. *)
Fixpoint ltrim (s : string) : string :=
  match space_width s, s with
  | 1, String _ r => ltrim r
  | 2, String _ (String _ r) => ltrim r
  | 3, String _ (String _ (String _ r)) => ltrim r
  | _, _ => s
  end.

(** A text made of white space only. *)
Definition all_space (s : string) : bool :=
  match ltrim s with
  | EmptyString => true
  | String _ _ => false
  end.

(** [rtrim]: the text up to its last character that is no white space;
    what follows that character is white space only. *)
Fixpoint rtrim (s : string) : string :=
  match s with
  | EmptyString => EmptyString
  | String c r => if all_space s then EmptyString else String c (rtrim r)
  end.

(** [trim(str)] is [rtrim(ltrim(str))]. *)
Definition trim (s : string) : string := rtrim (ltrim s).

(** The replacement [escape] makes for one character. *)
Definition escape_char (c : ascii) : string :=
  let n := nat_of_ascii c in
  if n =? 38 then "&amp;"
  else if n =? 34 then "&quot;"
  else if n =? 39 then "&#x27;"
  else if n =? 60 then "&lt;"
  else if n =? 62 then "&gt;"
  else if n =? 47 then "&#x2F;"
  else if n =? 92 then "&#x5C;"
  else if n =? 96 then "&#96;"
  else String c EmptyString.

(** [escape(str)]: the ampersand is replaced first, so no replacement is
    escaped again and the function acts character by character. *)
Fixpoint escape (s : string) : string :=
  match s with
  | EmptyString => EmptyString
  | String c r => (escape_char c ++ escape r)%string
  end.

(** A byte that continues a character begun by an earlier byte. *)
Definition is_continuation (c : ascii) : bool :=
  let n := nat_of_ascii c in (128 <=? n) && (n <=? 191).

(** The number of characters of a text: [str.length] less the number of
    surrogate pairs, so that a character outside the basic plane counts
    once. *)
Fixpoint characters (s : string) : nat :=
  match s with
  | EmptyString => 0
  | String c r => (if is_continuation c then 0 else 1) + characters r
  end.

(** [isLength(str, {min})] compares the number of characters.  The
    variation selectors U+FE0E and U+FE0F are counted here like any
    character; the versions of validator.js differ on them (see
    [plain]). *)
Definition isLength (min : nat) (s : string) : bool := min <=? characters s.

Definition is_alnum (c : ascii) : bool :=
  let n := nat_of_ascii c in
  ((48 <=? n) && (n <=? 57)) || ((65 <=? n) && (n <=? 90))
  || ((97 <=? n) && (n <=? 122)).

Fixpoint all_chars (p : ascii -> bool) (s : string) : bool :=
  match s with
  | EmptyString => true
  | String c r => p c && all_chars p r
  end.

(** [isAlphanumeric(str)] in the default locale: [/^[0-9A-Z]+$/i]. *)
Definition isAlphanumeric (s : string) : bool :=
  match s with
  | EmptyString => false
  | _ => all_chars is_alnum s
  end.

(** Case folding of one ASCII letter. *)
Definition lower_char (c : ascii) : ascii :=
  let n := nat_of_ascii c in
  if (65 <=? n) && (n <=? 90) then ascii_of_nat (n + 32) else c.

Fixpoint toLowerCase (s : string) : string :=
  match s with
  | EmptyString => EmptyString
  | String c r => String (lower_char c) (toLowerCase r)
  end.

(** [toString] of express-validator on a field that is a string or is
    missing: a missing field reads as the empty string. *)
Definition toString (v : option string) : string :=
  match v with
  | Some s => s
  | None => EmptyString
  end.

End JS.

(** ** Validation chains of express-validator *)
Module Validator.

(** One entry of [errors.array()]. *)
Record ValidationError := mkError {
  path : string;
  msg : string;
  value : string
}.

(** The two kinds of item a chain on a text field is built from. *)
Inductive item :=
| Sanitizer (f : string -> string)
| Check (p : string -> bool) (message : string).

(** Runs the items in order on the current value.  A sanitizer replaces
    the value; a failed check records an error and the chain goes on
    (no [bail]). *)
Fixpoint run_items (field : string) (items : list item) (v : string)
  : string * list ValidationError :=
  match items with
  | [] => (v, [])
  | Sanitizer f :: rest => run_items field rest (f v)
  | Check p message :: rest =>
      let '(v', errs) := run_items field rest v in
      (v', if p v then errs else mkError field message v :: errs)
  end.

(** [body(field)...] on a text field: every chain of the controllers
    starts with a sanitizer, which reads the field through [toString]. *)
Definition body (field : string) (items : list item) (v : option string)
  : string * list ValidationError :=
  run_items field items (JS.toString v).

(** What a date field of the body holds once its chain has run:
    [undefined] when the field was not sent, the empty string when it was
    sent empty, and otherwise what [toDate] made of the text ([None] is
    JavaScript's [null]). *)
Inductive date_value :=
| NotSent
| Blank
| Converted (d : option date).

Section DateChain.

(** [isISO8601] and [toDate] of validator.js. *)
Variable isISO8601 : string -> bool.
Variable toDate : string -> option date.

(** [body(field, message).optional({ values: "falsy" }).isISO8601().toDate()]:
    a falsy value skips the whole chain and is left as it is. *)
Definition body_date (field message : string) (v : option string)
  : date_value * list ValidationError :=
  match v with
  | None => (NotSent, [])
  | Some EmptyString => (Blank, [])
  | Some s =>
      (Converted (toDate s),
       if isISO8601 s then [] else [mkError field message s])
  end.

End DateChain.

End Validator.

(** ** The document store *)

(** A hexadecimal digit, in either case. *)
Definition is_hex (c : ascii) : bool :=
  let n := nat_of_ascii c in
  ((48 <=? n) && (n <=? 57)) || ((65 <=? n) && (n <=? 70))
  || ((97 <=? n) && (n <=? 102)).

(** The texts that write an ObjectId: 24 hexadecimal digits. *)
Definition is_ObjectId (s : string) : bool :=
  (String.length s =? 24) && JS.all_chars is_hex s.

(** A Mongoose cast of a reference.  A text of 24 hexadecimal digits
    casts to the ObjectId it writes, whose canonical text is in lower
    case; any other text, the empty string among them, is no ObjectId: the
    cast fails and the path is left unset. *)
Definition castObjectId (s : string) : option oid :=
  if is_ObjectId s then Some (JS.toLowerCase s) else None.

(** The cast of the elements of an array of references, which fails when
    an element is no ObjectId. *)
Fixpoint castObjectIds (l : list string) : option (list oid) :=
  match l with
  | [] => Some []
  | x :: rest =>
      match castObjectId x, castObjectIds rest with
      | Some i, Some ids => Some (i :: ids)
      | _, _ => None
      end
  end.

(** A path of array type whose cast failed keeps its default value, the
    empty array. *)
Definition or_empty {A : Type} (cast : option (list A)) : list A :=
  match cast with
  | Some l => l
  | None => []
  end.

(** Whether a cast gave a value.  A failed cast is recorded on the
    document as a CastError, and [save] then rejects the document. *)
Definition cast_ok {A : Type} (cast : option A) : bool :=
  match cast with
  | Some _ => true
  | None => false
  end.

(** A Mongoose cast of a date path: the empty string is stored as
    [null]. *)
Definition castDate (v : Validator.date_value) : optional date :=
  match v with
  | Validator.NotSent => Undefined
  | Validator.Blank => Null
  | Validator.Converted None => Null
  | Validator.Converted (Some d) => Val d
  end.

(** What an update with [$set] does to one path: a path that the update
    document leaves [undefined] keeps its stored value. *)
Definition set_path {A : Type} (stored update : optional A) : optional A :=
  match update with
  | Undefined => stored
  | _ => update
  end.

(** The same for a reference path, which is set or unset. *)
Definition set_ref (stored update : option oid) : option oid :=
  match update with
  | None => stored
  | Some _ => update
  end.

(** Operations shared by the four models, over a collection kept in
    natural order. *)
Module Model.
Section Collection.

Variable doc : Type.
Variable id_of : doc -> oid.

(** [findById(id)]: the document with that identifier, or [null]. *)
Definition findById (id : oid) (c : list doc) : option doc :=
  List.find (fun d => String.eqb (id_of d) id) c.

(** [find(filter)]: the matching documents, in natural order. *)
Definition find (filter : doc -> bool) (c : list doc) : list doc :=
  List.filter filter c.

(** [findOne(filter)]: the first matching document, or [null]. *)
Definition findOne (filter : doc -> bool) (c : list doc) : option doc :=
  List.find filter c.

(** The collection once [findByIdAndDelete(id)] has run: the document
    with that identifier is removed, if there is one. *)
Fixpoint deleteById (id : oid) (c : list doc) : list doc :=
  match c with
  | [] => []
  | d :: rest =>
      if String.eqb (id_of d) id then rest else d :: deleteById id rest
  end.

(** The collection once [findByIdAndUpdate(id, update)] has run, where
    [apply stored] is the stored document with the update applied.
    Nothing is inserted when no document has that identifier. *)
Fixpoint updateById (id : oid) (apply : doc -> doc) (c : list doc)
  : list doc :=
  match c with
  | [] => []
  | d :: rest =>
      if String.eqb (id_of d) id then apply d :: rest
      else d :: updateById id apply rest
  end.

(** Insertion of a new document at the end of the natural order. *)
Definition insert (d : doc) (c : list doc) : list doc := c ++ [d].

(** [sort({ field: 1 })] on a text field: ascending in the binary order
    of strings.  The store leaves the order of equal keys open; the model
    keeps them in natural order. *)
Section Sort.
Variable key : doc -> string.

Fixpoint insert_sorted (x : doc) (l : list doc) : list doc :=
  match l with
  | [] => [x]
  | y :: rest =>
      if String.leb (key x) (key y) then x :: l
      else y :: insert_sorted x rest
  end.

Definition sort (l : list doc) : list doc :=
  List.fold_right insert_sorted [] l.

End Sort.

End Collection.

Arguments findById {doc} id_of id c.
Arguments find {doc} filter c.
Arguments findOne {doc} filter c.
Arguments deleteById {doc} id_of id c.
Arguments updateById {doc} id_of id apply c.
Arguments insert {doc} d c.
Arguments insert_sorted {doc} key x l.
Arguments sort {doc} key l.

End Model.

(** A text that is not empty once trimmed. *)
Definition non_empty (s : string) : bool :=
  negb (String.eqb (JS.trim s) EmptyString).

(** *** Author *)
Module Author.

Record t := mk {
  _id : oid;
  first_name : string;
  family_name : string;
  date_of_birth : optional date;
  date_of_death : optional date
}.

(** Modelled from the spec: the [url] virtual of models/author.js, which
    is not among the controllers; the detail view of an entity is served
    at [/{entity}/{id}] under the catalog prefix. *)
Definition url (a : t) : string := ("/catalog/author/" ++ _id a)%string.

(** Modelled from the spec: the validators of the schema in
    models/author.js; the name fields are non-empty after trim. *)
Definition validate (a : t) : bool :=
  non_empty (first_name a) && non_empty (family_name a).

(** The stored document after an update with the document [u]. *)
Definition set (u stored : t) : t :=
  mk (_id stored) (first_name u) (family_name u)
     (set_path (date_of_birth stored) (date_of_birth u))
     (set_path (date_of_death stored) (date_of_death u)).

End Author.

(** *** Genre *)
Module Genre.

Record t := mk {
  _id : oid;
  name : string
}.

(** Modelled from the spec: the [url] virtual of models/genre.js. *)
Definition url (g : t) : string := ("/catalog/genre/" ++ _id g)%string.

(** Modelled from the spec: the validators of the schema in
    models/genre.js; the name has at least three characters after trim. *)
Definition validate (g : t) : bool :=
  3 <=? JS.characters (JS.trim (name g)).

Definition set (u stored : t) : t := mk (_id stored) (name u).

(** Equality of names under the collation [{ locale: "en", strength: 2 }],
    which ignores the case of letters: equality once the ASCII letters
    are folded to lower case, which is what the collation decides on
    names of printable ASCII characters. *)
Definition same_name (n : string) (g : t) : bool :=
  String.eqb (JS.toLowerCase (name g)) (JS.toLowerCase n).

End Genre.

(** *** Book *)
Module Book.

Record t := mk {
  _id : oid;
  title : string;
  author : option oid;
  summary : string;
  isbn : string;
  genre : list oid
}.

(** Modelled from the spec: the [url] virtual of models/book.js. *)
Definition url (b : t) : string := ("/catalog/book/" ++ _id b)%string.

(** Modelled from the spec: the validators of the schema in
    models/book.js; title, summary and ISBN are non-empty after trim. *)
Definition validate (b : t) : bool :=
  non_empty (title b) && non_empty (summary b) && non_empty (isbn b).

Definition set (u stored : t) : t :=
  mk (_id stored) (title u) (set_ref (author stored) (author u))
     (summary u) (isbn u) (genre u).

(** The filter [{ author: id }]. *)
Definition by_author (id : oid) (b : t) : bool :=
  match author b with
  | Some a => String.eqb a id
  | None => false
  end.

(** The filter [{ genre: id }]: the array holds the identifier. *)
Definition by_genre (id : oid) (b : t) : bool :=
  List.existsb (String.eqb id) (genre b).

(** [book.genre.indexOf(id) > -1] and [book.genre.includes(id)]. *)
Definition has_genre (b : t) (id : oid) : bool :=
  List.existsb (String.eqb id) (genre b).

End Book.

(** *** BookInstance *)
Module BookInstance.

Record t := mk {
  _id : oid;
  book : option oid;
  imprint : string;
  status : string;
  due_back : optional date
}.

(** Modelled from the spec: the [url] virtual of models/bookinstance.js. *)
Definition url (i : t) : string :=
  ("/catalog/bookinstance/" ++ _id i)%string.

Definition statuses : list string :=
  ["Available"; "Maintenance"; "Loaned"; "Reserved"].

(** Modelled from the spec: the validators of the schema in
    models/bookinstance.js; the imprint is non-empty after trim and the
    status is one of the enumerated values.  The schema is taken to
    declare no default values. *)
Definition validate (i : t) : bool :=
  non_empty (imprint i) && List.existsb (String.eqb (status i)) statuses.

Definition set (u stored : t) : t :=
  mk (_id stored) (set_ref (book stored) (book u)) (imprint u) (status u)
     (set_path (due_back stored) (due_back u)).

(** The filter [{ book: id }]. *)
Definition by_book (id : oid) (i : t) : bool :=
  match book i with
  | Some b => String.eqb b id
  | None => false
  end.

End BookInstance.

(** The four collections. *)
Record store := mkStore {
  authors : list Author.t;
  books : list Book.t;
  genres : list Genre.t;
  bookinstances : list BookInstance.t
}.

(** [populate("author")] on a book: the reference is replaced by the
    document it names, or by [null]. *)
Definition populate_author (s : store) (b : Book.t) : option Author.t :=
  match Book.author b with
  | Some a => Model.findById Author._id a (authors s)
  | None => None
  end.

(** [populate("genre")] on a book: the documents the array names. *)
Definition populate_genre (s : store) (b : Book.t) : list Genre.t :=
  List.flat_map
    (fun g =>
       match Model.findById Genre._id g (genres s) with
       | Some d => [d]
       | None => []
       end)
    (Book.genre b).

(** [populate("book")] on a copy. *)
Definition populate_book (s : store) (i : BookInstance.t) : option Book.t :=
  match BookInstance.book i with
  | Some b => Model.findById Book._id b (books s)
  | None => None
  end.

(** ** Requests *)

(** The body of an author form: [S] is the type of a text field and [D]
    of a date field, before and after the validation chains. *)
Record author_body (S D : Type) := mkAuthorBody {
  first_name : S;
  family_name : S;
  date_of_birth : D;
  date_of_death : D
}.
Arguments mkAuthorBody {S D}.
Arguments first_name {S D}.
Arguments family_name {S D}.
Arguments date_of_birth {S D}.
Arguments date_of_death {S D}.

Record genre_body (S : Type) := mkGenreBody {
  name : S
}.
Arguments mkGenreBody {S}.
Arguments name {S}.

(** A multi-select field as the body parser delivers it: missing, one
    value, or an array. *)
Inductive multi :=
| Missing
| Single (v : string)
| Many (l : list string).

Record book_body (S : Type) := mkBookBody {
  title : S;
  author : S;
  summary : S;
  isbn : S;
  genre : multi
}.
Arguments mkBookBody {S}.
Arguments title {S}.
Arguments author {S}.
Arguments summary {S}.
Arguments isbn {S}.
Arguments genre {S}.

Record bookinstance_body (S D : Type) := mkBookInstanceBody {
  book : S;
  imprint : S;
  status : S;
  due_back : D
}.
Arguments mkBookInstanceBody {S D}.
Arguments book {S D}.
Arguments imprint {S D}.
Arguments status {S D}.
Arguments due_back {S D}.

(** The hidden field of the author delete form. *)
Record authorid_body := mkAuthoridBody {
  authorid : oid
}.

(** The hidden field of the other delete forms. *)
Record id_body := mkIdBody {
  id : oid
}.

(** ** The response object and the handler monad *)

(** A value handed to a template. *)
Inductive value :=
| Text (s : string)
| Errors (l : list Validator.ValidationError)
| Ref (r : oid)
| AuthorDoc (a : option Author.t)
| AuthorDocs (l : list Author.t)
| GenreDoc (g : option Genre.t)
| GenreDocs (l : list Genre.t)
| GenreChoices (l : list (Genre.t * bool))
| BookDoc (b : Book.t)
| BookPopulated (b : option (Book.t * option Author.t * list Genre.t))
| BookDocs (l : list Book.t)
| BookWithAuthor (l : list (Book.t * option Author.t))
| BookInstanceDoc (i : BookInstance.t)
| BookInstancePopulated (i : option (BookInstance.t * option Book.t))
| BookInstanceDocs (l : list BookInstance.t)
| BookInstanceWithBook (l : list (BookInstance.t * option Book.t)).

Definition locals := list (string * value).

(** A call on the response object. *)
Inductive call :=
| Redirect (location : string)
| Render (view : string) (data : locals).

(** What a handler can reject with; the wrapper of the handler passes it
    to [next]. *)
Inductive error :=
| TypeError (reading : string)
| ValidationFailed
| DuplicateKey.

Record world := mkWorld {
  db : store;
  res : list call
}.

Inductive result (A : Type) :=
| Return (a : A)
| Throw (e : error).
Arguments Return {A} a.
Arguments Throw {A} e.

Definition M (A : Type) := world -> result A * world.

Definition ret {A : Type} (a : A) : M A := fun w => (Return a, w).

Definition throw {A : Type} (e : error) : M A := fun w => (Throw e, w).

Definition bind {A B : Type} (m : M A) (k : A -> M B) : M B :=
  fun w =>
    match m w with
    | (Return a, w') => k a w'
    | (Throw e, w') => (Throw e, w')
    end.

Declare Scope handler_scope.
Delimit Scope handler_scope with handler.
Bind Scope handler_scope with M.
Notation "x <- m ;; k" := (bind m (fun x => k))
  (at level 61, m at next level, right associativity) : handler_scope.
Notation "m ;; k" := (bind m (fun _ => k))
  (at level 61, right associativity) : handler_scope.
Open Scope handler_scope.

(** [res.redirect(location)]. *)
Definition res_redirect (location : string) : M unit :=
  fun w => (Return tt, mkWorld (db w) (res w ++ [Redirect location])).

(** [res.render(view, data)]. *)
Definition res_render (view : string) (data : locals) : M unit :=
  fun w => (Return tt, mkWorld (db w) (res w ++ [Render view data])).

(** A read of the store. *)
Definition query {A : Type} (f : store -> A) : M A :=
  fun w => (Return (f (db w)), w).

(** A write to the store. *)
Definition modify (f : store -> store) : M unit :=
  fun w => (Return tt, mkWorld (f (db w)) (res w)).

(** Reading a property of a value that may be [null] or [undefined]. *)
Definition property_of {A : Type} (reading : string) (o : option A) : M A :=
  match o with
  | Some a => ret a
  | None => throw (TypeError reading)
  end.

(** What the client receives: the first call made on the response. *)
Definition response (w : world) : option call := List.hd_error (res w).

Definition with_authors (f : list Author.t -> list Author.t) (s : store) :=
  mkStore (f (authors s)) (books s) (genres s) (bookinstances s).
Definition with_books (f : list Book.t -> list Book.t) (s : store) :=
  mkStore (authors s) (f (books s)) (genres s) (bookinstances s).
Definition with_genres (f : list Genre.t -> list Genre.t) (s : store) :=
  mkStore (authors s) (books s) (f (genres s)) (bookinstances s).
Definition with_bookinstances
  (f : list BookInstance.t -> list BookInstance.t) (s : store) :=
  mkStore (authors s) (books s) (genres s) (f (bookinstances s)).

(** [doc.save()] on a new document: the document is validated (the
    casts that failed and the validators of the schema), and the store
    refuses an identifier it already holds. *)
Definition save {doc : Type} (id_of : doc -> oid) (validate : doc -> bool)
  (coll : store -> list doc)
  (put : (list doc -> list doc) -> store -> store) (d : doc) : M unit :=
  if negb (validate d) then throw ValidationFailed
  else
    held <- query (fun s => Model.findById id_of (id_of d) (coll s)) ;;
    match held with
    | Some _ => throw DuplicateKey
    | None => modify (put (Model.insert d))
    end.

(** [Model.findByIdAndUpdate(id, update)]: applies the update to the
    stored document and resolves to the document as it was before, or to
    [null] when there is none. *)
Definition findByIdAndUpdate {doc : Type} (id_of : doc -> oid)
  (set : doc -> doc -> doc) (coll : store -> list doc)
  (put : (list doc -> list doc) -> store -> store) (i : oid) (u : doc)
  : M (option doc) :=
  before <- query (fun s => Model.findById id_of i (coll s)) ;;
  modify (put (Model.updateById id_of i (set u))) ;;
  ret before.

(** [Model.findByIdAndDelete(id)]. *)
Definition findByIdAndDelete {doc : Type} (id_of : doc -> oid)
  (put : (list doc -> list doc) -> store -> store) (i : oid) : M unit :=
  modify (put (Model.deleteById id_of i)).

(** A text field as the client posted it: a string, or missing. *)
Definition posted_text : Type := option string.

(** ** The controllers *)
Section Controllers.

(** [isISO8601] and [toDate] of validator.js. *)
Variable isISO8601 : string -> bool.
Variable toDate : string -> option date.

Definition isEmpty (errors : list Validator.ValidationError) : bool :=
  match errors with
  | [] => true
  | _ => false
  end.

(** *** Author controller *)

(** The chain on [first_name]; [withMessage] attaches to the check that
    precedes it. *)
Definition first_name_chain : list Validator.item :=
  [Validator.Sanitizer JS.trim;
   Validator.Check (JS.isLength 1) "名は必須です。";
   Validator.Sanitizer JS.escape;
   Validator.Check JS.isAlphanumeric "名には英数字のみ使用できます。"].

Definition family_name_chain : list Validator.item :=
  [Validator.Sanitizer JS.trim;
   Validator.Check (JS.isLength 1) "姓は必須です。";
   Validator.Sanitizer JS.escape;
   Validator.Check JS.isAlphanumeric "姓には英数字のみ使用できます。"].

(** The four chains placed before the create and the update handler:
    the body as the handler reads it, and [validationResult(req)]. *)
Definition author_chains (posted : author_body posted_text posted_text)
  : author_body string Validator.date_value
    * list Validator.ValidationError :=
  let '(first, e1) :=
    Validator.body "first_name" first_name_chain (first_name posted) in
  let '(family, e2) :=
    Validator.body "family_name" family_name_chain (family_name posted) in
  let '(birth, e3) :=
    Validator.body_date isISO8601 toDate "date_of_birth"
      "生年月日が無効です" (date_of_birth posted) in
  let '(death, e4) :=
    Validator.body_date isISO8601 toDate "date_of_death"
      "没年月日が無効です" (date_of_death posted) in
  (mkAuthorBody first family birth death, e1 ++ e2 ++ e3 ++ e4).

(** [Author.find().sort({ family_name: 1 })], then the list template. *)
Definition author_list : M unit :=
  allAuthors <- query (fun s => Model.sort Author.family_name (authors s)) ;;
  res_render "author_list"
    [("title", Text "著者一覧"); ("author_list", AuthorDocs allAuthors)].

(** [new_id] is the identifier the model constructor generates. *)
Definition author_create_post (new_id : oid)
  (posted : author_body posted_text posted_text) : M unit :=
  let '(body, errors) := author_chains posted in
  let author :=
    Author.mk new_id (first_name body) (family_name body)
      (castDate (date_of_birth body)) (castDate (date_of_death body)) in
  if negb (isEmpty errors) then
    res_render "author_form"
      [("title", Text "著者の作成"); ("author", AuthorDoc (Some author));
       ("errors", Errors errors)]
  else
    save Author._id Author.validate authors with_authors author ;;
    res_redirect (Author.url author).

(** [params_id] is [req.params.id].  The redirect for a null author is
    not followed by a [return]: the handler goes on to the render. *)
Definition author_delete_get (params_id : oid) : M unit :=
  author <- query (fun s => Model.findById Author._id params_id (authors s)) ;;
  allBooksByAuthor <-
    query (fun s => Model.find (Book.by_author params_id) (books s)) ;;
  match author with
  | None => res_redirect "/catalog/authors"
  | Some _ => ret tt
  end ;;
  res_render "author_delete"
    [("title", Text "著者の削除"); ("author", AuthorDoc author);
     ("author_books", BookDocs allBooksByAuthor)].

(** The author and the books are found with [req.params.id]; the
    deletion takes [req.body.authorid]. *)
Definition author_delete_post (params_id : oid) (body : authorid_body)
  : M unit :=
  author <- query (fun s => Model.findById Author._id params_id (authors s)) ;;
  allBooksByAuthor <-
    query (fun s => Model.find (Book.by_author params_id) (books s)) ;;
  if 0 <? List.length allBooksByAuthor then
    res_render "author_delete"
      [("title", Text "著者の削除"); ("author", AuthorDoc author);
       ("author_books", BookDocs allBooksByAuthor)]
  else
    findByIdAndDelete Author._id with_authors (authorid body) ;;
    res_redirect "/catalog/authors".

(** The document is built with [_id: req.params.id]; the result of
    [findByIdAndUpdate] is not read. *)
Definition author_update_post (params_id : oid)
  (posted : author_body posted_text posted_text) : M unit :=
  let '(body, errors) := author_chains posted in
  let author :=
    Author.mk params_id (first_name body) (family_name body)
      (castDate (date_of_birth body)) (castDate (date_of_death body)) in
  if negb (isEmpty errors) then
    res_render "author_form"
      [("title", Text "著者の更新"); ("author", AuthorDoc (Some author));
       ("errors", Errors errors)]
  else
    findByIdAndUpdate Author._id Author.set authors with_authors
      params_id author ;;
    res_redirect (Author.url author).

(** *** Genre controller *)

(** The chain on [name], placed before the create and the update handler. *)
Definition genre_chains (posted : genre_body posted_text)
  : genre_body string * list Validator.ValidationError :=
  let '(n, e1) :=
    Validator.body "name"
      [Validator.Sanitizer JS.trim;
       Validator.Check (JS.isLength 3)
         "ジャンル名は3文字以上で入力してください";
       Validator.Sanitizer JS.escape]
      (name posted) in
  (mkGenreBody n, e1).

(** [Genre.find().sort({ name: 1 })]. *)
Definition genre_list : M unit :=
  allGenres <- query (fun s => Model.sort Genre.name (genres s)) ;;
  res_render "genre_list"
    [("title", Text "ジャンル一覧"); ("list_genres", GenreDocs allGenres)].

(** After a valid submission, [findOne] under the case-insensitive
    collation decides between the redirect to the genre found and the
    save of the new one. *)
Definition genre_create_post (new_id : oid) (posted : genre_body posted_text)
  : M unit :=
  let '(body, errors) := genre_chains posted in
  let genre := Genre.mk new_id (name body) in
  if negb (isEmpty errors) then
    res_render "genre_form"
      [("title", Text "ジャンル作成"); ("genre", GenreDoc (Some genre));
       ("errors", Errors errors)]
  else
    genreExists <-
      query (fun s => Model.findOne (Genre.same_name (name body)) (genres s)) ;;
    match genreExists with
    | Some existing => res_redirect (Genre.url existing)
    | None =>
        save Genre._id Genre.validate genres with_genres genre ;;
        res_redirect (Genre.url genre)
    end.

(** As for the author: no [return] after the redirect. *)
Definition genre_delete_get (params_id : oid) : M unit :=
  genre <- query (fun s => Model.findById Genre._id params_id (genres s)) ;;
  booksInGenre <-
    query (fun s => Model.find (Book.by_genre params_id) (books s)) ;;
  match genre with
  | None => res_redirect "/catalog/genres"
  | Some _ => ret tt
  end ;;
  res_render "genre_delete"
    [("title", Text "ジャンル削除"); ("genre", GenreDoc genre);
     ("genre_books", BookDocs booksInGenre)].

(** The genre and the books are found with [req.params.id]; the deletion
    takes [req.body.id]. *)
Definition genre_delete_post (params_id : oid) (body : id_body) : M unit :=
  genre <- query (fun s => Model.findById Genre._id params_id (genres s)) ;;
  booksInGenre <-
    query (fun s => Model.find (Book.by_genre params_id) (books s)) ;;
  if 0 <? List.length booksInGenre then
    res_render "genre_delete"
      [("title", Text "ジャンル削除"); ("genre", GenreDoc genre);
       ("genre_books", BookDocs booksInGenre)]
  else
    findByIdAndDelete Genre._id with_genres (id body) ;;
    res_redirect "/catalog/genres".

(** As for the author. *)
Definition genre_update_post (params_id : oid)
  (posted : genre_body posted_text) : M unit :=
  let '(body, errors) := genre_chains posted in
  let genre := Genre.mk params_id (name body) in
  if negb (isEmpty errors) then
    res_render "genre_form"
      [("title", Text "ジャンル更新"); ("genre", GenreDoc (Some genre));
       ("errors", Errors errors)]
  else
    findByIdAndUpdate Genre._id Genre.set genres with_genres
      params_id genre ;;
    res_redirect (Genre.url genre).

(** *** Book controller *)

(** The first middleware of the create and update routes: turns the
    genre field into an array. *)
Definition genre_to_array {S : Type} (body : book_body S) : book_body S :=
  match genre body with
  | Many _ => body
  | Missing =>
      mkBookBody (title body) (author body) (summary body) (isbn body)
        (Many [])
  | Single v =>
      mkBookBody (title body) (author body) (summary body) (isbn body)
        (Many [v])
  end.

(** [body(field, message).trim().isLength({ min: 1 }).escape()]. *)
Definition required_chain (message : string) : list Validator.item :=
  [Validator.Sanitizer JS.trim;
   Validator.Check (JS.isLength 1) message;
   Validator.Sanitizer JS.escape].

(** [body("genre.*").escape()]: the wildcard selects the elements of an
    array. *)
Definition escape_each (g : multi) : multi :=
  match g with
  | Many l => Many (List.map JS.escape l)
  | _ => g
  end.

(** The five chains of the book routes. *)
Definition book_chains (posted : book_body posted_text)
  : book_body string * list Validator.ValidationError :=
  let '(t, e1) :=
    Validator.body "title" (required_chain "タイトルは必須です。")
      (title posted) in
  let '(a, e2) :=
    Validator.body "author" (required_chain "著者は必須です。")
      (author posted) in
  let '(s, e3) :=
    Validator.body "summary" (required_chain "概要は必須です。")
      (summary posted) in
  let '(i, e4) :=
    Validator.body "isbn" (required_chain "ISBNは必須です") (isbn posted) in
  (mkBookBody t a s i (escape_each (genre posted)), e1 ++ e2 ++ e3 ++ e4).

(** The Mongoose cast of a value to an array; its elements are then cast
    by [castObjectIds]. *)
Definition castArray (g : multi) : list string :=
  match g with
  | Missing => []
  | Single v => [v]
  | Many l => l
  end.

(** Marks the genres the book holds: [genre.checked = "true"]. *)
Definition check_genres (b : Book.t) (all : list Genre.t)
  : list (Genre.t * bool) :=
  List.map (fun g => (g, Book.has_genre b (Genre._id g))) all.

(** [Book.find({}, "title author").sort({ title: 1 }).populate("author")]. *)
Definition book_list : M unit :=
  allBooks <-
    query (fun s =>
             List.map (fun b => (b, populate_author s b))
               (Model.sort Book.title (books s))) ;;
  res_render "book_list"
    [("title", Text "本リスト"); ("book_list", BookWithAuthor allBooks)].

(** The last function of the create route.  [new Book] casts the author
    and the genres.  In the error branch the authors and genres are
    fetched again and the genres of the book are marked. *)
Definition book_create_handler (new_id : oid)
  (body : book_body string) (errors : list Validator.ValidationError)
  : M unit :=
  let author_cast := castObjectId (author body) in
  let genre_cast := castObjectIds (castArray (genre body)) in
  let book :=
    Book.mk new_id (title body) author_cast (summary body) (isbn body)
      (or_empty genre_cast) in
  if negb (isEmpty errors) then
    allAuthors <- query (fun s => Model.sort Author.family_name (authors s)) ;;
    allGenres <- query (fun s => Model.sort Genre.name (genres s)) ;;
    res_render "book_form"
      [("title", Text "本の作成"); ("authors", AuthorDocs allAuthors);
       ("genres", GenreChoices (check_genres book allGenres));
       ("book", BookDoc book); ("errors", Errors errors)]
  else
    save Book._id
      (fun b => cast_ok author_cast && cast_ok genre_cast && Book.validate b)
      books with_books book ;;
    res_redirect (Book.url book).

(** The route: the genre middleware, the chains, then the handler. *)
Definition book_create_post (new_id : oid) (posted : book_body posted_text)
  : M unit :=
  let '(body, errors) := book_chains (genre_to_array posted) in
  book_create_handler new_id body errors.

(** [.populate("author").populate("genre")]. *)
Definition populate_both (s : store) (b : Book.t)
  : Book.t * option Author.t * list Genre.t :=
  (b, populate_author s b, populate_genre s b).

(** No [return] after the redirect for a null book. *)
Definition book_delete_get (params_id : oid) : M unit :=
  book <-
    query (fun s =>
             option_map (populate_both s)
               (Model.findById Book._id params_id (books s))) ;;
  bookInstances <-
    query (fun s =>
             Model.find (BookInstance.by_book params_id) (bookinstances s)) ;;
  match book with
  | None => res_redirect "/catalog/books"
  | Some _ => ret tt
  end ;;
  res_render "book_delete"
    [("title", Text "本の削除"); ("book", BookPopulated book);
     ("book_instances", BookInstanceDocs bookInstances)].

(** The book and its copies are found with [req.params.id].  The redirect
    for a null book is not followed by a [return]; the guard on the copies
    comes next, and the deletion takes [req.body.id]. *)
Definition book_delete_post (params_id : oid) (body : id_body) : M unit :=
  book <-
    query (fun s =>
             option_map (populate_both s)
               (Model.findById Book._id params_id (books s))) ;;
  bookInstances <-
    query (fun s =>
             Model.find (BookInstance.by_book params_id) (bookinstances s)) ;;
  match book with
  | None => res_redirect "/catalog/books"
  | Some _ => ret tt
  end ;;
  if 0 <? List.length bookInstances then
    res_render "book_delete"
      [("title", Text "本の削除"); ("book", BookPopulated book);
       ("book_instances", BookInstanceDocs bookInstances)]
  else
    findByIdAndDelete Book._id with_books (id body) ;;
    res_redirect "/catalog/books".

(** The last function of the update route.  The redirect reads [url] of
    what [findByIdAndUpdate] resolved to. *)
Definition book_update_handler (params_id : oid)
  (body : book_body string) (errors : list Validator.ValidationError)
  : M unit :=
  let author_cast := castObjectId (author body) in
  let genre_cast :=
    castObjectIds
      (match genre body with
       | Missing => []
       | g => castArray g
       end) in
  let book :=
    Book.mk params_id (title body) author_cast (summary body) (isbn body)
      (or_empty genre_cast) in
  if negb (isEmpty errors) then
    allAuthors <- query (fun s => Model.sort Author.family_name (authors s)) ;;
    allGenres <- query (fun s => Model.sort Genre.name (genres s)) ;;
    res_render "book_form"
      [("title", Text "本の更新"); ("authors", AuthorDocs allAuthors);
       ("genres", GenreChoices (check_genres book allGenres));
       ("book", BookDoc book); ("errors", Errors errors)]
  else
    thebook <-
      findByIdAndUpdate Book._id Book.set books with_books params_id book ;;
    found <- property_of "url" thebook ;;
    res_redirect (Book.url found).

(** The route: the genre middleware, the chains, then the handler. *)
Definition book_update_post (params_id : oid)
  (posted : book_body posted_text) : M unit :=
  let '(body, errors) := book_chains (genre_to_array posted) in
  book_update_handler params_id body errors.

(** *** BookInstance controller *)

(** The four chains placed before the create and the update handler. *)
Definition bookinstance_chains
  (posted : bookinstance_body posted_text posted_text)
  : bookinstance_body string Validator.date_value
    * list Validator.ValidationError :=
  let '(b, e1) :=
    Validator.body "book" (required_chain "本を指定してください")
      (book posted) in
  let '(i, e2) :=
    Validator.body "imprint" (required_chain "出版情報を指定してください")
      (imprint posted) in
  let '(st, e3) :=
    Validator.body "status" [Validator.Sanitizer JS.escape]
      (status posted) in
  let '(d, e4) :=
    Validator.body_date isISO8601 toDate "due_back" "無効な日付です"
      (due_back posted) in
  (mkBookInstanceBody b i st d, e1 ++ e2 ++ e3 ++ e4).

(** [BookInstance.find().populate("book")]: no sort is asked for. *)
Definition bookinstance_list : M unit :=
  allBookInstances <-
    query (fun s =>
             List.map (fun i => (i, populate_book s i))
               (Model.find (fun _ => true) (bookinstances s))) ;;
  res_render "bookinstance_list"
    [("title", Text "蔵書インスタンス一覧");
     ("bookinstance_list", BookInstanceWithBook allBookInstances)].

(** [new BookInstance] casts the book.  In the error branch the books are
    fetched first, and the data of the view then reads
    [bookInstance.book._id]. *)
Definition bookinstance_create_post (new_id : oid)
  (posted : bookinstance_body posted_text posted_text) : M unit :=
  let '(body, errors) := bookinstance_chains posted in
  let book_cast := castObjectId (book body) in
  let bookInstance :=
    BookInstance.mk new_id book_cast (imprint body) (status body)
      (castDate (due_back body)) in
  if negb (isEmpty errors) then
    allBooks <- query (fun s => Model.sort Book.title (books s)) ;;
    selected_book <- property_of "_id" (BookInstance.book bookInstance) ;;
    res_render "bookinstance_form"
      [("title", Text "蔵書インスタンスの作成");
       ("book_list", BookDocs allBooks);
       ("selected_book", Ref selected_book);
       ("errors", Errors errors);
       ("bookinstance", BookInstanceDoc bookInstance)]
  else
    save BookInstance._id
      (fun i => cast_ok book_cast && BookInstance.validate i)
      bookinstances with_bookinstances bookInstance ;;
    res_redirect (BookInstance.url bookInstance).

(** No [return] after the redirect for a null copy. *)
Definition bookinstance_delete_get (params_id : oid) : M unit :=
  bookInstance <-
    query (fun s =>
             option_map (fun i => (i, populate_book s i))
               (Model.findById BookInstance._id params_id
                  (bookinstances s))) ;;
  match bookInstance with
  | None => res_redirect "/catalog/bookinstances"
  | Some _ => ret tt
  end ;;
  res_render "bookinstance_delete"
    [("title", Text "蔵書インスタンスの削除");
     ("bookinstance", BookInstancePopulated bookInstance)].

(** No check: the copy named by [req.body.id] is deleted. *)
Definition bookinstance_delete_post (body : id_body) : M unit :=
  findByIdAndDelete BookInstance._id with_bookinstances (id body) ;;
  res_redirect "/catalog/bookinstances".

(** As the create handler, with [_id: req.params.id] and an unsorted list
    of books in the error branch. *)
Definition bookinstance_update_post (params_id : oid)
  (posted : bookinstance_body posted_text posted_text) : M unit :=
  let '(body, errors) := bookinstance_chains posted in
  let bookInstance :=
    BookInstance.mk params_id (castObjectId (book body)) (imprint body)
      (status body) (castDate (due_back body)) in
  if negb (isEmpty errors) then
    allBooks <- query (fun s => Model.find (fun _ => true) (books s)) ;;
    selected_book <- property_of "_id" (BookInstance.book bookInstance) ;;
    res_render "bookinstance_form"
      [("title", Text "蔵書インスタンスの更新");
       ("book_list", BookDocs allBooks);
       ("selected_book", Ref selected_book);
       ("errors", Errors errors);
       ("bookinstance", BookInstanceDoc bookInstance)]
  else
    findByIdAndUpdate BookInstance._id BookInstance.set bookinstances
      with_bookinstances params_id bookInstance ;;
    res_redirect (BookInstance.url bookInstance).

End Controllers.

(** ** The handlers of the GET routes *)

(** The error a handler builds for a missing record and hands to [next]:
    [new Error(message)] with [err.status] set. *)
Record http_error := mkHttpError {
  error_message : string;
  error_status : nat
}.

(** A handler that may end in [return next(err)] resolves to the error
    it passed, or to [None] when [next] was not called. *)
Definition next (e : http_error) : M (option http_error) := ret (Some e).

(** *** Author *)

Definition author_detail (params_id : oid) : M (option http_error) :=
  author <- query (fun s => Model.findById Author._id params_id (authors s)) ;;
  allBooksByAuthor <-
    query (fun s => Model.find (Book.by_author params_id) (books s)) ;;
  match author with
  | None => next (mkHttpError "著者が見つかりません" 404)
  | Some _ =>
      res_render "author_detail"
        [("title", Text "著者詳細"); ("author", AuthorDoc author);
         ("author_books", BookDocs allBooksByAuthor)] ;;
      ret None
  end.

Definition author_create_get : M unit :=
  res_render "author_form" [("title", Text "著者の作成")].

Definition author_update_get (params_id : oid) : M (option http_error) :=
  author <- query (fun s => Model.findById Author._id params_id (authors s)) ;;
  match author with
  | None => next (mkHttpError "著者が見つかりません" 404)
  | Some _ =>
      res_render "author_form"
        [("title", Text "著者の更新"); ("author", AuthorDoc author)] ;;
      ret None
  end.

(** *** Genre *)

Definition genre_detail (params_id : oid) : M (option http_error) :=
  genre <- query (fun s => Model.findById Genre._id params_id (genres s)) ;;
  booksInGenre <-
    query (fun s => Model.find (Book.by_genre params_id) (books s)) ;;
  match genre with
  | None => next (mkHttpError "ジャンルが見つかりません" 404)
  | Some _ =>
      res_render "genre_detail"
        [("title", Text "ジャンル詳細"); ("genre", GenreDoc genre);
         ("genre_books", BookDocs booksInGenre)] ;;
      ret None
  end.

Definition genre_create_get : M unit :=
  res_render "genre_form" [("title", Text "ジャンル作成")].

Definition genre_update_get (params_id : oid) : M (option http_error) :=
  genre <- query (fun s => Model.findById Genre._id params_id (genres s)) ;;
  match genre with
  | None => next (mkHttpError "ジャンルが見つかりません" 404)
  | Some _ =>
      res_render "genre_form"
        [("title", Text "ジャンル更新"); ("genre", GenreDoc genre)] ;;
      ret None
  end.

(** *** Book *)

(** The data of the home page: the five counts. *)
Record index_data := mkIndexData {
  index_title : string;
  book_count : nat;
  book_instance_count : nat;
  book_instance_available_count : nat;
  author_count : nat;
  genre_count : nat
}.

(** [countDocuments(filter)]. *)
Definition countDocuments {doc : Type} (filter : doc -> bool) (c : list doc)
  : nat :=
  List.length (Model.find filter c).

(** The filter [{ status: "Available" }]. *)
Definition is_available (i : BookInstance.t) : bool :=
  String.eqb (BookInstance.status i) "Available".

(** The home page reads the five counts and renders once; it is given as
    the view it renders and the data it hands to it. *)
Definition index (s : store) : string * index_data :=
  let numBooks := countDocuments (fun _ => true) (books s) in
  let numBookInstances := countDocuments (fun _ => true) (bookinstances s) in
  let numAvailableBookInstances :=
    countDocuments is_available (bookinstances s) in
  let numAuthors := countDocuments (fun _ => true) (authors s) in
  let numGenres := countDocuments (fun _ => true) (genres s) in
  ("index",
   mkIndexData "ローカルライブラリ ホーム" numBooks numBookInstances
     numAvailableBookInstances numAuthors numGenres).

Definition book_detail (params_id : oid) : M (option http_error) :=
  book <-
    query (fun s =>
             option_map (populate_both s)
               (Model.findById Book._id params_id (books s))) ;;
  bookInstances <-
    query (fun s =>
             Model.find (BookInstance.by_book params_id) (bookinstances s)) ;;
  match book with
  | None => next (mkHttpError "本が見つかりません" 404)
  | Some (b, _, _) =>
      res_render "book_detail"
        [("title", Text (Book.title b)); ("book", BookPopulated book);
         ("book_instances", BookInstanceDocs bookInstances)] ;;
      ret None
  end.

Definition book_create_get : M unit :=
  allAuthors <- query (fun s => Model.sort Author.family_name (authors s)) ;;
  allGenres <- query (fun s => Model.sort Genre.name (genres s)) ;;
  res_render "book_form"
    [("title", Text "本の作成"); ("authors", AuthorDocs allAuthors);
     ("genres", GenreDocs allGenres)].

(** The data of the book form as the update-GET handler fills it: the
    book comes with its author populated and its genres as references. *)
Record book_form_data := mkBookFormData {
  form_title : string;
  form_authors : list Author.t;
  form_genres : list (Genre.t * bool);
  form_book : Book.t * option Author.t
}.

(** What a handler that only reads ends in: one render, or [next(err)]. *)
Inductive outcome (A : Type) :=
| Rendered (view : string) (data : A)
| Next (e : http_error).
Arguments Rendered {A} view data.
Arguments Next {A} e.

Definition book_update_get (params_id : oid) (s : store)
  : outcome book_form_data :=
  let book :=
    option_map (fun b => (b, populate_author s b))
      (Model.findById Book._id params_id (books s)) in
  let allAuthors := Model.sort Author.family_name (authors s) in
  let allGenres := Model.sort Genre.name (genres s) in
  match book with
  | None => Next (mkHttpError "本が見つかりません" 404)
  | Some (b, a) =>
      Rendered "book_form"
        (mkBookFormData "本の更新" allAuthors (check_genres b allGenres)
           (b, a))
  end.

(** *** BookInstance *)

Definition bookinstance_detail (params_id : oid) : M (option http_error) :=
  bookInstance <-
    query (fun s =>
             option_map (fun i => (i, populate_book s i))
               (Model.findById BookInstance._id params_id
                  (bookinstances s))) ;;
  match bookInstance with
  | None => next (mkHttpError "蔵書コピーが見つかりません" 404)
  | Some _ =>
      res_render "bookinstance_detail"
        [("title", Text "蔵書：");
         ("bookinstance", BookInstancePopulated bookInstance)] ;;
      ret None
  end.

Definition bookinstance_create_get : M unit :=
  allBooks <- query (fun s => Model.sort Book.title (books s)) ;;
  res_render "bookinstance_form"
    [("title", Text "蔵書インスタンスの作成");
     ("book_list", BookDocs allBooks)].

(** The data of the view reads [bookInstance.book._id], where the book is
    the populated document: [null] when the reference names no book. *)
Definition bookinstance_update_get (params_id : oid)
  : M (option http_error) :=
  bookInstance <-
    query (fun s =>
             option_map (fun i => (i, populate_book s i))
               (Model.findById BookInstance._id params_id
                  (bookinstances s))) ;;
  allBooks <- query (fun s => Model.find (fun _ => true) (books s)) ;;
  match bookInstance with
  | None => next (mkHttpError "蔵書コピーが見つかりません" 404)
  | Some (_, populated) =>
      selected <- property_of "_id" populated ;;
      res_render "bookinstance_form"
        [("title", Text "蔵書インスタンスの更新");
         ("book_list", BookDocs allBooks);
         ("selected_book", Ref (Book._id selected));
         ("bookinstance", BookInstancePopulated bookInstance)] ;;
      ret None
  end.

(** A request served from a store, with a fresh response object. *)
Definition run (handler : M unit) (s : store) : result unit * world :=
  handler (mkWorld s []).

(** * Facts about the store *)
Section CollectionFacts.

Context {doc : Type}.
Variable id_of : doc -> oid.

Lemma findById_some (i : oid) (c : list doc) (d : doc) :
  Model.findById id_of i c = Some d -> In d c /\ id_of d = i.
Proof.
  unfold Model.findById. intros H.
  apply List.find_some in H. destruct H as [Hin Heq].
  split; [exact Hin | now apply String.eqb_eq].
Qed.

Lemma updateById_absent (i : oid) (apply : doc -> doc) (c : list doc) :
  Model.findById id_of i c = None -> Model.updateById id_of i apply c = c.
Proof.
  unfold Model.findById.
  induction c as [|d rest IH]; simpl; [reflexivity|].
  destruct (String.eqb (id_of d) i); [discriminate|].
  intros H. now rewrite IH.
Qed.

Lemma updateById_found (i : oid) (apply : doc -> doc) (c : list doc)
  (d : doc) :
  (forall x, id_of (apply x) = id_of x) ->
  Model.findById id_of i c = Some d ->
  Model.findById id_of i (Model.updateById id_of i apply c) = Some (apply d).
Proof.
  unfold Model.findById. intros Hid.
  induction c as [|x rest IH]; simpl; [discriminate|].
  destruct (String.eqb (id_of x) i) eqn:E; simpl.
  - intros H. injection H as <-. now rewrite Hid, E.
  - rewrite E. exact IH.
Qed.

Lemma deleteById_incl (i : oid) (c : list doc) (d : doc) :
  In d (Model.deleteById id_of i c) -> In d c.
Proof.
  induction c as [|x rest IH]; simpl; [tauto|].
  destruct (String.eqb (id_of x) i); simpl; tauto.
Qed.

(** With identifiers that are unique, the deleted identifier is gone. *)
Lemma deleteById_gone (i : oid) (c : list doc) :
  NoDup (List.map id_of c) ->
  Model.findById id_of i (Model.deleteById id_of i c) = None.
Proof.
  unfold Model.findById.
  induction c as [|x rest IH]; simpl; [reflexivity|].
  intros Hnd. inversion Hnd as [|? ? Hnotin Hrest]; subst.
  destruct (String.eqb (id_of x) i) eqn:E; simpl.
  - apply String.eqb_eq in E. subst i.
    destruct (List.find _ rest) eqn:F; [|reflexivity].
    apply List.find_some in F. destruct F as [Hin Heq].
    apply String.eqb_eq in Heq. exfalso. apply Hnotin.
    rewrite <- Heq. now apply List.in_map.
  - rewrite E. now apply IH.
Qed.

Lemma deleteById_other (i j : oid) (c : list doc) :
  j <> i ->
  Model.findById id_of j (Model.deleteById id_of i c)
  = Model.findById id_of j c.
Proof.
  intros Hne. unfold Model.findById.
  induction c as [|x rest IH]; simpl; [reflexivity|].
  destruct (String.eqb (id_of x) i) eqn:Ei; simpl.
  - apply String.eqb_eq in Ei.
    destruct (String.eqb (id_of x) j) eqn:Ej; [|reflexivity].
    apply String.eqb_eq in Ej. congruence.
  - destruct (String.eqb (id_of x) j); [reflexivity | exact IH].
Qed.

Lemma deleteById_length (i : oid) (c : list doc) (d : doc) :
  Model.findById id_of i c = Some d ->
  S (List.length (Model.deleteById id_of i c)) = List.length c.
Proof.
  unfold Model.findById.
  induction c as [|x rest IH]; simpl; [discriminate|].
  destruct (String.eqb (id_of x) i); simpl; [reflexivity|].
  intros H. now rewrite IH.
Qed.

End CollectionFacts.

Section QueryFacts.

Context {doc : Type}.

Lemma find_nonempty (filter : doc -> bool) (c : list doc) (d : doc) :
  In d c -> filter d = true ->
  (0 <? List.length (Model.find filter c)) = true.
Proof.
  intros Hin Hf. unfold Model.find.
  assert (Hd : In d (List.filter filter c)) by (apply List.filter_In; tauto).
  destruct (List.filter filter c); [contradiction|reflexivity].
Qed.

Lemma find_all (c : list doc) : Model.find (fun _ => true) c = c.
Proof.
  unfold Model.find. induction c as [|x rest IH]; simpl; congruence.
Qed.

(** *** Sorting *)
Section SortFacts.

Variable key : doc -> string.

Definition ascending (x y : doc) : Prop := String.leb (key x) (key y) = true.

Lemma insert_sorted_perm (x : doc) (l : list doc) :
  Permutation (Model.insert_sorted key x l) (x :: l).
Proof.
  induction l as [|y rest IH]; simpl; [apply Permutation_refl|].
  destruct (String.leb (key x) (key y)); [apply Permutation_refl|].
  eapply perm_trans; [apply perm_skip, IH | apply perm_swap].
Qed.

Lemma sort_perm (l : list doc) : Permutation (Model.sort key l) l.
Proof.
  induction l as [|x rest IH]; simpl; [constructor|].
  eapply perm_trans; [apply insert_sorted_perm | now apply perm_skip].
Qed.

Lemma insert_sorted_hd (x y : doc) (l : list doc) :
  String.leb (key x) (key y) = false ->
  HdRel ascending y l -> HdRel ascending y (Model.insert_sorted key x l).
Proof.
  intros Hxy Hhd. destruct l as [|z rest]; simpl.
  - constructor. unfold ascending.
    destruct (String.leb_total (key x) (key y)); congruence.
  - inversion Hhd; subst.
    destruct (String.leb (key x) (key z)); constructor; trivial.
    unfold ascending.
    destruct (String.leb_total (key x) (key y)); congruence.
Qed.

Lemma insert_sorted_sorted (x : doc) (l : list doc) :
  Sorted ascending l -> Sorted ascending (Model.insert_sorted key x l).
Proof.
  induction l as [|y rest IH]; simpl; intros Hs.
  - repeat constructor.
  - inversion Hs; subst.
    destruct (String.leb (key x) (key y)) eqn:E.
    + constructor; [exact Hs | constructor; exact E].
    + constructor; [now apply IH | now apply insert_sorted_hd].
Qed.

Lemma sort_sorted (l : list doc) : Sorted ascending (Model.sort key l).
Proof.
  induction l as [|x rest IH]; simpl; [constructor|].
  now apply insert_sorted_sorted.
Qed.

End SortFacts.

End QueryFacts.


Lemma store_eta (s : store) :
  mkStore (authors s) (books s) (genres s) (bookinstances s) = s.
Proof. now destruct s. Qed.

Lemma by_author_true (i : oid) (b : Book.t) :
  Book.by_author i b = true <-> Book.author b = Some i.
Proof.
  unfold Book.by_author. destruct (Book.author b) as [a|].
  - rewrite String.eqb_eq. split; congruence.
  - split; discriminate.
Qed.

Lemma by_genre_true (i : oid) (b : Book.t) :
  Book.by_genre i b = true <-> In i (Book.genre b).
Proof.
  unfold Book.by_genre. rewrite List.existsb_exists. split.
  - intros [x [Hin Heq]]. apply String.eqb_eq in Heq. now subst.
  - intros Hin. exists i. split; [exact Hin | apply String.eqb_refl].
Qed.

Lemma by_book_true (i : oid) (c : BookInstance.t) :
  BookInstance.by_book i c = true <-> BookInstance.book c = Some i.
Proof.
  unfold BookInstance.by_book. destruct (BookInstance.book c) as [b|].
  - rewrite String.eqb_eq. split; congruence.
  - split; discriminate.
Qed.

(** A filter with a match makes the guard of the delete handlers true, and
    a filter without one makes it false. *)
Lemma guard_true {doc : Type} (filter : doc -> bool) (c : list doc) :
  (exists d, In d c /\ filter d = true) ->
  (0 <? List.length (Model.find filter c)) = true.
Proof. intros [d [Hin Hf]]. now apply (find_nonempty filter c d). Qed.

Lemma guard_false {doc : Type} (filter : doc -> bool) (c : list doc) :
  (forall d, In d c -> filter d = false) ->
  (0 <? List.length (Model.find filter c)) = false.
Proof.
  intros H. unfold Model.find.
  destruct (List.filter filter c) as [|d rest] eqn:E; [reflexivity|].
  assert (Hd : In d (List.filter filter c)) by (rewrite E; now left).
  apply List.filter_In in Hd. destruct Hd as [Hin Hf].
  rewrite (H d Hin) in Hf. discriminate.
Qed.

(** * A small library, to run the handlers on *)
Module Sample.

Definition austen_id : oid := "65f1c0a1b2c3d4e5f6a70001".
Definition adams_id : oid := "65f1c0a1b2c3d4e5f6a70002".
Definition emma_id : oid := "65f1c0a1b2c3d4e5f6a70011".
Definition persuasion_id : oid := "65f1c0a1b2c3d4e5f6a70012".
Definition fiction_id : oid := "65f1c0a1b2c3d4e5f6a70021".
Definition poetry_id : oid := "65f1c0a1b2c3d4e5f6a70022".
Definition copy1_id : oid := "65f1c0a1b2c3d4e5f6a70032".
Definition copy2_id : oid := "65f1c0a1b2c3d4e5f6a70031".
Definition unused_id : oid := "65f1c0a1b2c3d4e5f6a70099".

Definition austen : Author.t :=
  Author.mk austen_id "Jane" "Austen" (Val (-6129216000000)%Z) Undefined.
Definition adams : Author.t :=
  Author.mk adams_id "Douglas" "Adams" Null Null.
Definition emma : Book.t :=
  Book.mk emma_id "Emma" (Some austen_id) "A novel" "9780141439587"
    [fiction_id].
Definition persuasion : Book.t :=
  Book.mk persuasion_id "Persuasion" (Some austen_id) "A later novel"
    "9780141439686" [fiction_id].
Definition fiction : Genre.t := Genre.mk fiction_id "Fiction".
Definition poetry : Genre.t := Genre.mk poetry_id "Poetry".
Definition copy1 : BookInstance.t :=
  BookInstance.mk copy1_id (Some persuasion_id) "Penguin 2003" "Reserved"
    (Val 1738368000000%Z).
Definition copy2 : BookInstance.t :=
  BookInstance.mk copy2_id (Some emma_id) "Oxford 1998" "Available"
    (Val 1735689600000%Z).

Definition library : store :=
  mkStore [austen; adams] [emma; persuasion] [fiction; poetry]
    [copy1; copy2].

(** A stand-in for the date functions of validator.js that knows one
    date. *)
Definition isISO8601 (s : string) : bool := String.eqb s "2025-01-01".
Definition toDate (s : string) : option date :=
  if String.eqb s "2025-01-01" then Some 1735689600000%Z else None.

End Sample.

(** * Deletion *)

(** C1. A delete-POST of an Author or of a Genre that at least one Book
    refers to deletes nothing: the store is left as it was, and the
    response renders the delete-confirmation view; no redirect is sent. *)
Theorem delete_post_refused_while_referenced :
  forall (params_id : oid) (s : store),
    (forall body : authorid_body,
        (exists b, In b (books s) /\ Book.author b = Some params_id) ->
        run (author_delete_post params_id body) s =
          (Return tt,
           mkWorld s
             [Render "author_delete"
                [("title", Text "著者の削除");
                 ("author",
                  AuthorDoc (Model.findById Author._id params_id (authors s)));
                 ("author_books",
                  BookDocs (Model.find (Book.by_author params_id) (books s)))]]))
    /\
    (forall body : id_body,
        (exists b, In b (books s) /\ In params_id (Book.genre b)) ->
        run (genre_delete_post params_id body) s =
          (Return tt,
           mkWorld s
             [Render "genre_delete"
                [("title", Text "ジャンル削除");
                 ("genre",
                  GenreDoc (Model.findById Genre._id params_id (genres s)));
                 ("genre_books",
                  BookDocs (Model.find (Book.by_genre params_id) (books s)))]])).
Proof.
  intros params_id s. split; intros body [b [Hin Href]].
  - unfold run, author_delete_post, bind, query. simpl.
    rewrite guard_true; [reflexivity|].
    exists b. split; [exact Hin | now apply by_author_true].
  - unfold run, genre_delete_post, bind, query. simpl.
    rewrite guard_true; [reflexivity|].
    exists b. split; [exact Hin | now apply by_genre_true].
Qed.

Lemma delete_post_refused_witness :
  snd (run (author_delete_post Sample.austen_id
              (mkAuthoridBody Sample.austen_id)) Sample.library)
  = mkWorld Sample.library
      [Render "author_delete"
         [("title", Text "著者の削除");
          ("author", AuthorDoc (Some Sample.austen));
          ("author_books", BookDocs [Sample.emma; Sample.persuasion])]]
  /\ snd (run (genre_delete_post Sample.fiction_id
                 (mkIdBody Sample.fiction_id)) Sample.library)
     = mkWorld Sample.library
         [Render "genre_delete"
            [("title", Text "ジャンル削除");
             ("genre", GenreDoc (Some Sample.fiction));
             ("genre_books", BookDocs [Sample.emma; Sample.persuasion])]].
Proof.
  destruct (delete_post_refused_while_referenced
              Sample.austen_id Sample.library) as [HA _].
  destruct (delete_post_refused_while_referenced
              Sample.fiction_id Sample.library) as [_ HG].
  split.
  - rewrite (HA (mkAuthoridBody Sample.austen_id)); [reflexivity|].
    exists Sample.emma. split; [simpl; tauto | reflexivity].
  - rewrite (HG (mkIdBody Sample.fiction_id)); [reflexivity|].
    exists Sample.emma. split; simpl; tauto.
Defined.

(** C9. In the delete-POST handlers of Author, Genre and Book the
    dependent-record check reads the identifier of the URL, and the record
    that is deleted is the one named by the identifier field of the body:
    with no dependent of the URL identifier the body's record is removed,
    whatever refers to it, and with a dependent nothing is removed. *)
Theorem delete_post_checks_url_deletes_body :
  forall (params_id body_id : oid) (s : store),
    ((exists b, In b (books s) /\ Book.author b = Some params_id) ->
     db (snd (run (author_delete_post params_id (mkAuthoridBody body_id)) s))
     = s)
    /\
    ((forall b, In b (books s) -> Book.author b <> Some params_id) ->
     db (snd (run (author_delete_post params_id (mkAuthoridBody body_id)) s))
     = with_authors (Model.deleteById Author._id body_id) s)
    /\
    ((exists b, In b (books s) /\ In params_id (Book.genre b)) ->
     db (snd (run (genre_delete_post params_id (mkIdBody body_id)) s)) = s)
    /\
    ((forall b, In b (books s) -> ~ In params_id (Book.genre b)) ->
     db (snd (run (genre_delete_post params_id (mkIdBody body_id)) s))
     = with_genres (Model.deleteById Genre._id body_id) s)
    /\
    ((exists c, In c (bookinstances s)
                /\ BookInstance.book c = Some params_id) ->
     db (snd (run (book_delete_post params_id (mkIdBody body_id)) s)) = s)
    /\
    ((forall c, In c (bookinstances s) ->
                BookInstance.book c <> Some params_id) ->
     db (snd (run (book_delete_post params_id (mkIdBody body_id)) s))
     = with_books (Model.deleteById Book._id body_id) s).
Proof.
  intros params_id body_id s.
  repeat split.
  - intros [b [Hin Href]].
    unfold run, author_delete_post, bind, query. simpl.
    rewrite guard_true; [reflexivity|].
    exists b. split; [exact Hin | now apply by_author_true].
  - intros Hnone.
    unfold run, author_delete_post, bind, query. simpl.
    rewrite guard_false; [reflexivity|].
    intros b Hin. destruct (Book.by_author params_id b) eqn:E; trivial.
    apply by_author_true in E. now apply Hnone in Hin.
  - intros [b [Hin Href]].
    unfold run, genre_delete_post, bind, query. simpl.
    rewrite guard_true; [reflexivity|].
    exists b. split; [exact Hin | now apply by_genre_true].
  - intros Hnone.
    unfold run, genre_delete_post, bind, query. simpl.
    rewrite guard_false; [reflexivity|].
    intros b Hin. destruct (Book.by_genre params_id b) eqn:E; trivial.
    apply by_genre_true in E. now apply Hnone in Hin.
  - intros [c [Hin Href]].
    unfold run, book_delete_post, bind, query. simpl.
    destruct (option_map _ _); simpl;
      (rewrite guard_true; [reflexivity|]);
      exists c; (split; [exact Hin | now apply by_book_true]).
  - intros Hnone.
    unfold run, book_delete_post, bind, query. simpl.
    assert (G : (0 <? List.length
                   (Model.find (BookInstance.by_book params_id)
                      (bookinstances s))) = false).
    { apply guard_false. intros c Hin.
      destruct (BookInstance.by_book params_id c) eqn:E; trivial.
      apply by_book_true in E. now apply Hnone in Hin. }
    destruct (option_map _ _); simpl; rewrite G; reflexivity.
Qed.

(** In the sample library Austen has books and Adams has none: a request
    on the URL of Adams that names Austen in its body deletes Austen. *)
Lemma delete_post_checks_url_witness :
  db (snd (run (author_delete_post Sample.austen_id
                  (mkAuthoridBody Sample.austen_id)) Sample.library))
  = Sample.library
  /\ authors
       (db (snd (run (author_delete_post Sample.adams_id
                        (mkAuthoridBody Sample.austen_id)) Sample.library)))
     = [Sample.adams]
  /\ db (snd (run (genre_delete_post Sample.fiction_id
                     (mkIdBody Sample.fiction_id)) Sample.library))
     = Sample.library
  /\ genres
       (db (snd (run (genre_delete_post Sample.poetry_id
                        (mkIdBody Sample.fiction_id)) Sample.library)))
     = [Sample.poetry]
  /\ db (snd (run (book_delete_post Sample.emma_id
                     (mkIdBody Sample.emma_id)) Sample.library))
     = Sample.library
  /\ books
       (db (snd (run (book_delete_post Sample.unused_id
                        (mkIdBody Sample.emma_id)) Sample.library)))
     = [Sample.persuasion].
Proof.
  destruct (delete_post_checks_url_deletes_body
              Sample.austen_id Sample.austen_id Sample.library)
    as (A1 & _).
  destruct (delete_post_checks_url_deletes_body
              Sample.adams_id Sample.austen_id Sample.library)
    as (_ & A2 & _).
  destruct (delete_post_checks_url_deletes_body
              Sample.fiction_id Sample.fiction_id Sample.library)
    as (_ & _ & G1 & _).
  destruct (delete_post_checks_url_deletes_body
              Sample.poetry_id Sample.fiction_id Sample.library)
    as (_ & _ & _ & G2 & _).
  destruct (delete_post_checks_url_deletes_body
              Sample.emma_id Sample.emma_id Sample.library)
    as (_ & _ & _ & _ & B1 & _).
  destruct (delete_post_checks_url_deletes_body
              Sample.unused_id Sample.emma_id Sample.library)
    as (_ & _ & _ & _ & _ & B2).
  refine (conj _ (conj _ (conj _ (conj _ (conj _ _))))).
  - apply A1. exists Sample.emma. split; [simpl; tauto | reflexivity].
  - rewrite A2; [reflexivity|].
    intros b [<-|[<-|[]]]; discriminate.
  - apply G1. exists Sample.emma. split; simpl; tauto.
  - rewrite G2; [reflexivity|].
    intros b [<-|[<-|[]]]; simpl; intros [E|[]]; discriminate.
  - apply B1. exists Sample.copy2. split; [simpl; tauto | reflexivity].
  - rewrite B2; [reflexivity|].
    intros c [<-|[<-|[]]]; discriminate.
Defined.

(** With unique identifiers the author named by the body is gone after
    such a request, and no author appears that was not stored. *)
Lemma author_delete_post_removes_body_record
  (params_id body_id : oid) (s : store) :
  NoDup (List.map Author._id (authors s)) ->
  (forall b, In b (books s) -> Book.author b <> Some params_id) ->
  Model.findById Author._id body_id
    (authors
       (db (snd (run (author_delete_post params_id
                        (mkAuthoridBody body_id)) s))))
  = None
  /\ forall a,
      In a (authors
              (db (snd (run (author_delete_post params_id
                               (mkAuthoridBody body_id)) s)))) ->
      In a (authors s).
Proof.
  intros Hnodup Hnone.
  unfold run, author_delete_post, bind, query. simpl.
  rewrite guard_false.
  - simpl. split; [now apply deleteById_gone|].
    intros a. apply deleteById_incl.
  - intros b Hin. destruct (Book.by_author params_id b) eqn:E; trivial.
    apply by_author_true in E. now apply Hnone in Hin.
Qed.

(** C2, as the specification states it, fails: a delete-POST of a Book
    that a BookInstance refers to leaves the Book in the store and answers
    with the confirmation view, not with a redirect. *)
Lemma book_delete_post_keeps_referenced_book :
  In Sample.copy2 (bookinstances Sample.library)
  /\ BookInstance.book Sample.copy2 = Some Sample.emma_id
  /\ response (snd (run (book_delete_post Sample.emma_id
                           (mkIdBody Sample.emma_id)) Sample.library))
     <> Some (Redirect "/catalog/books")
  /\ Model.findById Book._id Sample.emma_id
       (books (db (snd (run (book_delete_post Sample.emma_id
                               (mkIdBody Sample.emma_id)) Sample.library))))
     = Some Sample.emma
  /\ response (snd (run (book_delete_post Sample.emma_id
                           (mkIdBody Sample.emma_id)) Sample.library))
     = Some (Render "book_delete"
               [("title", Text "本の削除");
                ("book",
                 BookPopulated
                   (Some (Sample.emma, Some Sample.austen, [Sample.fiction])));
                ("book_instances", BookInstanceDocs [Sample.copy2])]).
Proof.
  refine (conj _ (conj eq_refl (conj _ (conj eq_refl eq_refl)))).
  - simpl. tauto.
  - discriminate.
Qed.

(** C2, amended. The delete-POST handler of Book checks for BookInstance
    records that refer to the URL identifier.  With at least one, no Book
    is deleted and, the URL identifier naming a Book, the response renders
    the confirmation view.  With none, the Book named by the body is
    deleted and the response redirects to the book list: the identifier of
    the body resolves to nothing afterwards (the identifiers being
    unique), the collection is one book shorter when it held that book,
    every other identifier resolves as before and the other collections
    are left as they were. *)
Theorem book_delete_post_checks_copies :
  forall (params_id : oid) (body : id_body) (s : store),
    ((exists c, In c (bookinstances s)
                /\ BookInstance.book c = Some params_id) ->
     db (snd (run (book_delete_post params_id body) s)) = s
     /\ forall found,
         Model.findById Book._id params_id (books s) = Some found ->
         res (snd (run (book_delete_post params_id body) s))
         = [Render "book_delete"
              [("title", Text "本の削除");
               ("book", BookPopulated (Some (populate_both s found)));
               ("book_instances",
                BookInstanceDocs
                  (Model.find (BookInstance.by_book params_id)
                     (bookinstances s)))]])
    /\
    ((forall c, In c (bookinstances s) ->
                BookInstance.book c <> Some params_id) ->
     let s' := db (snd (run (book_delete_post params_id body) s)) in
     response (snd (run (book_delete_post params_id body) s))
     = Some (Redirect "/catalog/books")
     /\ (NoDup (List.map Book._id (books s)) ->
         Model.findById Book._id (id body) (books s') = None)
     /\ (forall found,
            Model.findById Book._id (id body) (books s) = Some found ->
            S (List.length (books s')) = List.length (books s))
     /\ (forall j, j <> id body ->
                   Model.findById Book._id j (books s')
                   = Model.findById Book._id j (books s))
     /\ authors s' = authors s /\ genres s' = genres s
     /\ bookinstances s' = bookinstances s).
Proof.
  intros params_id body s. split.
  - intros [c [Hin Href]].
    assert (G : (0 <? List.length
                   (Model.find (BookInstance.by_book params_id)
                      (bookinstances s))) = true).
    { apply guard_true. exists c. split; [exact Hin|].
      now apply by_book_true. }
    unfold run, book_delete_post, bind, query. simpl. split.
    + destruct (option_map _ _); simpl; rewrite G; reflexivity.
    + intros found Hfound. rewrite Hfound. simpl. rewrite G. reflexivity.
  - intros Hnone.
    assert (G : (0 <? List.length
                   (Model.find (BookInstance.by_book params_id)
                      (bookinstances s))) = false).
    { apply guard_false. intros c Hin.
      destruct (BookInstance.by_book params_id c) eqn:E; trivial.
      apply by_book_true in E. now apply Hnone in Hin. }
    assert (D : db (snd (run (book_delete_post params_id body) s))
                = with_books (Model.deleteById Book._id (id body)) s).
    { unfold run, book_delete_post, bind, query. simpl.
      destruct (option_map _ _); simpl; rewrite G; reflexivity. }
    cbv zeta. rewrite D.
    refine (conj _ (conj _ (conj _ (conj _ (conj eq_refl
             (conj eq_refl eq_refl)))))).
    + unfold run, book_delete_post, bind, query, response. simpl.
      destruct (option_map _ _); simpl; rewrite G; reflexivity.
    + intros Hnd. simpl. now apply deleteById_gone.
    + intros found Hfound. simpl.
      now apply (deleteById_length _ _ _ found).
    + intros j Hne. simpl. now apply deleteById_other.
Qed.

(** The sample library once the copy of Persuasion is gone: Emma has a
    copy and Persuasion has none. *)
Definition one_copy : store :=
  mkStore [Sample.austen; Sample.adams] [Sample.emma; Sample.persuasion]
    [Sample.fiction; Sample.poetry] [Sample.copy2].

Lemma book_delete_post_checks_copies_witness :
  db (snd (run (book_delete_post Sample.emma_id
                  (mkIdBody Sample.emma_id)) one_copy))
  = one_copy
  /\ response (snd (run (book_delete_post Sample.persuasion_id
                           (mkIdBody Sample.persuasion_id)) one_copy))
     = Some (Redirect "/catalog/books")
  /\ Model.findById Book._id Sample.persuasion_id
       (books (db (snd (run (book_delete_post Sample.persuasion_id
                               (mkIdBody Sample.persuasion_id)) one_copy))))
     = None
  /\ List.length
       (books (db (snd (run (book_delete_post Sample.persuasion_id
                               (mkIdBody Sample.persuasion_id)) one_copy))))
     = 1
  /\ Model.findById Book._id Sample.emma_id
       (books (db (snd (run (book_delete_post Sample.persuasion_id
                               (mkIdBody Sample.persuasion_id)) one_copy))))
     = Some Sample.emma.
Proof.
  destruct (book_delete_post_checks_copies
              Sample.emma_id (mkIdBody Sample.emma_id) one_copy)
    as [HC _].
  destruct (book_delete_post_checks_copies
              Sample.persuasion_id (mkIdBody Sample.persuasion_id) one_copy)
    as [_ HN].
  assert (H : exists c, In c (bookinstances one_copy)
                        /\ BookInstance.book c = Some Sample.emma_id).
  { exists Sample.copy2. split; [simpl; tauto | reflexivity]. }
  assert (N : forall c, In c (bookinstances one_copy) ->
                        BookInstance.book c <> Some Sample.persuasion_id).
  { intros c [<-|[]]; discriminate. }
  destruct (HN N) as (Hres & Hgone & Hlen & Hother & _).
  refine (conj (proj1 (HC H)) (conj Hres (conj _ (conj _ _)))).
  - apply Hgone. repeat constructor; simpl; intuition discriminate.
  - apply eq_add_S. rewrite (Hlen Sample.persuasion eq_refl). reflexivity.
  - rewrite Hother; [reflexivity | discriminate].
Defined.

(** C5. The delete-GET handlers do not stop after the redirect they send
    for an identifier that names no record: each of the four goes on to
    call the renderer of the confirmation view with a null record. *)
Theorem delete_get_renders_after_redirect :
  forall (params_id : oid) (s : store),
    (Model.findById Author._id params_id (authors s) = None ->
     snd (run (author_delete_get params_id) s) =
       mkWorld s
         [Redirect "/catalog/authors";
          Render "author_delete"
            [("title", Text "著者の削除"); ("author", AuthorDoc None);
             ("author_books",
              BookDocs (Model.find (Book.by_author params_id) (books s)))]])
    /\
    (Model.findById Genre._id params_id (genres s) = None ->
     snd (run (genre_delete_get params_id) s) =
       mkWorld s
         [Redirect "/catalog/genres";
          Render "genre_delete"
            [("title", Text "ジャンル削除"); ("genre", GenreDoc None);
             ("genre_books",
              BookDocs (Model.find (Book.by_genre params_id) (books s)))]])
    /\
    (Model.findById Book._id params_id (books s) = None ->
     snd (run (book_delete_get params_id) s) =
       mkWorld s
         [Redirect "/catalog/books";
          Render "book_delete"
            [("title", Text "本の削除"); ("book", BookPopulated None);
             ("book_instances",
              BookInstanceDocs
                (Model.find (BookInstance.by_book params_id)
                   (bookinstances s)))]])
    /\
    (Model.findById BookInstance._id params_id (bookinstances s) = None ->
     snd (run (bookinstance_delete_get params_id) s) =
       mkWorld s
         [Redirect "/catalog/bookinstances";
          Render "bookinstance_delete"
            [("title", Text "蔵書インスタンスの削除");
             ("bookinstance", BookInstancePopulated None)]]).
Proof.
  intros params_id s.
  refine (conj _ (conj _ (conj _ _))); intros Hnone.
  - unfold run, author_delete_get, bind, query. simpl.
    rewrite Hnone. reflexivity.
  - unfold run, genre_delete_get, bind, query. simpl.
    rewrite Hnone. reflexivity.
  - unfold run, book_delete_get, bind, query. simpl.
    rewrite Hnone. reflexivity.
  - unfold run, bookinstance_delete_get, bind, query. simpl.
    rewrite Hnone. reflexivity.
Qed.

Lemma delete_get_renders_after_redirect_witness :
  res (snd (run (author_delete_get Sample.unused_id) Sample.library))
  = [Redirect "/catalog/authors";
     Render "author_delete"
       [("title", Text "著者の削除"); ("author", AuthorDoc None);
        ("author_books", BookDocs [])]]
  /\ res (snd (run (genre_delete_get Sample.unused_id) Sample.library))
     = [Redirect "/catalog/genres";
        Render "genre_delete"
          [("title", Text "ジャンル削除"); ("genre", GenreDoc None);
           ("genre_books", BookDocs [])]]
  /\ res (snd (run (book_delete_get Sample.unused_id) Sample.library))
     = [Redirect "/catalog/books";
        Render "book_delete"
          [("title", Text "本の削除"); ("book", BookPopulated None);
           ("book_instances", BookInstanceDocs [])]]
  /\ res (snd (run (bookinstance_delete_get Sample.unused_id)
                 Sample.library))
     = [Redirect "/catalog/bookinstances";
        Render "bookinstance_delete"
          [("title", Text "蔵書インスタンスの削除");
           ("bookinstance", BookInstancePopulated None)]].
Proof.
  destruct (delete_get_renders_after_redirect Sample.unused_id Sample.library)
    as (HA & HG & HB & HI).
  refine (conj _ (conj _ (conj _ _))).
  - rewrite (HA eq_refl). reflexivity.
  - rewrite (HG eq_refl). reflexivity.
  - rewrite (HB eq_refl). reflexivity.
  - rewrite (HI eq_refl). reflexivity.
Defined.

(** * List views *)

(** The due date of a copy as a number, for comparison. *)
Definition due (i : BookInstance.t) : Z :=
  match BookInstance.due_back i with
  | Val d => d
  | _ => 0%Z
  end.

Lemma descending_pair_unsorted {A : Type} (R : A -> A -> Prop) (x y : A) :
  ~ R x y -> ~ Sorted R [x; y].
Proof.
  intros Hn Hs. inversion Hs as [|? ? _ Hhd]; subst.
  inversion Hhd; subst. contradiction.
Qed.

(** C6, as the specification states it, fails for BookInstance: the list
    view shows the copies in the order of the store, which in the sample
    library is descending in every field of a copy and in the title of
    the book it refers to. *)
Lemma bookinstance_list_unsorted :
  res (snd (run bookinstance_list Sample.library))
  = [Render "bookinstance_list"
       [("title", Text "蔵書インスタンス一覧");
        ("bookinstance_list",
         BookInstanceWithBook
           [(Sample.copy1, Some Sample.persuasion);
            (Sample.copy2, Some Sample.emma)])]]
  /\ ~ Sorted (ascending BookInstance.imprint) [Sample.copy1; Sample.copy2]
  /\ ~ Sorted (ascending BookInstance.status) [Sample.copy1; Sample.copy2]
  /\ ~ Sorted (ascending BookInstance._id) [Sample.copy1; Sample.copy2]
  /\ ~ Sorted (ascending (fun i => JS.toString (BookInstance.book i)))
         [Sample.copy1; Sample.copy2]
  /\ ~ Sorted (fun a b => (due a <= due b)%Z) [Sample.copy1; Sample.copy2]
  /\ ~ Sorted (ascending Book.title) [Sample.persuasion; Sample.emma].
Proof.
  refine (conj eq_refl (conj _ (conj _ (conj _ (conj _ (conj _ _))))));
    apply descending_pair_unsorted; unfold ascending; simpl;
    try discriminate.
  unfold due. simpl. lia.
Qed.

(** C6, amended. The list views of Author, Book and Genre render all the
    records of the entity in ascending order of family name, title and
    name; the list view of BookInstance renders all the copies in the
    order of the store. *)
Theorem list_views_render_all_records :
  forall s : store,
    (exists l,
        Permutation l (authors s)
        /\ Sorted (ascending Author.family_name) l
        /\ run author_list s =
             (Return tt,
              mkWorld s
                [Render "author_list"
                   [("title", Text "著者一覧");
                    ("author_list", AuthorDocs l)]]))
    /\
    (exists l,
        Permutation l (books s)
        /\ Sorted (ascending Book.title) l
        /\ run book_list s =
             (Return tt,
              mkWorld s
                [Render "book_list"
                   [("title", Text "本リスト");
                    ("book_list",
                     BookWithAuthor
                       (List.map (fun b => (b, populate_author s b)) l))]]))
    /\
    (exists l,
        Permutation l (genres s)
        /\ Sorted (ascending Genre.name) l
        /\ run genre_list s =
             (Return tt,
              mkWorld s
                [Render "genre_list"
                   [("title", Text "ジャンル一覧");
                    ("list_genres", GenreDocs l)]]))
    /\
    run bookinstance_list s =
      (Return tt,
       mkWorld s
         [Render "bookinstance_list"
            [("title", Text "蔵書インスタンス一覧");
             ("bookinstance_list",
              BookInstanceWithBook
                (List.map (fun i => (i, populate_book s i))
                   (bookinstances s)))]]).
Proof.
  intros s. refine (conj _ (conj _ (conj _ _))).
  - exists (Model.sort Author.family_name (authors s)).
    split; [apply sort_perm | split; [apply sort_sorted | reflexivity]].
  - exists (Model.sort Book.title (books s)).
    split; [apply sort_perm | split; [apply sort_sorted | reflexivity]].
  - exists (Model.sort Genre.name (genres s)).
    split; [apply sort_perm | split; [apply sort_sorted | reflexivity]].
  - unfold run, bookinstance_list, bind, query. simpl.
    rewrite find_all. reflexivity.
Qed.

(** * The genre field of a book form *)


(** * Facts about trimming and escaping *)
















(** *** Escaping *)








(** *** Trimming on the right *)


















(** The white space and the length of a text are read by character:
    the ideographic space and the no-break space are trimmed, and a text
    of two kanji has two characters. *)
Lemma trim_by_character :
  JS.trim (JS.utf8 12288 ++ " Emma " ++ JS.utf8 160)%string = "Emma"
  /\ JS.trim (JS.utf8 12288) = EmptyString.
Proof. split; reflexivity. Qed.

Lemma isLength_by_character :
  JS.isLength 3 "小説" = false /\ JS.isLength 3 "小説家" = true
  /\ JS.isLength 1 "小" = true.
Proof. repeat split; reflexivity. Qed.

(** A text casts to a reference when it writes an ObjectId. *)
Lemma castObjectId_by_text :
  castObjectId "abc" = None
  /\ castObjectId EmptyString = None
  /\ castObjectId "65F1C0A1B2C3D4E5F6A70011" = Some Sample.emma_id.
Proof. repeat split; reflexivity. Qed.

(** * Facts about the validation chains *)

(** A required text field is blank when nothing is left of it once it is
    read and trimmed: it was not sent, or holds only white space. *)
Definition blank (v : posted_text) : Prop :=
  JS.trim (JS.toString v) = EmptyString.

(** The variation selectors U+FE0E and U+FE0F. *)
Definition variation_selectors : list string :=
  Eval vm_compute in List.map JS.utf8 [65038; 65039]%N.

Fixpoint no_variation_selector (s : string) : bool :=
  match s with
  | EmptyString => true
  | String _ r =>
      negb (List.existsb (fun w => JS.starts_with w s) variation_selectors)
      && no_variation_selector r
  end.

(** A posted text that holds no variation selector.  The versions of
    validator.js differ on whether [isLength] counts these characters;
    what a handler does after a length check is stated for texts without
    them, on which the versions agree. *)
Definition plain (v : posted_text) : Prop :=
  no_variation_selector (JS.toString v) = true.

Definition plain_author (posted : author_body posted_text posted_text)
  : Prop :=
  plain (first_name posted) /\ plain (family_name posted).

Definition plain_genre (posted : genre_body posted_text) : Prop :=
  plain (name posted).

Definition plain_book (posted : book_body posted_text) : Prop :=
  plain (title posted) /\ plain (author posted) /\ plain (summary posted)
  /\ plain (isbn posted).

Definition plain_bookinstance
  (posted : bookinstance_body posted_text posted_text) : Prop :=
  plain (book posted) /\ plain (imprint posted).



Lemma required_chain_run (field message : string) (v : posted_text) :
  Validator.body field (required_chain message) v
  = (JS.escape (JS.trim (JS.toString v)),
     if JS.isLength 1 (JS.trim (JS.toString v)) then []
     else [Validator.mkError field message (JS.trim (JS.toString v))]).
Proof. reflexivity. Qed.

Lemma required_chain_blank (field message : string) (v : posted_text) :
  blank v ->
  Validator.body field (required_chain message) v
  = (EmptyString, [Validator.mkError field message EmptyString]).
Proof. intros H. rewrite required_chain_run, H. reflexivity. Qed.

Lemma name_chain_blank (field m1 m2 : string) (v : posted_text) :
  blank v ->
  Validator.body field
    [Validator.Sanitizer JS.trim; Validator.Check (JS.isLength 1) m1;
     Validator.Sanitizer JS.escape; Validator.Check JS.isAlphanumeric m2] v
  = (EmptyString,
     [Validator.mkError field m1 EmptyString;
      Validator.mkError field m2 EmptyString]).
Proof.
  intros H. unfold Validator.body. simpl. rewrite H. reflexivity.
Qed.

Lemma genre_chains_run (posted : genre_body posted_text) :
  genre_chains posted
  = (mkGenreBody (JS.escape (JS.trim (JS.toString (name posted)))),
     if JS.isLength 3 (JS.trim (JS.toString (name posted))) then []
     else [Validator.mkError "name"
             "ジャンル名は3文字以上で入力してください"
             (JS.trim (JS.toString (name posted)))]).
Proof. reflexivity. Qed.


(** Equality of two names when the case of letters is ignored. *)
Definition equal_ignoring_case (a b : string) : Prop :=
  JS.toLowerCase a = JS.toLowerCase b.


Section ChainFacts.

Variable isISO8601 : string -> bool.
Variable toDate : string -> option date.

Lemma author_chains_run (posted : author_body posted_text posted_text) :
  author_chains isISO8601 toDate posted
  = (mkAuthorBody
       (fst (Validator.body "first_name" first_name_chain
               (first_name posted)))
       (fst (Validator.body "family_name" family_name_chain
               (family_name posted)))
       (fst (Validator.body_date isISO8601 toDate "date_of_birth"
               "生年月日が無効です" (date_of_birth posted)))
       (fst (Validator.body_date isISO8601 toDate "date_of_death"
               "没年月日が無効です" (date_of_death posted))),
     snd (Validator.body "first_name" first_name_chain (first_name posted))
     ++ snd (Validator.body "family_name" family_name_chain
               (family_name posted))
     ++ snd (Validator.body_date isISO8601 toDate "date_of_birth"
               "生年月日が無効です" (date_of_birth posted))
     ++ snd (Validator.body_date isISO8601 toDate "date_of_death"
               "没年月日が無効です" (date_of_death posted))).
Proof.
  unfold author_chains.
  destruct (Validator.body "first_name" _ _).
  destruct (Validator.body "family_name" _ _).
  destruct (Validator.body_date _ _ "date_of_birth" _ _).
  destruct (Validator.body_date _ _ "date_of_death" _ _).
  reflexivity.
Qed.

Lemma bookinstance_chains_run
  (posted : bookinstance_body posted_text posted_text) :
  bookinstance_chains isISO8601 toDate posted
  = (mkBookInstanceBody
       (fst (Validator.body "book" (required_chain "本を指定してください")
               (book posted)))
       (fst (Validator.body "imprint"
               (required_chain "出版情報を指定してください")
               (imprint posted)))
       (JS.escape (JS.toString (status posted)))
       (fst (Validator.body_date isISO8601 toDate "due_back"
               "無効な日付です" (due_back posted))),
     snd (Validator.body "book" (required_chain "本を指定してください")
            (book posted))
     ++ snd (Validator.body "imprint"
               (required_chain "出版情報を指定してください")
               (imprint posted))
     ++ []
     ++ snd (Validator.body_date isISO8601 toDate "due_back"
               "無効な日付です" (due_back posted))).
Proof.
  unfold bookinstance_chains.
  destruct (Validator.body "book" _ _).
  destruct (Validator.body "imprint" _ _).
  destruct (Validator.body_date _ _ "due_back" _ _).
  reflexivity.
Qed.

Lemma book_chains_run (posted : book_body posted_text) :
  book_chains posted
  = (mkBookBody
       (fst (Validator.body "title" (required_chain "タイトルは必須です。")
               (title posted)))
       (fst (Validator.body "author" (required_chain "著者は必須です。")
               (author posted)))
       (fst (Validator.body "summary" (required_chain "概要は必須です。")
               (summary posted)))
       (fst (Validator.body "isbn" (required_chain "ISBNは必須です")
               (isbn posted)))
       (escape_each (genre posted)),
     snd (Validator.body "title" (required_chain "タイトルは必須です。")
            (title posted))
     ++ snd (Validator.body "author" (required_chain "著者は必須です。")
               (author posted))
     ++ snd (Validator.body "summary" (required_chain "概要は必須です。")
               (summary posted))
     ++ snd (Validator.body "isbn" (required_chain "ISBNは必須です")
               (isbn posted))).
Proof. reflexivity. Qed.

End ChainFacts.

(** * Creation of a genre *)



(** * Submissions that fail validation *)
Section InvalidSubmissions.

Variable isISO8601 : string -> bool.
Variable toDate : string -> option date.

(** **** A blank required field has its message among the errors *)

Lemma author_chains_blank (posted : author_body posted_text posted_text) :
  (blank (first_name posted) ->
   In (Validator.mkError "first_name" "名は必須です。" EmptyString)
     (snd (author_chains isISO8601 toDate posted)))
  /\
  (blank (family_name posted) ->
   In (Validator.mkError "family_name" "姓は必須です。" EmptyString)
     (snd (author_chains isISO8601 toDate posted))).
Proof.
  rewrite author_chains_run. cbn [snd].
  unfold first_name_chain, family_name_chain. split; intros Hblank.
  - rewrite (name_chain_blank "first_name" _ _ _ Hblank). simpl. tauto.
  - rewrite (name_chain_blank "family_name" _ _ _ Hblank).
    apply in_or_app. right. simpl. tauto.
Qed.

Lemma genre_chains_blank (posted : genre_body posted_text) :
  blank (name posted) ->
  In (Validator.mkError "name" "ジャンル名は3文字以上で入力してください"
        EmptyString)
    (snd (genre_chains posted)).
Proof.
  intros Hblank. unfold blank in Hblank.
  rewrite genre_chains_run, Hblank. simpl. tauto.
Qed.

Lemma book_chains_blank (posted : book_body posted_text) :
  (blank (title posted) ->
   In (Validator.mkError "title" "タイトルは必須です。" EmptyString)
     (snd (book_chains posted)))
  /\
  (blank (author posted) ->
   In (Validator.mkError "author" "著者は必須です。" EmptyString)
     (snd (book_chains posted)))
  /\
  (blank (summary posted) ->
   In (Validator.mkError "summary" "概要は必須です。" EmptyString)
     (snd (book_chains posted)))
  /\
  (blank (isbn posted) ->
   In (Validator.mkError "isbn" "ISBNは必須です" EmptyString)
     (snd (book_chains posted))).
Proof.
  rewrite book_chains_run. cbn [snd].
  refine (conj _ (conj _ (conj _ _))); intros Hblank;
    rewrite (required_chain_blank _ _ _ Hblank); cbn [snd].
  - simpl. tauto.
  - apply in_or_app. right. simpl. tauto.
  - apply in_or_app. right. apply in_or_app. right. simpl. tauto.
  - apply in_or_app. right. apply in_or_app. right.
    apply in_or_app. right. simpl. tauto.
Qed.

Lemma bookinstance_chains_blank
  (posted : bookinstance_body posted_text posted_text) :
  (blank (book posted) ->
   In (Validator.mkError "book" "本を指定してください" EmptyString)
     (snd (bookinstance_chains isISO8601 toDate posted)))
  /\
  (blank (imprint posted) ->
   In (Validator.mkError "imprint" "出版情報を指定してください" EmptyString)
     (snd (bookinstance_chains isISO8601 toDate posted))).
Proof.
  rewrite bookinstance_chains_run. cbn [snd]. split; intros Hblank;
    rewrite (required_chain_blank _ _ _ Hblank); cbn [snd].
  - simpl. tauto.
  - apply in_or_app. right. simpl. tauto.
Qed.

(** **** With errors, the form is rendered and nothing is written *)

Lemma author_create_post_invalid
  (new_id : oid) (posted : author_body posted_text posted_text) (s : store) :
  let body := fst (author_chains isISO8601 toDate posted) in
  let errors := snd (author_chains isISO8601 toDate posted) in
  errors <> [] ->
  run (author_create_post isISO8601 toDate new_id posted) s
  = (Return tt,
     mkWorld s
       [Render "author_form"
          [("title", Text "著者の作成");
           ("author",
            AuthorDoc
              (Some (Author.mk new_id (first_name body) (family_name body)
                       (castDate (date_of_birth body))
                       (castDate (date_of_death body)))));
           ("errors", Errors errors)]]).
Proof.
  unfold run, author_create_post.
  destruct (author_chains isISO8601 toDate posted) as [body errors].
  simpl. intros Herr. destruct errors; [contradiction | reflexivity].
Qed.

Lemma author_update_post_invalid
  (params_id : oid) (posted : author_body posted_text posted_text)
  (s : store) :
  let body := fst (author_chains isISO8601 toDate posted) in
  let errors := snd (author_chains isISO8601 toDate posted) in
  errors <> [] ->
  run (author_update_post isISO8601 toDate params_id posted) s
  = (Return tt,
     mkWorld s
       [Render "author_form"
          [("title", Text "著者の更新");
           ("author",
            AuthorDoc
              (Some (Author.mk params_id (first_name body)
                       (family_name body)
                       (castDate (date_of_birth body))
                       (castDate (date_of_death body)))));
           ("errors", Errors errors)]]).
Proof.
  unfold run, author_update_post.
  destruct (author_chains isISO8601 toDate posted) as [body errors].
  simpl. intros Herr. destruct errors; [contradiction | reflexivity].
Qed.

Lemma genre_create_post_invalid
  (new_id : oid) (posted : genre_body posted_text) (s : store) :
  let body := fst (genre_chains posted) in
  let errors := snd (genre_chains posted) in
  errors <> [] ->
  run (genre_create_post new_id posted) s
  = (Return tt,
     mkWorld s
       [Render "genre_form"
          [("title", Text "ジャンル作成");
           ("genre", GenreDoc (Some (Genre.mk new_id (name body))));
           ("errors", Errors errors)]]).
Proof.
  unfold run, genre_create_post.
  destruct (genre_chains posted) as [body errors].
  simpl. intros Herr. destruct errors; [contradiction | reflexivity].
Qed.

Lemma genre_update_post_invalid
  (params_id : oid) (posted : genre_body posted_text) (s : store) :
  let body := fst (genre_chains posted) in
  let errors := snd (genre_chains posted) in
  errors <> [] ->
  run (genre_update_post params_id posted) s
  = (Return tt,
     mkWorld s
       [Render "genre_form"
          [("title", Text "ジャンル更新");
           ("genre", GenreDoc (Some (Genre.mk params_id (name body))));
           ("errors", Errors errors)]]).
Proof.
  unfold run, genre_update_post.
  destruct (genre_chains posted) as [body errors].
  simpl. intros Herr. destruct errors; [contradiction | reflexivity].
Qed.

(** After the genre middleware and the chains the genre field is the
    array of the posted selection, each element escaped. *)
Lemma genre_after_chains (posted : book_body posted_text) :
  genre (fst (book_chains (genre_to_array posted)))
  = Many (List.map JS.escape (castArray (genre posted))).
Proof.
  unfold book_chains, genre_to_array.
  destruct (genre posted) eqn:E; simpl; rewrite ?E; reflexivity.
Qed.

Lemma book_create_post_invalid
  (new_id : oid) (posted : book_body posted_text) (s : store) :
  let body := fst (book_chains (genre_to_array posted)) in
  let errors := snd (book_chains (genre_to_array posted)) in
  let book :=
    Book.mk new_id (title body) (castObjectId (author body)) (summary body)
      (isbn body)
      (or_empty
         (castObjectIds (List.map JS.escape (castArray (genre posted))))) in
  errors <> [] ->
  run (book_create_post new_id posted) s
  = (Return tt,
     mkWorld s
       [Render "book_form"
          [("title", Text "本の作成");
           ("authors",
            AuthorDocs (Model.sort Author.family_name (authors s)));
           ("genres",
            GenreChoices
              (check_genres book (Model.sort Genre.name (genres s))));
           ("book", BookDoc book); ("errors", Errors errors)]]).
Proof.
  pose proof (genre_after_chains posted) as Hg.
  unfold run, book_create_post.
  destruct (book_chains (genre_to_array posted)) as [body errors].
  cbn [fst snd] in Hg |- *. intros Herr. unfold book_create_handler.
  rewrite Hg. cbn [castArray].
  destruct errors; [contradiction | reflexivity].
Qed.

Lemma book_update_post_invalid
  (params_id : oid) (posted : book_body posted_text) (s : store) :
  let body := fst (book_chains (genre_to_array posted)) in
  let errors := snd (book_chains (genre_to_array posted)) in
  let book :=
    Book.mk params_id (title body) (castObjectId (author body))
      (summary body) (isbn body)
      (or_empty
         (castObjectIds (List.map JS.escape (castArray (genre posted))))) in
  errors <> [] ->
  run (book_update_post params_id posted) s
  = (Return tt,
     mkWorld s
       [Render "book_form"
          [("title", Text "本の更新");
           ("authors",
            AuthorDocs (Model.sort Author.family_name (authors s)));
           ("genres",
            GenreChoices
              (check_genres book (Model.sort Genre.name (genres s))));
           ("book", BookDoc book); ("errors", Errors errors)]]).
Proof.
  pose proof (genre_after_chains posted) as Hg.
  unfold run, book_update_post.
  destruct (book_chains (genre_to_array posted)) as [body errors].
  cbn [fst snd] in Hg |- *. intros Herr. unfold book_update_handler.
  rewrite Hg. cbn [castArray].
  destruct errors; [contradiction | reflexivity].
Qed.

(** For a BookInstance the form is rendered when the text of the book
    field is an ObjectId. *)
Lemma bookinstance_create_post_invalid
  (new_id : oid) (posted : bookinstance_body posted_text posted_text)
  (s : store) (selected : oid) :
  let body := fst (bookinstance_chains isISO8601 toDate posted) in
  let errors := snd (bookinstance_chains isISO8601 toDate posted) in
  castObjectId (book body) = Some selected ->
  errors <> [] ->
  run (bookinstance_create_post isISO8601 toDate new_id posted) s
  = (Return tt,
     mkWorld s
       [Render "bookinstance_form"
          [("title", Text "蔵書インスタンスの作成");
           ("book_list", BookDocs (Model.sort Book.title (books s)));
           ("selected_book", Ref selected);
           ("errors", Errors errors);
           ("bookinstance",
            BookInstanceDoc
              (BookInstance.mk new_id (Some selected) (imprint body)
                 (status body) (castDate (due_back body))))]]).
Proof.
  unfold run, bookinstance_create_post.
  destruct (bookinstance_chains isISO8601 toDate posted) as [body errors].
  cbn [fst snd]. intros Hcast Herr.
  destruct errors; [contradiction|]. simpl.
  unfold bind, query. simpl. rewrite Hcast. reflexivity.
Qed.

Lemma bookinstance_update_post_invalid
  (params_id : oid) (posted : bookinstance_body posted_text posted_text)
  (s : store) (selected : oid) :
  let body := fst (bookinstance_chains isISO8601 toDate posted) in
  let errors := snd (bookinstance_chains isISO8601 toDate posted) in
  castObjectId (book body) = Some selected ->
  errors <> [] ->
  run (bookinstance_update_post isISO8601 toDate params_id posted) s
  = (Return tt,
     mkWorld s
       [Render "bookinstance_form"
          [("title", Text "蔵書インスタンスの更新");
           ("book_list", BookDocs (books s));
           ("selected_book", Ref selected);
           ("errors", Errors errors);
           ("bookinstance",
            BookInstanceDoc
              (BookInstance.mk params_id (Some selected) (imprint body)
                 (status body) (castDate (due_back body))))]]).
Proof.
  unfold run, bookinstance_update_post.
  destruct (bookinstance_chains isISO8601 toDate posted) as [body errors].
  cbn [fst snd]. intros Hcast Herr.
  destruct errors; [contradiction|]. simpl.
  unfold bind, query. simpl. rewrite Hcast, find_all. reflexivity.
Qed.

(** C4. The form of a BookInstance is not rendered again when the
    required field [book] is blank: the chain records the message of the
    field, and the handler then reads [_id] of the unset reference and
    rejects with a TypeError before it reaches the renderer.  Nothing is
    written and nothing is sent, on the create and on the update route. *)
Theorem bookinstance_post_blank_book_throws :
  forall (new_id params_id : oid)
         (posted : bookinstance_body posted_text posted_text) (s : store),
    blank (book posted) ->
    In (Validator.mkError "book" "本を指定してください" EmptyString)
      (snd (bookinstance_chains isISO8601 toDate posted))
    /\ run (bookinstance_create_post isISO8601 toDate new_id posted) s
       = (Throw (TypeError "_id"), mkWorld s [])
    /\ run (bookinstance_update_post isISO8601 toDate params_id posted) s
       = (Throw (TypeError "_id"), mkWorld s []).
Proof.
  intros new_id params_id posted s Hblank.
  unfold run, bookinstance_create_post, bookinstance_update_post,
    bookinstance_chains.
  rewrite (required_chain_blank "book" _ _ Hblank).
  destruct (Validator.body "imprint" _ _) as [i e2].
  destruct (Validator.body "status" _ _) as [st e3].
  destruct (Validator.body_date _ _ "due_back" _ _) as [d e4].
  refine (conj _ (conj _ _)); [simpl; tauto | reflexivity | reflexivity].
Qed.

End InvalidSubmissions.

Lemma bookinstance_post_blank_book_witness :
  blank (book (mkBookInstanceBody None (Some "Penguin 2003")
                 (Some "Available") (Some "2025-01-01")))
  /\ run (bookinstance_create_post Sample.isISO8601 Sample.toDate
            Sample.unused_id
            (mkBookInstanceBody None (Some "Penguin 2003")
               (Some "Available") (Some "2025-01-01")))
       Sample.library
     = (Throw (TypeError "_id"), mkWorld Sample.library []).
Proof.
  split; [reflexivity|].
  exact (proj1 (proj2
           (bookinstance_post_blank_book_throws
              Sample.isISO8601 Sample.toDate Sample.unused_id
              Sample.copy1_id
              (mkBookInstanceBody None (Some "Penguin 2003")
                 (Some "Available") (Some "2025-01-01"))
              Sample.library eq_refl))).
Defined.

(** * Updates *)

Lemma app_nil_4 {A : Type} (a b c d : list A) :
  a ++ b ++ c ++ d = [] -> a = [] /\ b = [] /\ c = [] /\ d = [].
Proof.
  intros H. apply List.app_eq_nil in H. destruct H as [-> H].
  apply List.app_eq_nil in H. destruct H as [-> H].
  apply List.app_eq_nil in H. destruct H as [-> ->]. auto.
Qed.

Section Updates.

Variable isISO8601 : string -> bool.
Variable toDate : string -> option date.

(** C10. An update-POST that passes validation and names no stored
    record: the Book handler reads [url] of the null result of the update
    and rejects with a TypeError, while the Author, Genre and BookInstance
    handlers redirect to the detail URL of the document they built; the
    store is left as it was in all four.  (An author form that passes
    validation holds letters and digits only; the other forms are taken
    without variation selectors.) *)
Theorem update_post_without_record :
  forall (params_id : oid) (s : store),
    (forall posted : book_body posted_text,
        plain_book posted ->
        snd (book_chains (genre_to_array posted)) = [] ->
        Model.findById Book._id params_id (books s) = None ->
        run (book_update_post params_id posted) s
        = (Throw (TypeError "url"), mkWorld s []))
    /\
    (forall posted : author_body posted_text posted_text,
        snd (author_chains isISO8601 toDate posted) = [] ->
        Model.findById Author._id params_id (authors s) = None ->
        run (author_update_post isISO8601 toDate params_id posted) s
        = (Return tt,
           mkWorld s [Redirect ("/catalog/author/" ++ params_id)%string]))
    /\
    (forall posted : genre_body posted_text,
        plain_genre posted ->
        snd (genre_chains posted) = [] ->
        Model.findById Genre._id params_id (genres s) = None ->
        run (genre_update_post params_id posted) s
        = (Return tt,
           mkWorld s [Redirect ("/catalog/genre/" ++ params_id)%string]))
    /\
    (forall posted : bookinstance_body posted_text posted_text,
        plain_bookinstance posted ->
        snd (bookinstance_chains isISO8601 toDate posted) = [] ->
        Model.findById BookInstance._id params_id (bookinstances s) = None ->
        run (bookinstance_update_post isISO8601 toDate params_id posted) s
        = (Return tt,
           mkWorld s
             [Redirect ("/catalog/bookinstance/" ++ params_id)%string])).
Proof.
  intros params_id s.
  refine (conj _ (conj _ (conj _ _))).
  - intros posted _ Hvalid Hnone.
    unfold run, book_update_post.
    destruct (book_chains (genre_to_array posted)) as [body errors].
    cbn [snd] in Hvalid. subst errors.
    unfold book_update_handler, findByIdAndUpdate, bind, query, modify.
    cbn [isEmpty negb db res]. rewrite Hnone.
    cbn [property_of throw]. unfold with_books. cbn [books].
    rewrite updateById_absent by exact Hnone. now rewrite store_eta.
  - intros posted Hvalid Hnone.
    unfold run, author_update_post.
    destruct (author_chains isISO8601 toDate posted) as [body errors].
    simpl in Hvalid. subst errors.
    unfold findByIdAndUpdate, bind, query, modify. simpl.
    unfold with_authors. simpl.
    rewrite updateById_absent by exact Hnone. now rewrite store_eta.
  - intros posted _ Hvalid Hnone.
    unfold run, genre_update_post.
    destruct (genre_chains posted) as [body errors].
    simpl in Hvalid. subst errors.
    unfold findByIdAndUpdate, bind, query, modify. simpl.
    unfold with_genres. simpl.
    rewrite updateById_absent by exact Hnone. now rewrite store_eta.
  - intros posted _ Hvalid Hnone.
    unfold run, bookinstance_update_post.
    destruct (bookinstance_chains isISO8601 toDate posted) as [body errors].
    cbn [snd] in Hvalid. subst errors.
    unfold findByIdAndUpdate, bind, query, modify, res_redirect.
    cbn [isEmpty negb db res BookInstance.url BookInstance._id app].
    unfold with_bookinstances. cbn [bookinstances].
    rewrite updateById_absent by exact Hnone. now rewrite store_eta.
Qed.

End Updates.

Lemma update_post_without_record_witness :
  run (book_update_post Sample.unused_id
         (mkBookBody (Some "Emma") (Some Sample.austen_id) (Some "A novel")
            (Some "9780141439587") (Single Sample.fiction_id)))
    Sample.library
  = (Throw (TypeError "url"), mkWorld Sample.library [])
  /\ run (author_update_post Sample.isISO8601 Sample.toDate Sample.unused_id
            (mkAuthorBody (Some "Jane") (Some "Austen") None None))
       Sample.library
     = (Return tt,
        mkWorld Sample.library
          [Redirect "/catalog/author/65f1c0a1b2c3d4e5f6a70099"])
  /\ run (genre_update_post Sample.unused_id (mkGenreBody (Some "Drama")))
       Sample.library
     = (Return tt,
        mkWorld Sample.library
          [Redirect "/catalog/genre/65f1c0a1b2c3d4e5f6a70099"])
  /\ run (bookinstance_update_post Sample.isISO8601 Sample.toDate
            Sample.unused_id
            (mkBookInstanceBody (Some Sample.emma_id) (Some "Penguin 2003")
               (Some "Loaned") (Some "2025-01-01")))
       Sample.library
     = (Return tt,
        mkWorld Sample.library
          [Redirect "/catalog/bookinstance/65f1c0a1b2c3d4e5f6a70099"]).
Proof.
  destruct (update_post_without_record Sample.isISO8601 Sample.toDate
              Sample.unused_id Sample.library) as (HB & HA & HG & HI).
  refine (conj _ (conj _ (conj _ _))).
  - apply HB; [repeat split | reflexivity | reflexivity].
  - apply HA; reflexivity.
  - apply HG; reflexivity.
  - apply HI; [split; reflexivity | reflexivity | reflexivity].
Defined.

(** What an update does to a date path: the value read from the body
    when the form carried the field, the stored value when it did not. *)
Definition date_updated (posted : posted_text)
  (submitted after before : optional date) : Prop :=
  (posted <> None -> after = submitted)
  /\ (posted = None -> after = before).

Lemma body_date_updated (isISO8601 : string -> bool)
  (toDate : string -> option date) (field message : string)
  (v : posted_text) (before : optional date) :
  date_updated v
    (castDate (fst (Validator.body_date isISO8601 toDate field message v)))
    (set_path before
       (castDate (fst (Validator.body_date isISO8601 toDate field message v))))
    before.
Proof.
  split.
  - intros Hsent. destruct v as [[|c r]|]; simpl; try reflexivity.
    + now destruct (toDate (String c r)).
    + contradiction.
  - intros ->. reflexivity.
Qed.

Section StoredAfterUpdate.

Variable isISO8601 : string -> bool.
Variable toDate : string -> option date.

(** C8, amended. After an update-POST that passes validation on a stored
    record, the record stored under the identifier of the URL keeps that
    identifier; every text field holds the value read from the body; a
    reference field whose text is an ObjectId holds that ObjectId (the
    genres of a book, when each element of the selection is one); a date
    field holds the value read from the body when the form carried the
    field, and a date field of an Author that the form did not carry
    keeps its stored value.
    The response redirects to the detail view of the record, and the
    other collections are left as they were.  (An author form that passes
    validation holds letters and digits only; the other forms are taken
    without variation selectors.) *)
Theorem update_post_stored_record :
  forall (params_id : oid) (s : store),
    (forall (posted : author_body posted_text posted_text) (old : Author.t),
        snd (author_chains isISO8601 toDate posted) = [] ->
        Model.findById Author._id params_id (authors s) = Some old ->
        exists (s' : store) (r : Author.t),
          run (author_update_post isISO8601 toDate params_id posted) s
          = (Return tt, mkWorld s' [Redirect (Author.url r)])
          /\ Model.findById Author._id params_id (authors s') = Some r
          /\ Author._id r = params_id
          /\ Author.first_name r
             = first_name (fst (author_chains isISO8601 toDate posted))
          /\ Author.family_name r
             = family_name (fst (author_chains isISO8601 toDate posted))
          /\ date_updated (date_of_birth posted)
               (castDate
                  (date_of_birth
                     (fst (author_chains isISO8601 toDate posted))))
               (Author.date_of_birth r) (Author.date_of_birth old)
          /\ date_updated (date_of_death posted)
               (castDate
                  (date_of_death
                     (fst (author_chains isISO8601 toDate posted))))
               (Author.date_of_death r) (Author.date_of_death old)
          /\ books s' = books s /\ genres s' = genres s
          /\ bookinstances s' = bookinstances s)
    /\
    (forall (posted : genre_body posted_text) (old : Genre.t),
        plain_genre posted ->
        snd (genre_chains posted) = [] ->
        Model.findById Genre._id params_id (genres s) = Some old ->
        exists (s' : store) (r : Genre.t),
          run (genre_update_post params_id posted) s
          = (Return tt, mkWorld s' [Redirect (Genre.url r)])
          /\ Model.findById Genre._id params_id (genres s') = Some r
          /\ Genre._id r = params_id
          /\ Genre.name r = name (fst (genre_chains posted))
          /\ authors s' = authors s /\ books s' = books s
          /\ bookinstances s' = bookinstances s)
    /\
    (forall (posted : book_body posted_text) (old : Book.t)
            (author_id : oid) (genre_ids : list oid),
        plain_book posted ->
        snd (book_chains (genre_to_array posted)) = [] ->
        castObjectId (author (fst (book_chains (genre_to_array posted))))
        = Some author_id ->
        castObjectIds (List.map JS.escape (castArray (genre posted)))
        = Some genre_ids ->
        Model.findById Book._id params_id (books s) = Some old ->
        exists (s' : store) (r : Book.t),
          run (book_update_post params_id posted) s
          = (Return tt, mkWorld s' [Redirect (Book.url r)])
          /\ Model.findById Book._id params_id (books s') = Some r
          /\ Book._id r = params_id
          /\ Book.title r = title (fst (book_chains (genre_to_array posted)))
          /\ Book.author r = Some author_id
          /\ Book.summary r
             = summary (fst (book_chains (genre_to_array posted)))
          /\ Book.isbn r = isbn (fst (book_chains (genre_to_array posted)))
          /\ Book.genre r = genre_ids
          /\ authors s' = authors s /\ genres s' = genres s
          /\ bookinstances s' = bookinstances s)
    /\
    (forall (posted : bookinstance_body posted_text posted_text)
            (old : BookInstance.t) (book_id : oid),
        plain_bookinstance posted ->
        snd (bookinstance_chains isISO8601 toDate posted) = [] ->
        castObjectId (book (fst (bookinstance_chains isISO8601 toDate posted)))
        = Some book_id ->
        Model.findById BookInstance._id params_id (bookinstances s)
        = Some old ->
        exists (s' : store) (r : BookInstance.t),
          run (bookinstance_update_post isISO8601 toDate params_id posted) s
          = (Return tt, mkWorld s' [Redirect (BookInstance.url r)])
          /\ Model.findById BookInstance._id params_id (bookinstances s')
             = Some r
          /\ BookInstance._id r = params_id
          /\ BookInstance.book r = Some book_id
          /\ BookInstance.imprint r
             = imprint (fst (bookinstance_chains isISO8601 toDate posted))
          /\ BookInstance.status r
             = status (fst (bookinstance_chains isISO8601 toDate posted))
          /\ (due_back posted <> None ->
              BookInstance.due_back r
              = castDate
                  (due_back
                     (fst (bookinstance_chains isISO8601 toDate posted))))
          /\ authors s' = authors s /\ books s' = books s
          /\ genres s' = genres s).
Proof.
  intros params_id s.
  refine (conj _ (conj _ (conj _ _))).
  - intros posted old Hvalid Hold.
    destruct (findById_some _ _ _ _ Hold) as [_ Hid].
    pose proof (f_equal fst (author_chains_run isISO8601 toDate posted))
      as Hbody.
    unfold run, author_update_post.
    destruct (author_chains isISO8601 toDate posted) as [body errors].
    simpl in Hvalid, Hbody |- *. subst errors body.
    unfold findByIdAndUpdate, bind, query, modify. simpl.
    eexists (with_authors (Model.updateById Author._id params_id _) s).
    eexists (Author.set _ old).
    split; [|split; [apply updateById_found;
                     [reflexivity | exact Hold]|]].
    + unfold Author.url. simpl. rewrite Hid. reflexivity.
    + simpl. repeat split; try exact Hid; apply body_date_updated.
  - intros posted old _ Hvalid Hold.
    destruct (findById_some _ _ _ _ Hold) as [_ Hid].
    unfold run, genre_update_post.
    destruct (genre_chains posted) as [body errors].
    simpl in Hvalid |- *. subst errors.
    unfold findByIdAndUpdate, bind, query, modify. simpl.
    eexists (with_genres (Model.updateById Genre._id params_id _) s).
    eexists (Genre.set _ old).
    split; [|split; [apply updateById_found;
                     [reflexivity | exact Hold]|]].
    + unfold Genre.url. simpl. rewrite Hid. reflexivity.
    + simpl. repeat split; exact Hid.
  - intros posted old author_id genre_ids _ Hvalid Hauthor Hgenre Hold.
    destruct (findById_some _ _ _ _ Hold) as [_ Hid].
    pose proof (genre_after_chains posted) as Hg.
    unfold run, book_update_post.
    destruct (book_chains (genre_to_array posted)) as [body errors].
    cbn [fst snd] in Hvalid, Hauthor, Hg |- *. subst errors.
    unfold book_update_handler, findByIdAndUpdate, bind, query, modify.
    cbn [isEmpty negb db res]. rewrite Hold, Hg, Hauthor.
    cbn [castArray property_of ret]. rewrite Hgenre.
    set (u := Book.mk params_id (title body) (Some author_id) (summary body)
                (isbn body) genre_ids).
    exists (with_books (Model.updateById Book._id params_id (Book.set u)) s).
    exists (Book.set u old).
    split; [reflexivity|].
    split; [apply updateById_found; [reflexivity | exact Hold]|].
    cbn. repeat split; exact Hid.
  - intros posted old book_id _ Hvalid Hbook Hold.
    destruct (findById_some _ _ _ _ Hold) as [_ Hid].
    pose proof (f_equal fst (bookinstance_chains_run isISO8601 toDate posted))
      as Hbody.
    unfold run, bookinstance_update_post.
    destruct (bookinstance_chains isISO8601 toDate posted) as [body errors].
    cbn [fst snd] in Hvalid, Hbook, Hbody |- *. subst errors.
    unfold findByIdAndUpdate, bind, query, modify.
    cbn [isEmpty negb db res]. rewrite Hbook.
    set (u := BookInstance.mk params_id (Some book_id) (imprint body)
                (status body) (castDate (due_back body))).
    exists (with_bookinstances
              (Model.updateById BookInstance._id params_id
                 (BookInstance.set u)) s).
    exists (BookInstance.set u old).
    split; [cbn; rewrite Hid; reflexivity|].
    split; [apply updateById_found; [reflexivity | exact Hold]|].
    cbn. repeat split; try exact Hid.
    intros Hsent. subst body. cbn [due_back].
    apply body_date_updated. exact Hsent.
Qed.

End StoredAfterUpdate.

(** C8, as the specification states it, fails: an update of Austen whose
    form carries no birth date passes validation and leaves the stored
    birth date in place, although the document built from the submission
    has none.  The update is a patch of the fields the form carried. *)
Lemma author_update_post_keeps_omitted_date :
  snd (author_chains Sample.isISO8601 Sample.toDate
         (mkAuthorBody (Some "Jane") (Some "Austin") None None)) = []
  /\ exists r,
      Model.findById Author._id Sample.austen_id
        (authors
           (db (snd (run (author_update_post Sample.isISO8601 Sample.toDate
                            Sample.austen_id
                            (mkAuthorBody (Some "Jane") (Some "Austin")
                               None None))
                       Sample.library))))
      = Some r
      /\ Author.family_name r = "Austin"
      /\ Author.date_of_birth r = Author.date_of_birth Sample.austen
      /\ Author.date_of_birth r
         <> castDate
              (date_of_birth
                 (fst (author_chains Sample.isISO8601 Sample.toDate
                         (mkAuthorBody (Some "Jane") (Some "Austin")
                            None None)))).
Proof.
  split; [reflexivity|].
  exists (Author.mk Sample.austen_id "Jane" "Austin"
            (Val (-6129216000000)%Z) Undefined).
  refine (conj eq_refl (conj eq_refl (conj eq_refl _))).
  discriminate.
Qed.

Lemma update_post_stored_record_witness :
  (exists s' r,
      run (author_update_post Sample.isISO8601 Sample.toDate
             Sample.austen_id
             (mkAuthorBody (Some "Jane") (Some "Austin") (Some "") None))
        Sample.library
      = (Return tt, mkWorld s' [Redirect (Author.url r)])
      /\ Author._id r = Sample.austen_id
      /\ Author.family_name r = "Austin"
      /\ Author.date_of_birth r = Null
      /\ Author.date_of_death r = Undefined)
  /\ (exists s' r,
         run (genre_update_post Sample.poetry_id
                (mkGenreBody (Some " Verse ")))
           Sample.library
         = (Return tt, mkWorld s' [Redirect (Genre.url r)])
         /\ Genre._id r = Sample.poetry_id
         /\ Genre.name r = "Verse")
  /\ (exists s' r,
         run (book_update_post Sample.emma_id
                (mkBookBody (Some "Emma") (Some "65F1C0A1B2C3D4E5F6A70002")
                   (Some "A comedy") (Some "9780141439587")
                   (Single Sample.poetry_id)))
           Sample.library
         = (Return tt, mkWorld s' [Redirect (Book.url r)])
         /\ Book._id r = Sample.emma_id
         /\ Book.author r = Some Sample.adams_id
         /\ Book.genre r = [Sample.poetry_id])
  /\ (exists s' r,
         run (bookinstance_update_post Sample.isISO8601 Sample.toDate
                Sample.copy2_id
                (mkBookInstanceBody (Some "65F1C0A1B2C3D4E5F6A70011")
                   (Some "Oxford 1998") (Some "Loaned")
                   (Some "2025-01-01")))
           Sample.library
         = (Return tt, mkWorld s' [Redirect (BookInstance.url r)])
         /\ BookInstance._id r = Sample.copy2_id
         /\ BookInstance.status r = "Loaned"
         /\ BookInstance.due_back r = Val 1735689600000%Z).
Proof.
  destruct (update_post_stored_record Sample.isISO8601 Sample.toDate
              Sample.austen_id Sample.library) as (HA & _).
  destruct (update_post_stored_record Sample.isISO8601 Sample.toDate
              Sample.poetry_id Sample.library) as (_ & HG & _).
  destruct (update_post_stored_record Sample.isISO8601 Sample.toDate
              Sample.emma_id Sample.library) as (_ & _ & HB & _).
  destruct (update_post_stored_record Sample.isISO8601 Sample.toDate
              Sample.copy2_id Sample.library) as (_ & _ & _ & HI).
  refine (conj _ (conj _ (conj _ _))).
  - destruct (HA (mkAuthorBody (Some "Jane") (Some "Austin") (Some "") None)
                Sample.austen eq_refl eq_refl)
      as (s' & r & Hrun & _ & Hid & _ & Hfam & [Hbirth _] & [_ Hdeath] & _).
    exists s', r.
    refine (conj Hrun (conj Hid (conj _ (conj _ _)))).
    + rewrite Hfam. reflexivity.
    + rewrite Hbirth; [reflexivity | discriminate].
    + rewrite Hdeath; reflexivity.
  - destruct (HG (mkGenreBody (Some " Verse ")) Sample.poetry
                eq_refl eq_refl eq_refl)
      as (s' & r & Hrun & _ & Hid & Hname & _).
    exists s', r. refine (conj Hrun (conj Hid _)).
    rewrite Hname. reflexivity.
  - destruct (HB (mkBookBody (Some "Emma") (Some "65F1C0A1B2C3D4E5F6A70002")
                    (Some "A comedy") (Some "9780141439587")
                    (Single Sample.poetry_id))
                Sample.emma Sample.adams_id [Sample.poetry_id]
                (conj eq_refl (conj eq_refl (conj eq_refl eq_refl)))
                eq_refl eq_refl eq_refl eq_refl)
      as (s' & r & Hrun & _ & Hid & _ & Hauthor & _ & _ & Hgenre & _).
    exists s', r. refine (conj Hrun (conj Hid (conj _ _))).
    + rewrite Hauthor. reflexivity.
    + rewrite Hgenre. reflexivity.
  - destruct (HI (mkBookInstanceBody (Some "65F1C0A1B2C3D4E5F6A70011")
                    (Some "Oxford 1998") (Some "Loaned")
                    (Some "2025-01-01"))
                Sample.copy2 Sample.emma_id (conj eq_refl eq_refl)
                eq_refl eq_refl eq_refl)
      as (s' & r & Hrun & _ & Hid & _ & _ & Hstatus & Hdue & _).
    exists s', r. refine (conj Hrun (conj Hid (conj _ _))).
    + rewrite Hstatus. reflexivity.
    + rewrite Hdue; [reflexivity | discriminate].
Defined.

(** * The GET routes *)

(** A request served by a handler that resolves to a value. *)
Definition serve {A : Type} (handler : M A) (s : store) : result A * world :=
  handler (mkWorld s []).

(** X1. The detail and the update-GET handlers of the four entities hand
    a 404 error with the message of the entity to [next] when the
    identifier names no record: no call is made on the response and the
    store is left as it was. *)
Theorem missing_record_is_not_found :
  forall (params_id : oid) (s : store),
    (Model.findById Author._id params_id (authors s) = None ->
     serve (author_detail params_id) s
     = (Return (Some (mkHttpError "著者が見つかりません" 404)), mkWorld s [])
     /\ serve (author_update_get params_id) s
        = (Return (Some (mkHttpError "著者が見つかりません" 404)),
           mkWorld s []))
    /\
    (Model.findById Genre._id params_id (genres s) = None ->
     serve (genre_detail params_id) s
     = (Return (Some (mkHttpError "ジャンルが見つかりません" 404)),
        mkWorld s [])
     /\ serve (genre_update_get params_id) s
        = (Return (Some (mkHttpError "ジャンルが見つかりません" 404)),
           mkWorld s []))
    /\
    (Model.findById Book._id params_id (books s) = None ->
     serve (book_detail params_id) s
     = (Return (Some (mkHttpError "本が見つかりません" 404)), mkWorld s [])
     /\ book_update_get params_id s
        = Next (mkHttpError "本が見つかりません" 404))
    /\
    (Model.findById BookInstance._id params_id (bookinstances s) = None ->
     serve (bookinstance_detail params_id) s
     = (Return (Some (mkHttpError "蔵書コピーが見つかりません" 404)),
        mkWorld s [])
     /\ serve (bookinstance_update_get params_id) s
        = (Return (Some (mkHttpError "蔵書コピーが見つかりません" 404)),
           mkWorld s [])).
Proof.
  intros params_id s.
  refine (conj _ (conj _ (conj _ _))); intros Hnone; split.
  - unfold serve, author_detail, bind, query. simpl. now rewrite Hnone.
  - unfold serve, author_update_get, bind, query. simpl. now rewrite Hnone.
  - unfold serve, genre_detail, bind, query. simpl. now rewrite Hnone.
  - unfold serve, genre_update_get, bind, query. simpl. now rewrite Hnone.
  - unfold serve, book_detail, bind, query. simpl. now rewrite Hnone.
  - unfold book_update_get. now rewrite Hnone.
  - unfold serve, bookinstance_detail, bind, query. simpl.
    now rewrite Hnone.
  - unfold serve, bookinstance_update_get, bind, query. simpl.
    now rewrite Hnone.
Qed.

Lemma missing_record_is_not_found_witness :
  fst (serve (author_detail Sample.unused_id) Sample.library)
  = Return (Some (mkHttpError "著者が見つかりません" 404))
  /\ fst (serve (genre_update_get Sample.unused_id) Sample.library)
     = Return (Some (mkHttpError "ジャンルが見つかりません" 404))
  /\ book_update_get Sample.unused_id Sample.library
     = Next (mkHttpError "本が見つかりません" 404)
  /\ res (snd (serve (bookinstance_detail Sample.unused_id) Sample.library))
     = [].
Proof.
  destruct (missing_record_is_not_found Sample.unused_id Sample.library)
    as (HA & HG & HB & HI).
  refine (conj _ (conj _ (conj _ _))).
  - rewrite (proj1 (HA eq_refl)). reflexivity.
  - rewrite (proj2 (HG eq_refl)). reflexivity.
  - exact (proj2 (HB eq_refl)).
  - rewrite (proj1 (HI eq_refl)). reflexivity.
Defined.

Lemma find_In {doc : Type} (filter : doc -> bool) (c : list doc) (d : doc) :
  In d (Model.find filter c) <-> In d c /\ filter d = true.
Proof. unfold Model.find. apply List.filter_In. Qed.

(** X2. The detail view of a stored author, genre or book is rendered
    once, with the record and with exactly the stored documents that
    refer to it: the books of the author, the books that hold the genre,
    the copies of the book.  [next] is not called. *)
Theorem detail_shows_record_and_dependents :
  forall (params_id : oid) (s : store),
    (forall a,
        Model.findById Author._id params_id (authors s) = Some a ->
        exists shown,
          serve (author_detail params_id) s
          = (Return None,
             mkWorld s
               [Render "author_detail"
                  [("title", Text "著者詳細"); ("author", AuthorDoc (Some a));
                   ("author_books", BookDocs shown)]])
          /\ forall b, In b shown
                       <-> In b (books s) /\ Book.author b = Some params_id)
    /\
    (forall g,
        Model.findById Genre._id params_id (genres s) = Some g ->
        exists shown,
          serve (genre_detail params_id) s
          = (Return None,
             mkWorld s
               [Render "genre_detail"
                  [("title", Text "ジャンル詳細"); ("genre", GenreDoc (Some g));
                   ("genre_books", BookDocs shown)]])
          /\ forall b, In b shown
                       <-> In b (books s) /\ In params_id (Book.genre b))
    /\
    (forall b,
        Model.findById Book._id params_id (books s) = Some b ->
        exists shown,
          serve (book_detail params_id) s
          = (Return None,
             mkWorld s
               [Render "book_detail"
                  [("title", Text (Book.title b));
                   ("book", BookPopulated (Some (populate_both s b)));
                   ("book_instances", BookInstanceDocs shown)]])
          /\ forall c, In c shown
                       <-> In c (bookinstances s)
                           /\ BookInstance.book c = Some params_id).
Proof.
  intros params_id s. refine (conj _ (conj _ _)); intros d Hfound.
  - exists (Model.find (Book.by_author params_id) (books s)). split.
    + unfold serve, author_detail, bind, query. simpl. now rewrite Hfound.
    + intros b. rewrite find_In, by_author_true. reflexivity.
  - exists (Model.find (Book.by_genre params_id) (books s)). split.
    + unfold serve, genre_detail, bind, query. simpl. now rewrite Hfound.
    + intros b. rewrite find_In, by_genre_true. reflexivity.
  - exists (Model.find (BookInstance.by_book params_id) (bookinstances s)).
    split.
    + unfold serve, book_detail, bind, query. simpl. now rewrite Hfound.
    + intros c. rewrite find_In, by_book_true. reflexivity.
Qed.

Lemma detail_shows_record_and_dependents_witness :
  (exists shown,
      res (snd (serve (author_detail Sample.austen_id) Sample.library))
      = [Render "author_detail"
           [("title", Text "著者詳細");
            ("author", AuthorDoc (Some Sample.austen));
            ("author_books", BookDocs shown)]]
      /\ In Sample.emma shown)
  /\ (exists shown,
         res (snd (serve (genre_detail Sample.poetry_id) Sample.library))
         = [Render "genre_detail"
              [("title", Text "ジャンル詳細");
               ("genre", GenreDoc (Some Sample.poetry));
               ("genre_books", BookDocs shown)]]
         /\ ~ In Sample.emma shown)
  /\ (exists shown,
         fst (serve (book_detail Sample.emma_id) Sample.library)
         = Return None
         /\ forall c, In c shown
                      <-> In c (bookinstances Sample.library)
                          /\ BookInstance.book c = Some Sample.emma_id).
Proof.
  destruct (detail_shows_record_and_dependents Sample.austen_id
              Sample.library) as (HA & _).
  destruct (detail_shows_record_and_dependents Sample.poetry_id
              Sample.library) as (_ & HG & _).
  destruct (detail_shows_record_and_dependents Sample.emma_id
              Sample.library) as (_ & _ & HB).
  refine (conj _ (conj _ _)).
  - destruct (HA Sample.austen eq_refl) as (shown & Hrun & Hshown).
    exists shown. split; [now rewrite Hrun|].
    apply Hshown. split; [simpl; tauto | reflexivity].
  - destruct (HG Sample.poetry eq_refl) as (shown & Hrun & Hshown).
    exists shown. split; [now rewrite Hrun|].
    intros Hin. apply Hshown in Hin. destruct Hin as [_ [E|[]]].
    discriminate E.
  - destruct (HB Sample.emma eq_refl) as (shown & Hrun & Hshown).
    exists shown. split; [now rewrite Hrun | exact Hshown].
Defined.

(** X3. No handler of a GET route writes to the store: after the list,
    detail, create-GET, update-GET and delete-GET handlers of the four
    entities the store is the one the request found, whatever the
    identifier. *)
Theorem get_handlers_leave_store :
  forall (params_id : oid) (s : store),
    (db (snd (serve author_list s)) = s
     /\ db (snd (serve (author_detail params_id) s)) = s
     /\ db (snd (serve author_create_get s)) = s
     /\ db (snd (serve (author_update_get params_id) s)) = s
     /\ db (snd (serve (author_delete_get params_id) s)) = s)
    /\
    (db (snd (serve genre_list s)) = s
     /\ db (snd (serve (genre_detail params_id) s)) = s
     /\ db (snd (serve genre_create_get s)) = s
     /\ db (snd (serve (genre_update_get params_id) s)) = s
     /\ db (snd (serve (genre_delete_get params_id) s)) = s)
    /\
    (db (snd (serve book_list s)) = s
     /\ db (snd (serve (book_detail params_id) s)) = s
     /\ db (snd (serve book_create_get s)) = s
     /\ db (snd (serve (book_delete_get params_id) s)) = s)
    /\
    (db (snd (serve bookinstance_list s)) = s
     /\ db (snd (serve (bookinstance_detail params_id) s)) = s
     /\ db (snd (serve bookinstance_create_get s)) = s
     /\ db (snd (serve (bookinstance_update_get params_id) s)) = s
     /\ db (snd (serve (bookinstance_delete_get params_id) s)) = s).
Proof.
  intros params_id s.
  refine (conj (conj _ (conj _ (conj _ (conj _ _))))
            (conj (conj _ (conj _ (conj _ (conj _ _))))
               (conj (conj _ (conj _ (conj _ _)))
                  (conj _ (conj _ (conj _ (conj _ _)))))));
    try reflexivity.
  - unfold serve, author_detail, bind, query. simpl.
    now destruct (Model.findById Author._id params_id (authors s)).
  - unfold serve, author_update_get, bind, query. simpl.
    now destruct (Model.findById Author._id params_id (authors s)).
  - unfold serve, author_delete_get, bind, query. simpl.
    now destruct (Model.findById Author._id params_id (authors s)).
  - unfold serve, genre_detail, bind, query. simpl.
    now destruct (Model.findById Genre._id params_id (genres s)).
  - unfold serve, genre_update_get, bind, query. simpl.
    now destruct (Model.findById Genre._id params_id (genres s)).
  - unfold serve, genre_delete_get, bind, query. simpl.
    now destruct (Model.findById Genre._id params_id (genres s)).
  - unfold serve, book_detail, bind, query. simpl.
    now destruct (Model.findById Book._id params_id (books s)).
  - unfold serve, book_delete_get, bind, query. simpl.
    now destruct (Model.findById Book._id params_id (books s)).
  - unfold serve, bookinstance_detail, bind, query. simpl.
    now destruct (Model.findById BookInstance._id params_id
                    (bookinstances s)).
  - unfold serve, bookinstance_update_get, bind, query. simpl.
    destruct (Model.findById BookInstance._id params_id (bookinstances s))
      as [i|]; [|reflexivity].
    simpl. now destruct (populate_book s i).
  - unfold serve, bookinstance_delete_get, bind, query. simpl.
    now destruct (Model.findById BookInstance._id params_id
                    (bookinstances s)).
Qed.

(** X4. The update form of a stored copy: when the book the copy refers
    to is stored, the form is rendered with the books in the order of the
    store and with that book selected; when the reference names no stored
    book, the handler reads [_id] of the null document and rejects with a
    TypeError, and nothing is sent. *)
Theorem bookinstance_update_get_selects_book :
  forall (params_id : oid) (s : store) (copy : BookInstance.t),
    Model.findById BookInstance._id params_id (bookinstances s) = Some copy ->
    (forall b,
        populate_book s copy = Some b ->
        BookInstance.book copy = Some (Book._id b)
        /\ serve (bookinstance_update_get params_id) s
           = (Return None,
              mkWorld s
                [Render "bookinstance_form"
                   [("title", Text "蔵書インスタンスの更新");
                    ("book_list", BookDocs (books s));
                    ("selected_book", Ref (Book._id b));
                    ("bookinstance",
                     BookInstancePopulated (Some (copy, Some b)))]]))
    /\
    (populate_book s copy = None ->
     serve (bookinstance_update_get params_id) s
     = (Throw (TypeError "_id"), mkWorld s [])).
Proof.
  intros params_id s copy Hfound. split.
  - intros b Hbook. split.
    + unfold populate_book in Hbook.
      destruct (BookInstance.book copy) as [r|]; [|discriminate].
      apply findById_some in Hbook. destruct Hbook as [_ ->]. reflexivity.
    + unfold serve, bookinstance_update_get, bind, query. simpl.
      rewrite Hfound. simpl. rewrite Hbook, find_all. reflexivity.
  - intros Hnone.
    unfold serve, bookinstance_update_get, bind, query. simpl.
    rewrite Hfound. simpl. rewrite Hnone. reflexivity.
Qed.

(** A store in which a copy refers to a book that is not stored. *)
Definition orphaned : store :=
  mkStore [] [Sample.persuasion] [] [Sample.copy1; Sample.copy2].

Lemma bookinstance_update_get_selects_book_witness :
  serve (bookinstance_update_get Sample.copy1_id) orphaned
  = (Return None,
     mkWorld orphaned
       [Render "bookinstance_form"
          [("title", Text "蔵書インスタンスの更新");
           ("book_list", BookDocs [Sample.persuasion]);
           ("selected_book", Ref Sample.persuasion_id);
           ("bookinstance",
            BookInstancePopulated
              (Some (Sample.copy1, Some Sample.persuasion)))]])
  /\ serve (bookinstance_update_get Sample.copy2_id) orphaned
     = (Throw (TypeError "_id"), mkWorld orphaned []).
Proof.
  destruct (bookinstance_update_get_selects_book Sample.copy1_id orphaned
              Sample.copy1 eq_refl) as [Hsome _].
  destruct (bookinstance_update_get_selects_book Sample.copy2_id orphaned
              Sample.copy2 eq_refl) as [_ Hnone].
  split.
  - exact (proj2 (Hsome Sample.persuasion eq_refl)).
  - exact (Hnone eq_refl).
Defined.

(** * Submissions, continued *)
Section FormsWithErrors.

Variable isISO8601 : string -> bool.
Variable toDate : string -> option date.

(** X5. With a validation error the create and the update handlers of
    Author, Genre and Book write nothing and send no redirect: the only
    call on the response renders the form, with the document built from
    the body as the chains left it and with the list of errors.  The
    document of a book has the author that the text of the field casts
    to, if any, and the genres of the selection; its form offers the
    authors by family name and the genres by name, each genre marked when
    the selection holds it.  The texts are taken without variation
    selectors, and each element of the genre selection is an ObjectId. *)
Theorem post_with_errors_renders_form :
  forall (new_id params_id : oid) (s : store),
    (forall posted : author_body posted_text posted_text,
        plain_author posted ->
        snd (author_chains isISO8601 toDate posted) <> [] ->
        let body := fst (author_chains isISO8601 toDate posted) in
        let author id :=
          Author.mk id (first_name body) (family_name body)
            (castDate (date_of_birth body)) (castDate (date_of_death body)) in
        run (author_create_post isISO8601 toDate new_id posted) s
        = (Return tt,
           mkWorld s
             [Render "author_form"
                [("title", Text "著者の作成");
                 ("author", AuthorDoc (Some (author new_id)));
                 ("errors",
                  Errors (snd (author_chains isISO8601 toDate posted)))]])
        /\ run (author_update_post isISO8601 toDate params_id posted) s
           = (Return tt,
              mkWorld s
                [Render "author_form"
                   [("title", Text "著者の更新");
                    ("author", AuthorDoc (Some (author params_id)));
                    ("errors",
                     Errors (snd (author_chains isISO8601 toDate posted)))]]))
    /\
    (forall posted : genre_body posted_text,
        plain_genre posted ->
        snd (genre_chains posted) <> [] ->
        run (genre_create_post new_id posted) s
        = (Return tt,
           mkWorld s
             [Render "genre_form"
                [("title", Text "ジャンル作成");
                 ("genre",
                  GenreDoc
                    (Some (Genre.mk new_id (name (fst (genre_chains posted))))));
                 ("errors", Errors (snd (genre_chains posted)))]])
        /\ run (genre_update_post params_id posted) s
           = (Return tt,
              mkWorld s
                [Render "genre_form"
                   [("title", Text "ジャンル更新");
                    ("genre",
                     GenreDoc
                       (Some
                          (Genre.mk params_id
                             (name (fst (genre_chains posted))))));
                    ("errors", Errors (snd (genre_chains posted)))]]))
    /\
    (forall (posted : book_body posted_text) (genre_ids : list oid),
        plain_book posted ->
        castObjectIds (List.map JS.escape (castArray (genre posted)))
        = Some genre_ids ->
        snd (book_chains (genre_to_array posted)) <> [] ->
        let body := fst (book_chains (genre_to_array posted)) in
        let book id :=
          Book.mk id (title body) (castObjectId (author body)) (summary body)
            (isbn body) genre_ids in
        run (book_create_post new_id posted) s
        = (Return tt,
           mkWorld s
             [Render "book_form"
                [("title", Text "本の作成");
                 ("authors",
                  AuthorDocs (Model.sort Author.family_name (authors s)));
                 ("genres",
                  GenreChoices
                    (check_genres (book new_id)
                       (Model.sort Genre.name (genres s))));
                 ("book", BookDoc (book new_id));
                 ("errors",
                  Errors (snd (book_chains (genre_to_array posted))))]])
        /\ run (book_update_post params_id posted) s
           = (Return tt,
              mkWorld s
                [Render "book_form"
                   [("title", Text "本の更新");
                    ("authors",
                     AuthorDocs (Model.sort Author.family_name (authors s)));
                    ("genres",
                     GenreChoices
                       (check_genres (book params_id)
                          (Model.sort Genre.name (genres s))));
                    ("book", BookDoc (book params_id));
                    ("errors",
                     Errors (snd (book_chains (genre_to_array posted))))]])).
Proof.
  intros new_id params_id s.
  refine (conj _ (conj _ _)).
  - intros posted _ Herr body author. split.
    + now apply author_create_post_invalid.
    + now apply author_update_post_invalid.
  - intros posted _ Herr. split.
    + now apply genre_create_post_invalid.
    + now apply genre_update_post_invalid.
  - intros posted genre_ids _ Hcast Herr body book. split.
    + pose proof (book_create_post_invalid new_id posted s Herr) as H.
      cbv zeta in H. rewrite Hcast in H. exact H.
    + pose proof (book_update_post_invalid params_id posted s Herr) as H.
      cbv zeta in H. rewrite Hcast in H. exact H.
Qed.

(** X6. With a validation error and a book field whose text is an
    ObjectId, the create and the update handlers of BookInstance write
    nothing and render the form with that book selected and with the copy
    built from the body: the book, the imprint and the status read from
    the body and, when the form carried a due date, that date.  The
    create handler lists the books by title and the update handler in the
    order of the store.  The texts are taken without variation
    selectors. *)
Theorem bookinstance_post_with_errors_renders_form :
  forall (new_id params_id : oid)
         (posted : bookinstance_body posted_text posted_text) (s : store)
         (selected : oid),
    plain_bookinstance posted ->
    castObjectId (book (fst (bookinstance_chains isISO8601 toDate posted)))
    = Some selected ->
    snd (bookinstance_chains isISO8601 toDate posted) <> [] ->
    let body := fst (bookinstance_chains isISO8601 toDate posted) in
    (exists due,
        (due_back posted <> None -> due = castDate (due_back body))
        /\ run (bookinstance_create_post isISO8601 toDate new_id posted) s
           = (Return tt,
              mkWorld s
                [Render "bookinstance_form"
                   [("title", Text "蔵書インスタンスの作成");
                    ("book_list",
                     BookDocs (Model.sort Book.title (books s)));
                    ("selected_book", Ref selected);
                    ("errors",
                     Errors
                       (snd (bookinstance_chains isISO8601 toDate posted)));
                    ("bookinstance",
                     BookInstanceDoc
                       (BookInstance.mk new_id (Some selected)
                          (imprint body) (status body) due))]]))
    /\
    (exists due,
        (due_back posted <> None -> due = castDate (due_back body))
        /\ run (bookinstance_update_post isISO8601 toDate params_id posted) s
           = (Return tt,
              mkWorld s
                [Render "bookinstance_form"
                   [("title", Text "蔵書インスタンスの更新");
                    ("book_list", BookDocs (books s));
                    ("selected_book", Ref selected);
                    ("errors",
                     Errors
                       (snd (bookinstance_chains isISO8601 toDate posted)));
                    ("bookinstance",
                     BookInstanceDoc
                       (BookInstance.mk params_id (Some selected)
                          (imprint body) (status body) due))]])).
Proof.
  intros new_id params_id posted s selected _ Hcast Herr body. split.
  - exists (castDate (due_back body)). split; [reflexivity|].
    now apply bookinstance_create_post_invalid.
  - exists (castDate (due_back body)). split; [reflexivity|].
    now apply bookinstance_update_post_invalid.
Qed.

(** X7. Every required field that is blank, that is missing or made of
    white space only, has its own message among the validation errors:
    the two names of an author, the name of a genre, the title, author,
    summary and ISBN of a book, the book and the imprint of a copy. *)
Theorem blank_required_field_is_reported :
  (forall posted : author_body posted_text posted_text,
      (blank (first_name posted) ->
       In (Validator.mkError "first_name" "名は必須です。" EmptyString)
         (snd (author_chains isISO8601 toDate posted)))
      /\
      (blank (family_name posted) ->
       In (Validator.mkError "family_name" "姓は必須です。" EmptyString)
         (snd (author_chains isISO8601 toDate posted))))
  /\
  (forall posted : genre_body posted_text,
      blank (name posted) ->
      In (Validator.mkError "name"
            "ジャンル名は3文字以上で入力してください" EmptyString)
        (snd (genre_chains posted)))
  /\
  (forall posted : book_body posted_text,
      (blank (title posted) ->
       In (Validator.mkError "title" "タイトルは必須です。" EmptyString)
         (snd (book_chains (genre_to_array posted))))
      /\
      (blank (author posted) ->
       In (Validator.mkError "author" "著者は必須です。" EmptyString)
         (snd (book_chains (genre_to_array posted))))
      /\
      (blank (summary posted) ->
       In (Validator.mkError "summary" "概要は必須です。" EmptyString)
         (snd (book_chains (genre_to_array posted))))
      /\
      (blank (isbn posted) ->
       In (Validator.mkError "isbn" "ISBNは必須です" EmptyString)
         (snd (book_chains (genre_to_array posted)))))
  /\
  (forall posted : bookinstance_body posted_text posted_text,
      (blank (book posted) ->
       In (Validator.mkError "book" "本を指定してください" EmptyString)
         (snd (bookinstance_chains isISO8601 toDate posted)))
      /\
      (blank (imprint posted) ->
       In (Validator.mkError "imprint" "出版情報を指定してください"
             EmptyString)
         (snd (bookinstance_chains isISO8601 toDate posted)))).
Proof.
  refine (conj _ (conj _ (conj _ _))); intros posted.
  - apply author_chains_blank.
  - apply genre_chains_blank.
  - pose proof (book_chains_blank (genre_to_array posted)) as H.
    assert (Hsame : title (genre_to_array posted) = title posted
                    /\ author (genre_to_array posted) = author posted
                    /\ summary (genre_to_array posted) = summary posted
                    /\ isbn (genre_to_array posted) = isbn posted).
    { unfold genre_to_array. destruct (genre posted); auto. }
    destruct Hsame as (Ht & Ha & Hs & Hi).
    rewrite Ht, Ha, Hs, Hi in H. exact H.
  - apply bookinstance_chains_blank.
Qed.

End FormsWithErrors.

Lemma post_with_errors_renders_form_witness :
  db (snd (run (author_create_post Sample.isISO8601 Sample.toDate
                  Sample.unused_id
                  (mkAuthorBody (Some "  ") (Some "Austen") None None))
             Sample.library))
  = Sample.library
  /\ run (genre_update_post Sample.poetry_id (mkGenreBody (Some "ab")))
       Sample.library
     = (Return tt,
        mkWorld Sample.library
          [Render "genre_form"
             [("title", Text "ジャンル更新");
              ("genre", GenreDoc (Some (Genre.mk Sample.poetry_id "ab")));
              ("errors",
               Errors
                 [Validator.mkError "name"
                    "ジャンル名は3文字以上で入力してください" "ab"])]])
  /\ run (book_create_post Sample.unused_id
            (mkBookBody None (Some "65F1C0A1B2C3D4E5F6A70001") (Some "A novel")
               (Some "9780141439587") (Single "65F1C0A1B2C3D4E5F6A70022")))
       Sample.library
     = (Return tt,
        mkWorld Sample.library
          [Render "book_form"
             [("title", Text "本の作成");
              ("authors", AuthorDocs [Sample.adams; Sample.austen]);
              ("genres",
               GenreChoices [(Sample.fiction, false); (Sample.poetry, true)]);
              ("book",
               BookDoc
                 (Book.mk Sample.unused_id EmptyString
                    (Some Sample.austen_id) "A novel" "9780141439587"
                    [Sample.poetry_id]));
              ("errors",
               Errors
                 [Validator.mkError "title" "タイトルは必須です。"
                    EmptyString])]]).
Proof.
  destruct (post_with_errors_renders_form Sample.isISO8601 Sample.toDate
              Sample.unused_id Sample.poetry_id Sample.library)
    as (HA & HG & HB).
  refine (conj _ (conj _ _)).
  - destruct (HA (mkAuthorBody (Some "  ") (Some "Austen") None None))
      as [Hcreate _]; [split; reflexivity | discriminate|].
    rewrite Hcreate. reflexivity.
  - destruct (HG (mkGenreBody (Some "ab"))) as [_ Hupdate];
      [reflexivity | discriminate|].
    rewrite Hupdate. reflexivity.
  - destruct (HB (mkBookBody None (Some "65F1C0A1B2C3D4E5F6A70001")
                    (Some "A novel") (Some "9780141439587")
                    (Single "65F1C0A1B2C3D4E5F6A70022"))
                [Sample.poetry_id])
      as [Hcreate _];
      [repeat split | reflexivity | discriminate|].
    rewrite Hcreate. reflexivity.
Defined.

Lemma bookinstance_post_with_errors_witness :
  exists due,
    run (bookinstance_update_post Sample.isISO8601 Sample.toDate
           Sample.copy2_id
           (mkBookInstanceBody (Some " 65F1C0A1B2C3D4E5F6A70011") (Some " ")
              (Some "Loaned") (Some "2025-01-01")))
      Sample.library
    = (Return tt,
       mkWorld Sample.library
         [Render "bookinstance_form"
            [("title", Text "蔵書インスタンスの更新");
             ("book_list", BookDocs [Sample.emma; Sample.persuasion]);
             ("selected_book", Ref Sample.emma_id);
             ("errors",
              Errors
                [Validator.mkError "imprint" "出版情報を指定してください"
                   EmptyString]);
             ("bookinstance",
              BookInstanceDoc
                (BookInstance.mk Sample.copy2_id (Some Sample.emma_id)
                   EmptyString "Loaned" due))]])
    /\ due = Val 1735689600000%Z.
Proof.
  destruct (bookinstance_post_with_errors_renders_form
              Sample.isISO8601 Sample.toDate Sample.unused_id
              Sample.copy2_id
              (mkBookInstanceBody (Some " 65F1C0A1B2C3D4E5F6A70011")
                 (Some " ") (Some "Loaned") (Some "2025-01-01"))
              Sample.library Sample.emma_id)
    as [_ (due & Hdue & Hupdate)].
  - split; reflexivity.
  - reflexivity.
  - discriminate.
  - exists due. split; [rewrite Hupdate; reflexivity|].
    rewrite Hdue; [reflexivity | discriminate].
Defined.

Lemma blank_required_field_is_reported_witness :
  (In (Validator.mkError "first_name" "名は必須です。" EmptyString)
     (snd (author_chains Sample.isISO8601 Sample.toDate
             (mkAuthorBody None (Some " ") None None)))
   /\ In (Validator.mkError "family_name" "姓は必須です。" EmptyString)
        (snd (author_chains Sample.isISO8601 Sample.toDate
                (mkAuthorBody None (Some " ") None None))))
  /\ In (Validator.mkError "name"
           "ジャンル名は3文字以上で入力してください" EmptyString)
       (snd (genre_chains (mkGenreBody None)))
  /\ (In (Validator.mkError "title" "タイトルは必須です。" EmptyString)
        (snd (book_chains
                (genre_to_array
                   (mkBookBody None (Some "") (Some "  ") None Missing))))
      /\ In (Validator.mkError "author" "著者は必須です。" EmptyString)
           (snd (book_chains
                   (genre_to_array
                      (mkBookBody None (Some "") (Some "  ") None Missing))))
      /\ In (Validator.mkError "summary" "概要は必須です。" EmptyString)
           (snd (book_chains
                   (genre_to_array
                      (mkBookBody None (Some "") (Some "  ") None Missing))))
      /\ In (Validator.mkError "isbn" "ISBNは必須です" EmptyString)
           (snd (book_chains
                   (genre_to_array
                      (mkBookBody None (Some "") (Some "  ") None
                         Missing)))))
  /\ (In (Validator.mkError "book" "本を指定してください" EmptyString)
        (snd (bookinstance_chains Sample.isISO8601 Sample.toDate
                (mkBookInstanceBody None None None None)))
      /\ In (Validator.mkError "imprint" "出版情報を指定してください"
               EmptyString)
           (snd (bookinstance_chains Sample.isISO8601 Sample.toDate
                   (mkBookInstanceBody None None None None)))).
Proof.
  destruct (blank_required_field_is_reported Sample.isISO8601 Sample.toDate)
    as (HA & HG & HB & HI).
  refine (conj _ (conj _ (conj _ _))).
  - destruct (HA (mkAuthorBody None (Some " ") None None)) as [H1 H2].
    exact (conj (H1 eq_refl) (H2 eq_refl)).
  - exact (HG (mkGenreBody None) eq_refl).
  - destruct (HB (mkBookBody None (Some "") (Some "  ") None Missing))
      as (H1 & H2 & H3 & H4).
    exact (conj (H1 eq_refl)
             (conj (H2 eq_refl) (conj (H3 eq_refl) (H4 eq_refl)))).
  - destruct (HI (mkBookInstanceBody None None None None)) as [H1 H2].
    exact (conj (H1 eq_refl) (H2 eq_refl)).
Defined.

(** * What the chains let through *)

(** The characters that [escape] replaces, the ampersand apart, which it
    also writes. *)
Definition is_markup (c : ascii) : bool :=
  let n := nat_of_ascii c in
  (n =? 34) || (n =? 39) || (n =? 60) || (n =? 62) || (n =? 47)
  || (n =? 92) || (n =? 96).

(** A text that holds no quote, angle bracket, slash, backslash or
    backtick. *)
Definition markup_free (s : string) : Prop :=
  JS.all_chars (fun c => negb (is_markup c)) s = true.

Lemma all_chars_app (p : ascii -> bool) (a b : string) :
  JS.all_chars p (a ++ b) = JS.all_chars p a && JS.all_chars p b.
Proof.
  induction a as [|c a IH]; simpl; [reflexivity|].
  rewrite IH. apply andb_assoc.
Qed.

Lemma escape_char_markup_free (c : ascii) :
  markup_free (JS.escape_char c).
Proof.
  unfold markup_free.
  destruct c as [[|] [|] [|] [|] [|] [|] [|] [|]]; reflexivity.
Qed.

Lemma escape_markup_free (s : string) : markup_free (JS.escape s).
Proof.
  unfold markup_free. induction s as [|c r IH]; [reflexivity|].
  simpl. rewrite all_chars_app, IH.
  rewrite (escape_char_markup_free c). reflexivity.
Qed.

Lemma escape_char_alnum (c : ascii) (x : string) :
  JS.all_chars JS.is_alnum (JS.escape_char c ++ x) = true ->
  JS.escape_char c = String c EmptyString.
Proof.
  destruct c as [[|] [|] [|] [|] [|] [|] [|] [|]];
    try reflexivity; intros H; discriminate H.
Qed.

(** Escaping leaves a text alone when the result is alphanumeric. *)
Lemma escape_alnum (s : string) :
  JS.all_chars JS.is_alnum (JS.escape s) = true -> JS.escape s = s.
Proof.
  induction s as [|c r IH]; [reflexivity|]. simpl. intros H.
  pose proof (escape_char_alnum c _ H) as Hc.
  rewrite Hc in H |- *. simpl in H |- *.
  apply andb_true_iff in H. destruct H as [_ H]. now rewrite IH.
Qed.

Lemma isAlphanumeric_all (s : string) :
  JS.isAlphanumeric s = true ->
  s <> EmptyString /\ JS.all_chars JS.is_alnum s = true.
Proof. destruct s; [discriminate|]. intros H. split; [discriminate|exact H]. Qed.

Lemma name_chain_run (field m1 m2 : string) (v : posted_text) :
  Validator.body field
    [Validator.Sanitizer JS.trim; Validator.Check (JS.isLength 1) m1;
     Validator.Sanitizer JS.escape; Validator.Check JS.isAlphanumeric m2] v
  = (JS.escape (JS.trim (JS.toString v)),
     (if JS.isLength 1 (JS.trim (JS.toString v)) then []
      else [Validator.mkError field m1 (JS.trim (JS.toString v))])
     ++ (if JS.isAlphanumeric (JS.escape (JS.trim (JS.toString v))) then []
         else [Validator.mkError field m2
                 (JS.escape (JS.trim (JS.toString v)))])).
Proof.
  unfold Validator.body. simpl.
  destruct (JS.isLength 1 _), (JS.isAlphanumeric _); reflexivity.
Qed.

Lemma name_chain_passed (field m1 m2 : string) (v : posted_text) :
  snd (Validator.body field
         [Validator.Sanitizer JS.trim; Validator.Check (JS.isLength 1) m1;
          Validator.Sanitizer JS.escape;
          Validator.Check JS.isAlphanumeric m2] v) = [] ->
  fst (Validator.body field
         [Validator.Sanitizer JS.trim; Validator.Check (JS.isLength 1) m1;
          Validator.Sanitizer JS.escape;
          Validator.Check JS.isAlphanumeric m2] v)
  = JS.trim (JS.toString v)
  /\ JS.isAlphanumeric (JS.trim (JS.toString v)) = true.
Proof.
  rewrite name_chain_run. cbn [fst snd]. intros H.
  apply List.app_eq_nil in H. destruct H as [_ H].
  destruct (JS.isAlphanumeric (JS.escape (JS.trim (JS.toString v))))
    eqn:E; [|discriminate].
  pose proof (proj2 (isAlphanumeric_all _ E)) as Hall.
  apply escape_alnum in Hall. rewrite Hall in E |- *. auto.
Qed.

Lemma body_date_passed (isISO8601 : string -> bool)
  (toDate : string -> option date) (field message : string)
  (v : posted_text) :
  snd (Validator.body_date isISO8601 toDate field message v) = [] ->
  forall s, v = Some s -> s <> EmptyString -> isISO8601 s = true.
Proof.
  intros H s -> Hs. destruct s as [|c r]; [contradiction|].
  simpl in H. destruct (isISO8601 (String c r)); [reflexivity|discriminate].
Qed.

Section Sanitized.

Variable isISO8601 : string -> bool.
Variable toDate : string -> option date.

(** X8. Whatever the client posts, every text that a POST handler reads
    from the body after its chains holds no angle bracket, quote, slash,
    backslash or backtick: the names of an author, the name of a genre, the
    title, author, summary, ISBN and genre selection of a book, the book,
    imprint and status of a copy. *)
Theorem body_texts_are_escaped :
  (forall posted : author_body posted_text posted_text,
      markup_free (first_name (fst (author_chains isISO8601 toDate posted)))
      /\ markup_free
           (family_name (fst (author_chains isISO8601 toDate posted))))
  /\
  (forall posted : genre_body posted_text,
      markup_free (name (fst (genre_chains posted))))
  /\
  (forall posted : book_body posted_text,
      markup_free (title (fst (book_chains (genre_to_array posted))))
      /\ markup_free (author (fst (book_chains (genre_to_array posted))))
      /\ markup_free (summary (fst (book_chains (genre_to_array posted))))
      /\ markup_free (isbn (fst (book_chains (genre_to_array posted))))
      /\ Forall markup_free
           (castArray (genre (fst (book_chains (genre_to_array posted))))))
  /\
  (forall posted : bookinstance_body posted_text posted_text,
      markup_free
        (book (fst (bookinstance_chains isISO8601 toDate posted)))
      /\ markup_free
           (imprint (fst (bookinstance_chains isISO8601 toDate posted)))
      /\ markup_free
           (status (fst (bookinstance_chains isISO8601 toDate posted)))).
Proof.
  refine (conj _ (conj _ (conj _ _))); intros posted.
  - rewrite author_chains_run. cbn [fst first_name family_name].
    unfold first_name_chain, family_name_chain.
    rewrite !name_chain_run. cbn [fst].
    split; apply escape_markup_free.
  - rewrite genre_chains_run. cbn [fst name]. apply escape_markup_free.
  - rewrite book_chains_run. cbn [fst title author summary isbn genre].
    rewrite !required_chain_run. cbn [fst].
    refine (conj _ (conj _ (conj _ (conj _ _))));
      try apply escape_markup_free.
    unfold genre_to_array.
    destruct (genre posted) as [|v|l] eqn:E; simpl; rewrite ?E; simpl.
    + constructor.
    + constructor; [apply escape_markup_free | constructor].
    + apply Forall_forall. intros x Hx. apply List.in_map_iff in Hx.
      destruct Hx as (y & <- & _). apply escape_markup_free.
  - rewrite bookinstance_chains_run. cbn [fst book imprint status].
    rewrite !required_chain_run. cbn [fst].
    refine (conj _ (conj _ _)); apply escape_markup_free.
Qed.

(** X9. An author form that passes validation: each name the handler
    reads is exactly the posted name with the white space around it
    removed, and is a non-empty run of letters and digits; each date that
    was posted and is not empty is an ISO 8601 date. *)
Theorem valid_author_form :
  forall posted : author_body posted_text posted_text,
    snd (author_chains isISO8601 toDate posted) = [] ->
    (first_name (fst (author_chains isISO8601 toDate posted))
     = JS.trim (JS.toString (first_name posted))
     /\ JS.isAlphanumeric (JS.trim (JS.toString (first_name posted))) = true)
    /\
    (family_name (fst (author_chains isISO8601 toDate posted))
     = JS.trim (JS.toString (family_name posted))
     /\ JS.isAlphanumeric (JS.trim (JS.toString (family_name posted))) = true)
    /\
    (forall d, date_of_birth posted = Some d -> d <> EmptyString ->
               isISO8601 d = true)
    /\
    (forall d, date_of_death posted = Some d -> d <> EmptyString ->
               isISO8601 d = true).
Proof.
  intros posted. rewrite author_chains_run.
  cbn [fst snd first_name family_name]. intros H.
  apply app_nil_4 in H. destruct H as (H1 & H2 & H3 & H4).
  refine (conj _ (conj _ (conj _ _))).
  - now apply name_chain_passed in H1.
  - now apply name_chain_passed in H2.
  - now apply (body_date_passed _ _ _ _ _ H3).
  - now apply (body_date_passed _ _ _ _ _ H4).
Qed.

End Sanitized.

Lemma valid_author_form_witness :
  first_name
    (fst (author_chains Sample.isISO8601 Sample.toDate
            (mkAuthorBody (Some "  Jane ") (Some "Austen")
               (Some "2025-01-01") (Some ""))))
  = "Jane"
  /\ Sample.isISO8601 "2025-01-01" = true.
Proof.
  destruct (valid_author_form Sample.isISO8601 Sample.toDate
              (mkAuthorBody (Some "  Jane ") (Some "Austen")
                 (Some "2025-01-01") (Some "")) eq_refl)
    as ([Hfirst _] & _ & Hbirth & _).
  split.
  - rewrite Hfirst. reflexivity.
  - apply (Hbirth "2025-01-01"); [reflexivity | discriminate].
Defined.

(** * Creation, then the detail view *)




Section CreateThenDetail.

Variable isISO8601 : string -> bool.
Variable toDate : string -> option date.


End CreateThenDetail.


(** A genre whose name has two characters is refused by the chain, and a
    book whose author field is no ObjectId is refused by [save]: nothing
    is written, and the handler of the book rejects. *)
Lemma short_genre_name_is_refused :
  run (genre_create_post Sample.unused_id (mkGenreBody (Some "小説")))
    Sample.library
  = (Return tt,
     mkWorld Sample.library
       [Render "genre_form"
          [("title", Text "ジャンル作成");
           ("genre", GenreDoc (Some (Genre.mk Sample.unused_id "小説")));
           ("errors",
            Errors
              [Validator.mkError "name"
                 "ジャンル名は3文字以上で入力してください" "小説"])]]).
Proof. reflexivity. Qed.

Lemma uncastable_author_is_refused :
  snd (book_chains
         (genre_to_array
            (mkBookBody (Some "Emma") (Some "abc") (Some "A novel")
               (Some "9780141439587") Missing))) = []
  /\ run (book_create_post Sample.unused_id
            (mkBookBody (Some "Emma") (Some "abc") (Some "A novel")
               (Some "9780141439587") Missing))
       Sample.library
     = (Throw ValidationFailed, mkWorld Sample.library []).
Proof. split; reflexivity. Qed.

(** * Invariants of the store *)

(** No collection holds two documents with the same identifier. *)
Definition unique_ids (s : store) : Prop :=
  NoDup (List.map Author._id (authors s))
  /\ NoDup (List.map Book._id (books s))
  /\ NoDup (List.map Genre._id (genres s))
  /\ NoDup (List.map BookInstance._id (bookinstances s)).

(** A computation keeps a property of the store. *)
Definition keeps {A : Type} (P : store -> Prop) (m : M A) : Prop :=
  forall w, P (db w) -> P (db (snd (m w))).

Section Keeps.

Variable P : store -> Prop.

Lemma keeps_ret {A : Type} (a : A) : keeps P (ret a).
Proof. intros w H. exact H. Qed.

Lemma keeps_throw {A : Type} (e : error) : keeps P (@throw A e).
Proof. intros w H. exact H. Qed.

Lemma keeps_query {A : Type} (f : store -> A) : keeps P (query f).
Proof. intros w H. exact H. Qed.

Lemma keeps_res_render (view : string) (data : locals) :
  keeps P (res_render view data).
Proof. intros w H. exact H. Qed.

Lemma keeps_res_redirect (location : string) :
  keeps P (res_redirect location).
Proof. intros w H. exact H. Qed.

Lemma keeps_property_of {A : Type} (reading : string) (o : option A) :
  keeps P (property_of reading o).
Proof. intros w H. destruct o; exact H. Qed.

Lemma keeps_bind {A B : Type} (m : M A) (k : A -> M B) :
  keeps P m -> (forall a, keeps P (k a)) -> keeps P (bind m k).
Proof.
  intros Hm Hk w H. unfold bind. specialize (Hm w H).
  destruct (m w) as [[a|e] w']; simpl in Hm |- *; [now apply Hk | exact Hm].
Qed.

Lemma keeps_save {doc : Type} (id_of : doc -> oid) (validate : doc -> bool)
  (coll : store -> list doc)
  (put : (list doc -> list doc) -> store -> store) (d : doc) :
  (forall s, P s -> Model.findById id_of (id_of d) (coll s) = None ->
             P (put (Model.insert d) s)) ->
  keeps P (save id_of validate coll put d).
Proof.
  intros Hput w H. unfold save.
  destruct (validate d); simpl; [|exact H].
  unfold bind, query. simpl.
  destruct (Model.findById id_of (id_of d) (coll (db w))) eqn:E; simpl;
    [exact H | now apply Hput].
Qed.

Lemma keeps_findByIdAndUpdate {doc : Type} (id_of : doc -> oid)
  (set : doc -> doc -> doc) (coll : store -> list doc)
  (put : (list doc -> list doc) -> store -> store) (i : oid) (u : doc) :
  (forall s, P s -> P (put (Model.updateById id_of i (set u)) s)) ->
  keeps P (findByIdAndUpdate id_of set coll put i u).
Proof. intros Hput w H. simpl. now apply Hput. Qed.

Lemma keeps_findByIdAndDelete {doc : Type} (id_of : doc -> oid)
  (put : (list doc -> list doc) -> store -> store) (i : oid) :
  (forall s, P s -> P (put (Model.deleteById id_of i) s)) ->
  keeps P (findByIdAndDelete id_of put i).
Proof. intros Hput w H. simpl. now apply Hput. Qed.

End Keeps.

Section IdentifierFacts.

Context {doc : Type}.
Variable id_of : doc -> oid.

Lemma findById_none_notin (i : oid) (c : list doc) :
  Model.findById id_of i c = None -> ~ In i (List.map id_of c).
Proof.
  unfold Model.findById. intros H Hin.
  apply List.in_map_iff in Hin. destruct Hin as (d & Heq & Hd).
  apply (List.find_none _ _ H) in Hd.
  rewrite Heq, String.eqb_refl in Hd. discriminate.
Qed.

Lemma insert_ids_unique (d : doc) (c : list doc) :
  Model.findById id_of (id_of d) c = None ->
  NoDup (List.map id_of c) ->
  NoDup (List.map id_of (Model.insert d c)).
Proof.
  intros Hnone Hnd. unfold Model.insert. rewrite List.map_app. simpl.
  apply findById_none_notin in Hnone.
  apply NoDup_app; [exact Hnd | repeat constructor; simpl; tauto |].
  intros x Hx [<-|[]]. contradiction.
Qed.

Lemma updateById_ids (i : oid) (apply : doc -> doc) (c : list doc) :
  (forall x, id_of (apply x) = id_of x) ->
  List.map id_of (Model.updateById id_of i apply c) = List.map id_of c.
Proof.
  intros Hid. induction c as [|x rest IH]; simpl; [reflexivity|].
  destruct (String.eqb (id_of x) i); simpl; [now rewrite Hid|].
  now rewrite IH.
Qed.

Lemma deleteById_ids_unique (i : oid) (c : list doc) :
  NoDup (List.map id_of c) ->
  NoDup (List.map id_of (Model.deleteById id_of i c)).
Proof.
  induction c as [|x rest IH]; simpl; intros Hnd; [constructor|].
  inversion Hnd as [|? ? Hnotin Hrest]; subst.
  destruct (String.eqb (id_of x) i); [exact Hrest|].
  simpl. constructor; [|now apply IH].
  intros Hin. apply Hnotin.
  apply List.in_map_iff in Hin. destruct Hin as (y & Heq & Hy).
  apply List.in_map_iff. exists y. split; [exact Heq|].
  now apply (deleteById_incl id_of i rest y).
Qed.

End IdentifierFacts.

Lemma unique_ids_with_authors (f : list Author.t -> list Author.t)
  (s : store) :
  unique_ids s -> NoDup (List.map Author._id (f (authors s))) ->
  unique_ids (with_authors f s).
Proof. intros (_ & Hb & Hg & Hi) Ha. repeat split; assumption. Qed.

Lemma unique_ids_with_books (f : list Book.t -> list Book.t) (s : store) :
  unique_ids s -> NoDup (List.map Book._id (f (books s))) ->
  unique_ids (with_books f s).
Proof. intros (Ha & _ & Hg & Hi) Hb. repeat split; assumption. Qed.

Lemma unique_ids_with_genres (f : list Genre.t -> list Genre.t) (s : store) :
  unique_ids s -> NoDup (List.map Genre._id (f (genres s))) ->
  unique_ids (with_genres f s).
Proof. intros (Ha & Hb & _ & Hi) Hg. repeat split; assumption. Qed.

Lemma unique_ids_with_bookinstances
  (f : list BookInstance.t -> list BookInstance.t) (s : store) :
  unique_ids s -> NoDup (List.map BookInstance._id (f (bookinstances s))) ->
  unique_ids (with_bookinstances f s).
Proof. intros (Ha & Hb & Hg & _) Hi. repeat split; assumption. Qed.

(** Closes the goal of a write, for the uniqueness of identifiers. *)
Ltac unique_write :=
  first
    [ apply keeps_save; intros ? ? ?
    | apply keeps_findByIdAndUpdate; intros ? ?
    | apply keeps_findByIdAndDelete; intros ? ? ];
  first
    [ apply unique_ids_with_authors | apply unique_ids_with_books
    | apply unique_ids_with_genres | apply unique_ids_with_bookinstances ];
  try assumption;
  first
    [ apply insert_ids_unique; [assumption|]
    | rewrite updateById_ids by (intros; reflexivity)
    | apply deleteById_ids_unique ];
  match goal with
  | U : unique_ids _ |- _ => apply U
  end.

(** Takes a handler apart, closing each write with [write]. *)
Ltac keeps_steps write :=
  repeat first
    [ write
    | apply keeps_ret | apply keeps_throw | apply keeps_query
    | apply keeps_res_render | apply keeps_res_redirect
    | apply keeps_property_of
    | apply keeps_bind; [|intros ?]
    | match goal with
      | |- keeps _ (match ?x with _ => _ end) => destruct x
      end ].

Ltac from_keeps H :=
  unfold run;
  match goal with
  | |- ?P (db (snd (?h (mkWorld ?s [])))) =>
      cut (keeps P h); [intros K; exact (K (mkWorld s []) H)|]
  end.

Section UniqueIdentifiers.

Variable isISO8601 : string -> bool.
Variable toDate : string -> option date.

(** X11. The twelve POST handlers keep the identifiers of every
    collection unique: served from a store in which no collection holds
    an identifier twice, each of them leaves such a store, whatever the
    body and the identifiers of the request. *)
Theorem post_handlers_keep_ids_unique :
  forall (new_id params_id : oid) (s : store),
    unique_ids s ->
    (forall posted,
        unique_ids
          (db (snd (run (author_create_post isISO8601 toDate new_id posted)
                      s))))
    /\ (forall posted,
           unique_ids
             (db (snd (run (author_update_post isISO8601 toDate params_id
                              posted) s))))
    /\ (forall body,
           unique_ids (db (snd (run (author_delete_post params_id body) s))))
    /\ (forall posted,
           unique_ids (db (snd (run (genre_create_post new_id posted) s))))
    /\ (forall posted,
           unique_ids (db (snd (run (genre_update_post params_id posted) s))))
    /\ (forall body,
           unique_ids (db (snd (run (genre_delete_post params_id body) s))))
    /\ (forall posted,
           unique_ids (db (snd (run (book_create_post new_id posted) s))))
    /\ (forall posted,
           unique_ids (db (snd (run (book_update_post params_id posted) s))))
    /\ (forall body,
           unique_ids (db (snd (run (book_delete_post params_id body) s))))
    /\ (forall posted,
           unique_ids
             (db (snd (run (bookinstance_create_post isISO8601 toDate new_id
                              posted) s))))
    /\ (forall posted,
           unique_ids
             (db (snd (run (bookinstance_update_post isISO8601 toDate
                              params_id posted) s))))
    /\ (forall body,
           unique_ids (db (snd (run (bookinstance_delete_post body) s)))).
Proof.
  intros new_id params_id s H.
  refine (conj _ (conj _ (conj _ (conj _ (conj _ (conj _ (conj _ (conj _
           (conj _ (conj _ (conj _ _)))))))))));
    intros x; from_keeps H.
  - unfold author_create_post. keeps_steps unique_write.
  - unfold author_update_post. keeps_steps unique_write.
  - unfold author_delete_post. keeps_steps unique_write.
  - unfold genre_create_post. keeps_steps unique_write.
  - unfold genre_update_post. keeps_steps unique_write.
  - unfold genre_delete_post. keeps_steps unique_write.
  - unfold book_create_post, book_create_handler. keeps_steps unique_write.
  - unfold book_update_post, book_update_handler. keeps_steps unique_write.
  - unfold book_delete_post. keeps_steps unique_write.
  - unfold bookinstance_create_post. keeps_steps unique_write.
  - unfold bookinstance_update_post. keeps_steps unique_write.
  - unfold bookinstance_delete_post. keeps_steps unique_write.
Qed.

End UniqueIdentifiers.

Lemma sample_unique_ids : unique_ids Sample.library.
Proof.
  repeat split; repeat constructor; simpl; intuition discriminate.
Qed.

Lemma post_handlers_keep_ids_unique_witness :
  unique_ids Sample.library
  /\ unique_ids
       (db (snd (run (genre_create_post Sample.unused_id
                        (mkGenreBody (Some "Drama"))) Sample.library)))
  /\ unique_ids
       (db (snd (run (book_delete_post Sample.unused_id
                        (mkIdBody Sample.emma_id)) Sample.library))).
Proof.
  pose proof (post_handlers_keep_ids_unique Sample.isISO8601 Sample.toDate
                Sample.unused_id Sample.unused_id Sample.library
                sample_unique_ids)
    as (_ & _ & _ & HG & _ & _ & _ & _ & HB & _).
  exact (conj sample_unique_ids
           (conj (HG (mkGenreBody (Some "Drama")))
              (HB (mkIdBody Sample.emma_id)))).
Defined.

(** No two stored genres have the same name when the case of letters is
    ignored. *)
Definition genre_names_unique (s : store) : Prop :=
  NoDup (List.map (fun g => JS.toLowerCase (Genre.name g)) (genres s)).

(** X12. The create handler of Genre keeps the names of the stored
    genres distinct up to the case of letters, whatever is posted and
    whatever identifier is generated. *)
Theorem genre_create_post_keeps_names_unique :
  forall (new_id : oid) (posted : genre_body posted_text) (s : store),
    genre_names_unique s ->
    genre_names_unique (db (snd (run (genre_create_post new_id posted) s))).
Proof.
  intros new_id posted s H. unfold run, genre_create_post.
  destruct (genre_chains posted) as [body errors].
  destruct errors; simpl; [|exact H].
  unfold bind, query. simpl.
  destruct (Model.findOne (Genre.same_name (name body)) (genres s))
    as [existing|] eqn:Efind; simpl; [exact H|].
  unfold save.
  destruct (Genre.validate _); simpl; [|exact H].
  unfold bind, query. simpl.
  destruct (Model.findById Genre._id new_id (genres s)); simpl; [exact H|].
  unfold genre_names_unique, Model.insert. simpl.
  rewrite List.map_app. simpl.
  apply NoDup_app; [exact H | repeat constructor; simpl; tauto |].
  intros x Hx [<-|[]].
  apply List.in_map_iff in Hx. destruct Hx as (g & Heq & Hin).
  unfold Model.findOne in Efind.
  apply (List.find_none _ _ Efind) in Hin.
  unfold Genre.same_name in Hin. rewrite Heq, String.eqb_refl in Hin.
  discriminate.
Qed.

Lemma genre_create_post_keeps_names_unique_witness :
  genre_names_unique Sample.library
  /\ genre_names_unique
       (db (snd (run (genre_create_post Sample.unused_id
                        (mkGenreBody (Some "POETRY"))) Sample.library)))
  /\ genre_names_unique
       (db (snd (run (genre_create_post Sample.unused_id
                        (mkGenreBody (Some "Drama"))) Sample.library))).
Proof.
  assert (H : genre_names_unique Sample.library).
  { repeat constructor; simpl; intuition discriminate. }
  exact (conj H
           (conj (genre_create_post_keeps_names_unique Sample.unused_id
                    (mkGenreBody (Some "POETRY")) Sample.library H)
              (genre_create_post_keeps_names_unique Sample.unused_id
                 (mkGenreBody (Some "Drama")) Sample.library H))).
Defined.

Lemma updateById_other_stays {doc : Type} (id_of : doc -> oid) (i : oid)
  (apply : doc -> doc) (c : list doc) (d : doc) :
  In d c -> id_of d <> i -> In d (Model.updateById id_of i apply c).
Proof.
  intros Hin Hne. induction c as [|x rest IH]; simpl; [contradiction|].
  destruct Hin as [->|Hin].
  - destruct (String.eqb (id_of d) i) eqn:E; [|now left].
    apply String.eqb_eq in E. contradiction.
  - destruct (String.eqb (id_of x) i); right; [exact Hin | now apply IH].
Qed.

Lemma updateById_updated_in {doc : Type} (id_of : doc -> oid) (i : oid)
  (apply : doc -> doc) (c : list doc) (d : doc) :
  Model.findById id_of i c = Some d ->
  In (apply d) (Model.updateById id_of i apply c).
Proof.
  unfold Model.findById. induction c as [|x rest IH]; simpl; [discriminate|].
  destruct (String.eqb (id_of x) i).
  - intros H. injection H as ->. now left.
  - intros H. right. now apply IH.
Qed.

(** X13. The update handler of Genre makes no such check: a valid update
    that gives a stored genre the name of another stored genre, case
    ignored, leaves two genres of that name in the store. *)
Theorem genre_update_post_allows_same_name :
  forall (params_id : oid) (posted : genre_body posted_text) (s : store)
         (old other : Genre.t),
    snd (genre_chains posted) = [] ->
    Model.findById Genre._id params_id (genres s) = Some old ->
    In other (genres s) ->
    Genre._id other <> params_id ->
    equal_ignoring_case (Genre.name other) (name (fst (genre_chains posted))) ->
    exists renamed,
      In renamed
        (genres (db (snd (run (genre_update_post params_id posted) s))))
      /\ In other
           (genres (db (snd (run (genre_update_post params_id posted) s))))
      /\ Genre._id renamed = params_id
      /\ Genre._id renamed <> Genre._id other
      /\ equal_ignoring_case (Genre.name renamed) (Genre.name other).
Proof.
  intros params_id posted s old other Hvalid Hold Hin Hne Hsame.
  destruct (findById_some _ _ _ _ Hold) as [_ Hid].
  unfold run, genre_update_post.
  destruct (genre_chains posted) as [body errors].
  cbn [fst snd] in Hvalid, Hsame. subst errors. simpl.
  exists (Genre.set (Genre.mk params_id (name body)) old).
  refine (conj _ (conj _ (conj Hid (conj _ _)))).
  - now apply updateById_updated_in.
  - now apply updateById_other_stays.
  - simpl. rewrite Hid. congruence.
  - simpl. unfold equal_ignoring_case in *. congruence.
Qed.

Lemma genre_update_post_allows_same_name_witness :
  exists renamed,
    In renamed
      (genres
         (db (snd (run (genre_update_post Sample.poetry_id
                          (mkGenreBody (Some "FICTION"))) Sample.library))))
    /\ Genre._id renamed = Sample.poetry_id
    /\ equal_ignoring_case (Genre.name renamed) (Genre.name Sample.fiction).
Proof.
  destruct (genre_update_post_allows_same_name Sample.poetry_id
              (mkGenreBody (Some "FICTION")) Sample.library
              Sample.poetry Sample.fiction eq_refl eq_refl)
    as (renamed & Hin & _ & Hid & _ & Hname).
  - simpl. tauto.
  - discriminate.
  - reflexivity.
  - exists renamed. exact (conj Hin (conj Hid Hname)).
Defined.

(** * Deletion, continued *)

(** X14. The delete-POST handler of BookInstance makes no check: it
    removes the copy named by the body and redirects to the list.  Every
    other identifier resolves as before, the other collections are left
    as they were and, the identifiers being unique, the identifier of the
    body resolves to nothing afterwards. *)
Theorem bookinstance_delete_post_removes_copy :
  forall (body : id_body) (s : store),
    res (snd (run (bookinstance_delete_post body) s))
    = [Redirect "/catalog/bookinstances"]
    /\ (forall j, j <> id body ->
                  Model.findById BookInstance._id j
                    (bookinstances
                       (db (snd (run (bookinstance_delete_post body) s))))
                  = Model.findById BookInstance._id j (bookinstances s))
    /\ (NoDup (List.map BookInstance._id (bookinstances s)) ->
        Model.findById BookInstance._id (id body)
          (bookinstances (db (snd (run (bookinstance_delete_post body) s))))
        = None)
    /\ authors (db (snd (run (bookinstance_delete_post body) s))) = authors s
    /\ books (db (snd (run (bookinstance_delete_post body) s))) = books s
    /\ genres (db (snd (run (bookinstance_delete_post body) s))) = genres s.
Proof.
  intros body s.
  refine (conj eq_refl (conj _ (conj _ (conj eq_refl (conj eq_refl eq_refl))))).
  - intros j Hne. simpl. now apply deleteById_other.
  - intros Hnd. simpl. now apply deleteById_gone.
Qed.

Lemma bookinstance_delete_post_removes_copy_witness :
  Model.findById BookInstance._id Sample.copy2_id
    (bookinstances
       (db (snd (run (bookinstance_delete_post (mkIdBody Sample.copy1_id))
                   Sample.library))))
  = Some Sample.copy2
  /\ Model.findById BookInstance._id Sample.copy1_id
       (bookinstances
          (db (snd (run (bookinstance_delete_post (mkIdBody Sample.copy1_id))
                      Sample.library))))
     = None.
Proof.
  destruct (bookinstance_delete_post_removes_copy
              (mkIdBody Sample.copy1_id) Sample.library)
    as (_ & Hother & Hgone & _).
  split.
  - rewrite Hother; [reflexivity | discriminate].
  - apply Hgone. apply sample_unique_ids.
Defined.

(** X15. A delete-POST of an author, a genre or a book whose body names
    the record of the URL, served from a store with unique identifiers in
    which nothing refers to that record: the response redirects to the
    list, the detail handler then finds no record under the identifier,
    every other identifier resolves as before and the other collections
    are left as they were. *)
Theorem delete_post_removes_exactly :
  forall (params_id : oid) (s : store),
    unique_ids s ->
    ((forall b, In b (books s) -> Book.author b <> Some params_id) ->
     let s' :=
       db (snd (run (author_delete_post params_id
                       (mkAuthoridBody params_id)) s)) in
     response (snd (run (author_delete_post params_id
                           (mkAuthoridBody params_id)) s))
     = Some (Redirect "/catalog/authors")
     /\ fst (serve (author_detail params_id) s')
        = Return (Some (mkHttpError "著者が見つかりません" 404))
     /\ (forall j, j <> params_id ->
                   Model.findById Author._id j (authors s')
                   = Model.findById Author._id j (authors s))
     /\ books s' = books s /\ genres s' = genres s
     /\ bookinstances s' = bookinstances s)
    /\
    ((forall b, In b (books s) -> ~ In params_id (Book.genre b)) ->
     let s' :=
       db (snd (run (genre_delete_post params_id (mkIdBody params_id)) s)) in
     response (snd (run (genre_delete_post params_id (mkIdBody params_id)) s))
     = Some (Redirect "/catalog/genres")
     /\ fst (serve (genre_detail params_id) s')
        = Return (Some (mkHttpError "ジャンルが見つかりません" 404))
     /\ (forall j, j <> params_id ->
                   Model.findById Genre._id j (genres s')
                   = Model.findById Genre._id j (genres s))
     /\ authors s' = authors s /\ books s' = books s
     /\ bookinstances s' = bookinstances s)
    /\
    ((forall c, In c (bookinstances s) ->
                BookInstance.book c <> Some params_id) ->
     let s' :=
       db (snd (run (book_delete_post params_id (mkIdBody params_id)) s)) in
     response (snd (run (book_delete_post params_id (mkIdBody params_id)) s))
     = Some (Redirect "/catalog/books")
     /\ fst (serve (book_detail params_id) s')
        = Return (Some (mkHttpError "本が見つかりません" 404))
     /\ (forall j, j <> params_id ->
                   Model.findById Book._id j (books s')
                   = Model.findById Book._id j (books s))
     /\ authors s' = authors s /\ genres s' = genres s
     /\ bookinstances s' = bookinstances s).
Proof.
  intros params_id s (Ua & Ub & Ug & Ui).
  refine (conj _ (conj _ _)); intros Hnone.
  - assert (G : (0 <? List.length
                   (Model.find (Book.by_author params_id) (books s)))
                = false).
    { apply guard_false. intros b Hin.
      destruct (Book.by_author params_id b) eqn:E; trivial.
      apply by_author_true in E. now apply Hnone in Hin. }
    unfold run, serve, response, author_delete_post, author_detail, bind,
      query.
    simpl. rewrite G. simpl.
    rewrite (deleteById_gone Author._id params_id (authors s) Ua).
    refine (conj eq_refl (conj eq_refl (conj _ (conj eq_refl
             (conj eq_refl eq_refl))))).
    intros j Hne. now apply deleteById_other.
  - assert (G : (0 <? List.length
                   (Model.find (Book.by_genre params_id) (books s)))
                = false).
    { apply guard_false. intros b Hin.
      destruct (Book.by_genre params_id b) eqn:E; trivial.
      apply by_genre_true in E. now apply Hnone in Hin. }
    unfold run, serve, response, genre_delete_post, genre_detail, bind,
      query.
    simpl. rewrite G. simpl.
    rewrite (deleteById_gone Genre._id params_id (genres s) Ug).
    refine (conj eq_refl (conj eq_refl (conj _ (conj eq_refl
             (conj eq_refl eq_refl))))).
    intros j Hne. now apply deleteById_other.
  - assert (G : (0 <? List.length
                   (Model.find (BookInstance.by_book params_id)
                      (bookinstances s))) = false).
    { apply guard_false. intros c Hin.
      destruct (BookInstance.by_book params_id c) eqn:E; trivial.
      apply by_book_true in E. now apply Hnone in Hin. }
    unfold run, serve, response, book_delete_post, book_detail, bind, query.
    simpl.
    destruct (Model.findById Book._id params_id (books s)); simpl;
      rewrite G; simpl;
      rewrite (deleteById_gone Book._id params_id (books s) Ub);
      (refine (conj eq_refl (conj eq_refl (conj _ (conj eq_refl
                (conj eq_refl eq_refl))))));
      intros j Hne; now apply deleteById_other.
Qed.

Lemma delete_post_removes_exactly_witness :
  fst (serve (author_detail Sample.adams_id)
         (db (snd (run (author_delete_post Sample.adams_id
                          (mkAuthoridBody Sample.adams_id))
                     Sample.library))))
  = Return (Some (mkHttpError "著者が見つかりません" 404))
  /\ Model.findById Genre._id Sample.fiction_id
       (genres
          (db (snd (run (genre_delete_post Sample.poetry_id
                           (mkIdBody Sample.poetry_id)) Sample.library))))
     = Some Sample.fiction
  /\ response
       (snd (run (book_delete_post Sample.unused_id
                    (mkIdBody Sample.unused_id)) Sample.library))
     = Some (Redirect "/catalog/books").
Proof.
  destruct (delete_post_removes_exactly Sample.adams_id Sample.library
              sample_unique_ids) as (HA & _).
  destruct (delete_post_removes_exactly Sample.poetry_id Sample.library
              sample_unique_ids) as (_ & HG & _).
  destruct (delete_post_removes_exactly Sample.unused_id Sample.library
              sample_unique_ids) as (_ & _ & HB).
  refine (conj _ (conj _ _)).
  - apply HA. intros b [<-|[<-|[]]]; discriminate.
  - destruct HG as (_ & _ & Hother & _).
    + intros b [<-|[<-|[]]]; simpl; intros [E|[]]; discriminate.
    + rewrite Hother; [reflexivity | discriminate].
  - apply HB. intros c [<-|[<-|[]]]; discriminate.
Defined.

(** * The home page *)

(** X16. On the home page the count of available copies never exceeds
    the count of copies.  After a delete-POST of a copy the count of
    copies is one less when the body named a stored copy and is the same
    when it did not; the counts of books, authors and genres are the
    same. *)
Theorem index_counts_copies :
  forall (s : store),
    book_instance_available_count (snd (index s))
    <= book_instance_count (snd (index s))
    /\ forall body : id_body,
        let s' := db (snd (run (bookinstance_delete_post body) s)) in
        (forall copy,
            Model.findById BookInstance._id (id body) (bookinstances s)
            = Some copy ->
            S (book_instance_count (snd (index s')))
            = book_instance_count (snd (index s)))
        /\ (Model.findById BookInstance._id (id body) (bookinstances s)
            = None ->
            snd (index s') = snd (index s))
        /\ book_count (snd (index s')) = book_count (snd (index s))
        /\ author_count (snd (index s')) = author_count (snd (index s))
        /\ genre_count (snd (index s')) = genre_count (snd (index s)).
Proof.
  intros s. split.
  - unfold index, countDocuments. simpl. rewrite find_all.
    apply List.filter_length_le.
  - intros body.
    refine (conj _ (conj _ (conj eq_refl (conj eq_refl eq_refl)))).
    + intros copy Hfound. unfold index, countDocuments. simpl.
      rewrite !find_all. now apply (deleteById_length _ _ _ copy).
    + intros Hnone. unfold index. simpl.
      unfold Model.findById in Hnone.
      assert (E : Model.deleteById BookInstance._id (id body)
                    (bookinstances s) = bookinstances s).
      { induction (bookinstances s) as [|x rest IH]; [reflexivity|].
        simpl in Hnone |- *.
        destruct (String.eqb (BookInstance._id x) (id body));
          [discriminate|].
        now rewrite IH. }
      now rewrite E.
Qed.

Lemma index_counts_copies_witness :
  book_instance_count (snd (index Sample.library)) = 2
  /\ book_instance_count
       (snd (index
               (db (snd (run (bookinstance_delete_post
                                (mkIdBody Sample.copy1_id))
                           Sample.library)))))
     = 1
  /\ snd (index
            (db (snd (run (bookinstance_delete_post
                             (mkIdBody Sample.unused_id))
                        Sample.library))))
     = snd (index Sample.library).
Proof.
  destruct (index_counts_copies Sample.library) as [_ H].
  destruct (H (mkIdBody Sample.copy1_id)) as (Hsome & _).
  destruct (H (mkIdBody Sample.unused_id)) as (_ & Hnone & _).
  refine (conj eq_refl (conj _ (Hnone eq_refl))).
  pose proof (Hsome Sample.copy1 eq_refl) as E.
  apply eq_add_S. rewrite E. reflexivity.
Defined.

(** * The forms of a book and of a copy *)

Lemma check_genres_fst (b : Book.t) (all : list Genre.t) :
  List.map fst (check_genres b all) = all.
Proof.
  unfold check_genres. rewrite List.map_map. simpl. apply List.map_id.
Qed.

Lemma check_genres_flag (b : Book.t) (all : list Genre.t) (g : Genre.t)
  (flag : bool) :
  In (g, flag) (check_genres b all) ->
  (flag = true <-> In (Genre._id g) (Book.genre b)).
Proof.
  unfold check_genres. intros H. apply List.in_map_iff in H.
  destruct H as (x & E & _). injection E as -> <-.
  unfold Book.has_genre. rewrite List.existsb_exists. split.
  - intros (y & Hy & Heq). apply String.eqb_eq in Heq. now subst.
  - intros Hin. exists (Genre._id g).
    split; [exact Hin | apply String.eqb_refl].
Qed.

(** X17. The update form of a stored book offers every stored author by
    family name and every stored genre by name, and marks a genre exactly
    when the book holds its identifier; the book comes with its author
    looked up. *)
Theorem book_update_get_marks_genres :
  forall (params_id : oid) (s : store) (b : Book.t),
    Model.findById Book._id params_id (books s) = Some b ->
    exists data,
      book_update_get params_id s = Rendered "book_form" data
      /\ form_title data = "本の更新"
      /\ form_book data = (b, populate_author s b)
      /\ Permutation (form_authors data) (authors s)
      /\ Sorted (ascending Author.family_name) (form_authors data)
      /\ Permutation (List.map fst (form_genres data)) (genres s)
      /\ Sorted (ascending Genre.name) (List.map fst (form_genres data))
      /\ forall g flag,
          In (g, flag) (form_genres data) ->
          (flag = true <-> In (Genre._id g) (Book.genre b)).
Proof.
  intros params_id s b Hfound. unfold book_update_get. rewrite Hfound.
  simpl. eexists. split; [reflexivity|]. simpl.
  rewrite check_genres_fst.
  refine (conj eq_refl (conj eq_refl (conj _ (conj _ (conj _ (conj _ _)))))).
  - apply sort_perm.
  - apply sort_sorted.
  - apply sort_perm.
  - apply sort_sorted.
  - intros g flag. apply check_genres_flag.
Qed.

Lemma book_update_get_marks_genres_witness :
  exists data,
    book_update_get Sample.emma_id Sample.library = Rendered "book_form" data
    /\ form_genres data = [(Sample.fiction, true); (Sample.poetry, false)].
Proof.
  destruct (book_update_get_marks_genres Sample.emma_id Sample.library
              Sample.emma eq_refl) as (data & Hrun & _).
  exists data. split; [exact Hrun|].
  assert (E : Rendered "book_form" data
              = book_update_get Sample.emma_id Sample.library)
    by (symmetry; exact Hrun).
  injection E as ->. reflexivity.
Defined.

(** X18. The form that a failed create-POST of a book renders offers the
    same authors and the same genres, in the same order, as the empty
    form of the create-GET route, and marks a genre exactly when the
    posted selection holds its identifier.  The form of a failed
    create-POST of a copy lists the same books as its empty form.  The
    texts are taken without variation selectors; each element of the
    genre selection, and the book field of the copy, is the text of an
    ObjectId. *)
Theorem failed_create_offers_same_lists :
  forall (new_id : oid) (s : store),
    (forall (posted : book_body posted_text) (genre_ids : list oid),
        plain_book posted ->
        castObjectIds (List.map JS.escape (castArray (genre posted)))
        = Some genre_ids ->
        snd (book_chains (genre_to_array posted)) <> [] ->
        let body := fst (book_chains (genre_to_array posted)) in
        exists offered_authors offered_genres marks,
          run book_create_get s
          = (Return tt,
             mkWorld s
               [Render "book_form"
                  [("title", Text "本の作成");
                   ("authors", AuthorDocs offered_authors);
                   ("genres", GenreDocs offered_genres)]])
          /\ run (book_create_post new_id posted) s
             = (Return tt,
                mkWorld s
                  [Render "book_form"
                     [("title", Text "本の作成");
                      ("authors", AuthorDocs offered_authors);
                      ("genres", GenreChoices marks);
                      ("book",
                       BookDoc
                         (Book.mk new_id (title body)
                            (castObjectId (author body)) (summary body)
                            (isbn body) genre_ids));
                      ("errors",
                       Errors (snd (book_chains (genre_to_array posted))))]])
          /\ List.map fst marks = offered_genres
          /\ forall g flag,
              In (g, flag) marks ->
              (flag = true <-> In (Genre._id g) genre_ids))
    /\
    (forall (isISO8601 : string -> bool) (toDate : string -> option date)
            (posted : bookinstance_body posted_text posted_text)
            (selected : oid),
        plain_bookinstance posted ->
        castObjectId
          (book (fst (bookinstance_chains isISO8601 toDate posted)))
        = Some selected ->
        snd (bookinstance_chains isISO8601 toDate posted) <> [] ->
        let body := fst (bookinstance_chains isISO8601 toDate posted) in
        exists offered_books due,
          run bookinstance_create_get s
          = (Return tt,
             mkWorld s
               [Render "bookinstance_form"
                  [("title", Text "蔵書インスタンスの作成");
                   ("book_list", BookDocs offered_books)]])
          /\ (due_back posted <> None -> due = castDate (due_back body))
          /\ run (bookinstance_create_post isISO8601 toDate new_id posted) s
             = (Return tt,
                mkWorld s
                  [Render "bookinstance_form"
                     [("title", Text "蔵書インスタンスの作成");
                      ("book_list", BookDocs offered_books);
                      ("selected_book", Ref selected);
                      ("errors",
                       Errors
                         (snd (bookinstance_chains isISO8601 toDate posted)));
                      ("bookinstance",
                       BookInstanceDoc
                         (BookInstance.mk new_id (Some selected)
                            (imprint body) (status body) due))]])).
Proof.
  intros new_id s. split.
  - intros posted genre_ids _ Hcast Herr body.
    pose proof (book_create_post_invalid new_id posted s Herr) as H.
    cbv zeta in H. rewrite Hcast in H. cbn [or_empty] in H.
    eexists. eexists. eexists.
    split; [reflexivity|].
    split; [exact H|].
    split; [apply check_genres_fst|].
    intros g flag Hin. apply check_genres_flag in Hin. exact Hin.
  - intros isISO8601 toDate posted selected _ Hcast Herr body.
    eexists. exists (castDate (due_back body)).
    split; [reflexivity|]. split; [reflexivity|].
    exact (bookinstance_create_post_invalid isISO8601 toDate new_id
             posted s selected Hcast Herr).
Qed.

Lemma failed_create_offers_same_lists_witness :
  (exists marks,
      run (book_create_post Sample.unused_id
             (mkBookBody None (Some "65F1C0A1B2C3D4E5F6A70001") (Some "A novel")
                (Some "9780141439587") (Single "65F1C0A1B2C3D4E5F6A70022")))
        Sample.library
      = (Return tt,
         mkWorld Sample.library
           [Render "book_form"
              [("title", Text "本の作成");
               ("authors", AuthorDocs [Sample.adams; Sample.austen]);
               ("genres", GenreChoices marks);
               ("book",
                BookDoc
                  (Book.mk Sample.unused_id EmptyString
                     (Some Sample.austen_id) "A novel" "9780141439587"
                     [Sample.poetry_id]));
               ("errors",
                Errors
                  [Validator.mkError "title" "タイトルは必須です。"
                     EmptyString])]])
      /\ List.map fst marks = [Sample.fiction; Sample.poetry])
  /\ exists due,
      run (bookinstance_create_post Sample.isISO8601 Sample.toDate
             Sample.unused_id
             (mkBookInstanceBody (Some "65F1C0A1B2C3D4E5F6A70011") None
                (Some "Loaned") (Some "")))
        Sample.library
      = (Return tt,
         mkWorld Sample.library
           [Render "bookinstance_form"
              [("title", Text "蔵書インスタンスの作成");
               ("book_list", BookDocs [Sample.emma; Sample.persuasion]);
               ("selected_book", Ref Sample.emma_id);
               ("errors",
                Errors
                  [Validator.mkError "imprint" "出版情報を指定してください"
                     EmptyString]);
               ("bookinstance",
                BookInstanceDoc
                  (BookInstance.mk Sample.unused_id (Some Sample.emma_id)
                     EmptyString "Loaned" due))]])
      /\ due = Null.
Proof.
  destruct (failed_create_offers_same_lists Sample.unused_id Sample.library)
    as [HB HI].
  split.
  - destruct (HB (mkBookBody None (Some "65F1C0A1B2C3D4E5F6A70001")
                    (Some "A novel") (Some "9780141439587")
                    (Single "65F1C0A1B2C3D4E5F6A70022"))
                [Sample.poetry_id])
      as (la & lg & marks & Hget & Hpost & Hfst & _);
      [repeat split | reflexivity | discriminate|].
    injection Hget as <- <-.
    exists marks. split; [exact Hpost | exact Hfst].
  - destruct (HI Sample.isISO8601 Sample.toDate
                (mkBookInstanceBody (Some "65F1C0A1B2C3D4E5F6A70011") None
                   (Some "Loaned") (Some "")) Sample.emma_id)
      as (lb & due & Hget & Hdue & Hpost);
      [split; reflexivity | reflexivity | discriminate |].
    injection Hget as <-. exists due. split; [exact Hpost|].
    rewrite Hdue; [reflexivity | discriminate].
Defined.

(** * Submitting twice *)




Lemma updateById_twice {doc : Type} (id_of : doc -> oid) (i : oid)
  (apply : doc -> doc) (c : list doc) :
  (forall x, id_of (apply x) = id_of x) ->
  (forall x, apply (apply x) = apply x) ->
  Model.updateById id_of i apply (Model.updateById id_of i apply c)
  = Model.updateById id_of i apply c.
Proof.
  intros Hid Hidem. induction c as [|x rest IH]; simpl; [reflexivity|].
  destruct (String.eqb (id_of x) i) eqn:E; simpl.
  - now rewrite Hid, E, Hidem.
  - now rewrite E, IH.
Qed.

Lemma set_path_twice {A : Type} (stored update : optional A) :
  set_path (set_path stored update) update = set_path stored update.
Proof. now destruct update. Qed.

Lemma set_ref_twice (stored update : option oid) :
  set_ref (set_ref stored update) update = set_ref stored update.
Proof. now destruct update. Qed.

Section UpdateTwice.

Variable isISO8601 : string -> bool.
Variable toDate : string -> option date.

(** X20. Submitting the same update-POST a second time changes nothing
    more: for each of the four entities, whatever is posted and whether
    or not the identifier names a record, the store after the second
    request is the store after the first. *)
Theorem update_post_twice :
  forall (params_id : oid) (s : store),
    (forall posted,
        let s' :=
          db (snd (run (author_update_post isISO8601 toDate params_id posted)
                     s)) in
        db (snd (run (author_update_post isISO8601 toDate params_id posted)
                   s'))
        = s')
    /\ (forall posted,
           let s' := db (snd (run (genre_update_post params_id posted) s)) in
           db (snd (run (genre_update_post params_id posted) s')) = s')
    /\ (forall posted,
           let s' := db (snd (run (book_update_post params_id posted) s)) in
           db (snd (run (book_update_post params_id posted) s')) = s')
    /\ (forall posted,
           let s' :=
             db (snd (run (bookinstance_update_post isISO8601 toDate
                             params_id posted) s)) in
           db (snd (run (bookinstance_update_post isISO8601 toDate params_id
                           posted) s'))
           = s').
Proof.
  intros params_id s. refine (conj _ (conj _ (conj _ _))); intros posted.
  - unfold run, author_update_post.
    destruct (author_chains isISO8601 toDate posted) as [body errors].
    destruct errors; simpl; [|reflexivity].
    unfold with_authors. simpl. f_equal.
    apply updateById_twice; intros x; [reflexivity|].
    unfold Author.set. simpl. now rewrite !set_path_twice.
  - unfold run, genre_update_post.
    destruct (genre_chains posted) as [body errors].
    destruct errors; simpl; [|reflexivity].
    unfold with_genres. simpl. f_equal.
    apply updateById_twice; intros x; reflexivity.
  - unfold run, book_update_post.
    destruct (book_chains (genre_to_array posted)) as [body errors].
    unfold book_update_handler.
    destruct errors as [|e errors]; [|reflexivity].
    cbn [isEmpty negb].
    set (u := Book.mk params_id _ _ _ _ _).
    assert (E : forall c : list Book.t,
               Model.updateById Book._id params_id (Book.set u)
                 (Model.updateById Book._id params_id (Book.set u) c)
               = Model.updateById Book._id params_id (Book.set u) c).
    { intros c. apply updateById_twice; intros x; [reflexivity|].
      unfold Book.set. cbn. now rewrite set_ref_twice. }
    assert (D : forall s0 : store,
               db (snd
                     ((thebook <-
                         findByIdAndUpdate Book._id Book.set books with_books
                           params_id u ;;
                       found <- property_of "url" thebook ;;
                       res_redirect (Book.url found)) (mkWorld s0 [])))
               = with_books
                   (Model.updateById Book._id params_id (Book.set u)) s0).
    { intros s0. unfold findByIdAndUpdate, bind, query, modify.
      cbn [db res].
      destruct (Model.findById Book._id params_id (books s0)); reflexivity. }
    cbv zeta. rewrite !D. unfold with_books. cbn [books]. now rewrite E.
  - unfold run, bookinstance_update_post.
    destruct (bookinstance_chains isISO8601 toDate posted) as [body errors].
    destruct errors; simpl.
    + unfold with_bookinstances. simpl. f_equal.
      apply updateById_twice; intros x; [reflexivity|].
      unfold BookInstance.set. simpl.
      now rewrite set_ref_twice, set_path_twice.
    + unfold bind, query. simpl.
      destruct (castObjectId (book body)); reflexivity.
Qed.

End UpdateTwice.
